(** * Clinic patient queue backend: queue ordering, visit transitions, tokens

    A shallow embedding of [src/db.ts], [src/auth.ts], [src/classes.ts]
    and the routes of the Express application, followed by the properties
    the specification states about them and by further properties of the
    same code.

    Conventions.
    - A JavaScript string is a [string] of code units below 256 (request
      headers reach the handlers decoded as Latin-1).
    - A JavaScript [number] is [NaN] or an integral value; [Int z] is exact
      for the safe integers, the range in which ids and timestamps live.
    - The relational store is the list of rows of each table with the
      constraints of the schema created by [initDb] (primary keys, the
      UNIQUE email, SERIAL sequences).  A query is the list function its
      SQL text denotes.  Connection loss, the widths of the VARCHAR
      columns and the range of the integer columns are outside the model.
    - The clock is an argument of the operations that read it.
    - A request is its Authorization header and the cookie jar
      cookie-parser leaves, whose values are texts.  A response is what a
      handler sends; what a handler does after it has sent it is outside
      the model.
    - The third-party signing primitive and wire codec of jsonwebtoken,
      the bcrypt primitives, and the email pattern and default messages of
      zod are section variables. *)

From Stdlib Require Import ZArith List String Ascii Bool Lia.
From Stdlib Require Import Permutation Sorted DecimalString DecimalZ DecimalPos.
From Stdlib Require Import OrderedTypeEx.
From stdpp Require Import base strings gmap countable.
Import ListNotations.

Open Scope string_scope.
Open Scope Z_scope.

#[local] Arguments String.append _ _ : simpl nomatch.

(** ** JavaScript primitives used by the sources *)

Module Js.

Inductive number : Type :=
| NaN
| Int (z : Z).

(** The values a token claim such as [sub] can hold
    ([string | number], or missing, or null). *)
Inductive value : Type :=
| Undefined
| Null
| Num (n : number)
| Str (s : string).

(** Outcome of a call: a returned value or a thrown exception. *)
Inductive exn : Type :=
| Error (message : string)
| DatabaseError (code : string) (message : string).

Inductive result (A : Type) : Type :=
| Ok (a : A)
| Throw (e : exn).
Arguments Ok {A} a.
Arguments Throw {A} e.

Definition MAX_SAFE_INTEGER : Z := 2 ^ 53 - 1.

Definition isSafeInteger (z : Z) : bool :=
  (- MAX_SAFE_INTEGER <=? z) && (z <=? MAX_SAFE_INTEGER).

Definition char (n : nat) : ascii := ascii_of_nat n.

Definition quote : ascii := char 34.

(** WhiteSpace and LineTerminator code units below 256. *)
Definition isWhiteSpace (c : ascii) : bool :=
  let n := nat_of_ascii c in
  ((9 <=? n) && (n <=? 13) || (n =? 32) || (n =? 160))%nat.

Definition isDigit (c : ascii) : bool :=
  let n := nat_of_ascii c in ((48 <=? n) && (n <=? 57))%nat.

Definition digitValue (c : ascii) : Z := Z.of_nat (nat_of_ascii c) - 48.

(** [s.length > 0]: the truthiness of a string. *)
Definition truthy (s : string) : bool :=
  match s with EmptyString => false | String _ _ => true end.

Fixpoint trimStart (s : string) : string :=
  match s with
  | EmptyString => EmptyString
  | String c s' => if isWhiteSpace c then trimStart s' else s
  end.

Fixpoint trimEnd (s : string) : string :=
  match s with
  | EmptyString => EmptyString
  | String c s' =>
      match trimEnd s' with
      | EmptyString => if isWhiteSpace c then EmptyString else String c EmptyString
      | t => String c t
      end
  end.

Definition trim (s : string) : string := trimEnd (trimStart s).

Definition lowerChar (c : ascii) : ascii :=
  let n := nat_of_ascii c in
  if ((65 <=? n) && (n <=? 90)
      || (192 <=? n) && (n <=? 222) && negb (n =? 215))%nat
  then ascii_of_nat (n + 32) else c.

Fixpoint toLowerCase (s : string) : string :=
  match s with
  | EmptyString => EmptyString
  | String c s' => String (lowerChar c) (toLowerCase s')
  end.

Fixpoint startsWith (s p : string) {struct p} : bool :=
  match p with
  | EmptyString => true
  | String b p' =>
      match s with
      | EmptyString => false
      | String a s' => Ascii.eqb a b && startsWith s' p'
      end
  end.

(** [s.split(sep)] for a one-character separator. *)
Fixpoint split (sep : ascii) (s : string) : list string :=
  match s with
  | EmptyString => [EmptyString]
  | String c s' =>
      if Ascii.eqb c sep then EmptyString :: split sep s'
      else match split sep s' with
           | piece :: rest => String c piece :: rest
           | [] => [String c EmptyString]
           end
  end.

(** [s.split(sep, limit)] *)
Definition splitLimit (sep : ascii) (limit : nat) (s : string) : list string :=
  firstn limit (split sep s).

Fixpoint dropTrailingQuote (s : string) : string :=
  match s with
  | EmptyString => EmptyString
  | String c EmptyString => if Ascii.eqb c quote then EmptyString else s
  | String c s' => String c (dropTrailingQuote s')
  end.

(** [s.replace] with the pattern quote-at-start or quote-at-end, global,
    by the empty string: one quote removed at the start, one at the end. *)
Definition replaceWrappingQuotes (s : string) : string :=
  match s with
  | String c s' => if Ascii.eqb c quote then dropTrailingQuote s' else dropTrailingQuote s
  | EmptyString => EmptyString
  end.

(** Longest prefix of decimal digits, read as a number, and what follows. *)
Fixpoint readDigits (s : string) (acc : Z) : Z * string :=
  match s with
  | String c s' => if isDigit c then readDigits s' (10 * acc + digitValue c) else (acc, s)
  | EmptyString => (acc, s)
  end.

Definition startsWithDigit (s : string) : bool :=
  match s with String c _ => isDigit c | EmptyString => false end.

(** An optional sign followed by digits; [None] when no digit follows. *)
Definition readInteger (s : string) : option (Z * string) :=
  match s with
  | String "-" s' =>
      if startsWithDigit s' then
        let '(n, rest) := readDigits s' 0 in Some (- n, rest)
      else None
  | String "+" s' =>
      if startsWithDigit s' then Some (readDigits s' 0) else None
  | _ => if startsWithDigit s then Some (readDigits s 0) else None
  end.

(** [parseInt(s, 10)] *)
Definition parseInt (s : string) : number :=
  match readInteger (trimStart s) with
  | Some (n, _) => Int n
  | None => NaN
  end.

(** [String(n)] for a number. *)
Definition numberToString (n : number) : string :=
  match n with
  | NaN => "NaN"
  | Int z => NilEmpty.string_of_int (Z.to_int z)
  end.

(** [String(v)] *)
Definition String_ (v : value) : string :=
  match v with
  | Undefined => "undefined"
  | Null => "null"
  | Num n => numberToString n
  | Str s => s
  end.

(** Truthiness of an optional number ([expiresDelta ? ... : ...]). *)
Definition truthyNumber (n : option number) : bool :=
  match n with
  | Some (Int z) => negb (z =? 0)
  | Some NaN | None => false
  end.

(** [a || b] on optional strings: the first truthy operand, else the last. *)
Definition orElse (a b : option string) : option string :=
  match a with
  | Some s => if truthy s then a else b
  | None => b
  end.

(** [a || b] where [b] is a string literal. *)
Definition orString (a : option string) (b : string) : string :=
  match a with
  | Some s => if truthy s then s else b
  | None => b
  end.

End Js.

Export Js.

(** ** Tables of the schema created by [initDb] *)

(** [patients(id SERIAL PRIMARY KEY, name, problem, priority, "arrivalTime", status)] *)
Module patients.
Record row : Type := mk {
  id : Z;
  name : string;
  problem : string;
  priority : string;
  arrivalTime : string;
  status : string
}.

Definition set_status (st : string) (r : row) : row :=
  mk (id r) (name r) (problem r) (priority r) (arrivalTime r) st.
End patients.

(** [users(id SERIAL PRIMARY KEY, name, email UNIQUE, password, role)] *)
Module users.
Record row : Type := mk {
  id : Z;
  name : string;
  email : string;
  password : string;
  role : string
}.
End users.

(** [interface PatientRow]: a patients row as the driver hands it back. *)
Module PatientRow.
Record t : Type := mk {
  id : Z;
  name : string;
  problem : string;
  priority : string;
  arrivalTime : option string;
  arrivaltime : option string;
  arrival_time : option string;
  status : string
}.
End PatientRow.

(** The patient object returned by the queue functions. *)
Module Patient.
Record t : Type := mk {
  id : Z;
  name : string;
  problem : string;
  priority : string;
  arrivalTime : string;
  status : string
}.
End Patient.

(** [interface UserRow] *)
Module UserRow.
Record t : Type := mk {
  id : Z;
  name : string;
  email : string;
  role : string;
  password : option string
}.
End UserRow.

(** The public projection of a user. *)
Module User.
Record t : Type := mk {
  id : Z;
  name : string;
  email : string;
  role : string
}.
End User.

(** The user with its password hash, as [getUserByEmail] returns it. *)
Module UserWithPassword.
Record t : Type := mk {
  id : Z;
  name : string;
  email : string;
  password : string;
  role : string
}.
End UserWithPassword.

Module Stats.
Record t : Type := mk {
  totalWaiting : number;
  totalEmergency : number;
  totalVisited : number
}.
End Stats.

(** ** The store and its statements *)

Module Pg.

Record database : Type := mk {
  patients_rows : list patients.row;
  patients_id_seq : Z;
  users_rows : list users.row;
  users_id_seq : Z
}.

(** A freshly created schema: empty tables, sequences at 1. *)
Definition empty : database := mk [] 1 [] 1.

Definition unique_violation : string := "23505".
Definition invalid_text_representation : string := "22P02".

(** The column named with quotes comes back under the key [arrivalTime]. *)
Definition patient_result_row (r : patients.row) : PatientRow.t :=
  PatientRow.mk (patients.id r) (patients.name r) (patients.problem r)
    (patients.priority r) (Some (patients.arrivalTime r)) None None
    (patients.status r).

Definition user_result_row (r : users.row) : UserRow.t :=
  UserRow.mk (users.id r) (users.name r) (users.email r) (users.role r)
    (Some (users.password r)).

Definition patient_has_id (i : Z) (r : patients.row) : bool := patients.id r =? i.
Definition user_has_id (i : Z) (r : users.row) : bool := users.id r =? i.
Definition user_has_email (e : string) (r : users.row) : bool :=
  String.eqb (users.email r) e.
Definition has_status (st : string) (r : patients.row) : bool :=
  String.eqb (patients.status r) st.
Definition has_priority (pr : string) (r : patients.row) : bool :=
  String.eqb (patients.priority r) pr.

(** [SELECT * FROM patients WHERE id = $1] *)
Definition select_patient_by_id (i : Z) (d : database) : list patients.row :=
  List.filter (patient_has_id i) (patients_rows d).

(** [INSERT INTO patients (name, problem, priority, "arrivalTime", status)
    VALUES ($1, $2, $3, $4, $5) RETURNING *].  The id is drawn from the
    sequence, which advances whether or not the row is accepted; the
    primary key rejects an id that is already stored. *)
Definition insert_patient (name problem priority arrival status : string)
    (d : database) : result patients.row * database :=
  let i := patients_id_seq d in
  let r := patients.mk i name problem priority arrival status in
  if existsb (patient_has_id i) (patients_rows d)
  then (Throw (DatabaseError unique_violation
                 "duplicate key value violates unique constraint patients_pkey"),
        mk (patients_rows d) (i + 1) (users_rows d) (users_id_seq d))
  else (Ok r,
        mk (patients_rows d ++ [r]) (i + 1) (users_rows d) (users_id_seq d)).

(** [UPDATE patients SET status='Visited' WHERE id = $1 RETURNING *] *)
Definition update_visited (i : Z) (d : database) : list patients.row * database :=
  let mark r := if patient_has_id i r then patients.set_status "Visited" r else r in
  let rows := List.map mark (patients_rows d) in
  (List.filter (patient_has_id i) rows,
   mk rows (patients_id_seq d) (users_rows d) (users_id_seq d)).

(** [SELECT COUNT( * ) as count FROM patients WHERE ...]: a bigint, which
    the driver returns as its decimal text. *)
Definition count_text (p : patients.row -> bool) (d : database) : string :=
  numberToString (Int (Z.of_nat (length (List.filter p (patients_rows d))))).

(** [INSERT INTO users (name, email, password, role) VALUES ($1, $2, $3, $4)
    RETURNING id, name, email, role] *)
Definition insert_user (name email password role : string) (d : database)
    : result users.row * database :=
  let i := users_id_seq d in
  let r := users.mk i name email password role in
  if existsb (user_has_id i) (users_rows d)
  then (Throw (DatabaseError unique_violation
                 "duplicate key value violates unique constraint users_pkey"),
        mk (patients_rows d) (patients_id_seq d) (users_rows d) (i + 1))
  else if existsb (user_has_email email) (users_rows d)
  then (Throw (DatabaseError unique_violation
                 "duplicate key value violates unique constraint users_email_key"),
        mk (patients_rows d) (patients_id_seq d) (users_rows d) (i + 1))
  else (Ok r,
        mk (patients_rows d) (patients_id_seq d) (users_rows d ++ [r]) (i + 1)).

(** [ORDER BY]: rows in ascending order of [leb], rows that compare equal
    in table order. *)
Fixpoint insert_sorted {A : Type} (leb : A -> A -> bool) (x : A) (l : list A) : list A :=
  match l with
  | [] => [x]
  | y :: l' => if leb x y then x :: l else y :: insert_sorted leb x l'
  end.

Fixpoint order_by {A : Type} (leb : A -> A -> bool) (l : list A) : list A :=
  match l with
  | [] => []
  | x :: l' => insert_sorted leb x (order_by leb l')
  end.

(** [INSERT INTO patients (id, name, problem, priority, "arrivalTime", status)
    VALUES ($1, $2, $3, $4, $5, $6)]: the id is given, so the sequence is
    not consulted and does not advance. *)
Definition insert_patient_with_id (r : patients.row) (d : database)
    : result patients.row * database :=
  if existsb (patient_has_id (patients.id r)) (patients_rows d)
  then (Throw (DatabaseError unique_violation
                 "duplicate key value violates unique constraint patients_pkey"),
        d)
  else (Ok r,
        mk (patients_rows d ++ [r]) (patients_id_seq d) (users_rows d) (users_id_seq d)).

End Pg.

(** ** jsonwebtoken, as the sources use it *)

Module JWTPayload.
Record t : Type := mk {
  sub : value;
  email : option string;
  role : option string;
  iat : option Z;
  nbf : option Z;
  exp : option Z
}.

Definition set_sub (v : value) (p : t) : t :=
  mk v (email p) (role p) (iat p) (nbf p) (exp p).

Definition set_times (issued expires : Z) (p : t) : t :=
  mk (sub p) (email p) (role p) (Some issued) (nbf p) (Some expires).
End JWTPayload.

Module Jwt.

(** A decoded token: the algorithm of its header, its payload, its signature. *)
Record jws : Type := mk {
  alg : string;
  payload : JWTPayload.t;
  signature : string
}.

Section Library.

(** The signature of a header (its algorithm) and payload under a key.  With
    a shared secret the algorithm is an HMAC: verifying is signing again and
    comparing. *)
Variable jws_sign : string -> string -> JWTPayload.t -> string.
(** The compact serialization and its parser. *)
Variable jws_encode : jws -> string.
Variable jws_decode : string -> option jws.

(** The time span grammar, for the one shape [createAccessToken] builds:
    whole seconds followed by the unit [s]. *)
Definition seconds_of_span (time : string) : option Z :=
  let '(negative, body) :=
    match time with
    | String "-" t => (true, t)
    | _ => (false, time)
    end in
  if startsWithDigit body then
    match readDigits body 0 with
    | (n, "s") => Some (if negative then - n else n)
    | _ => None
    end
  else None.

(** [jwt.sign(payload, secret, { algorithm, expiresIn })] at clock [now]
    (seconds since the epoch): iat is the payload's own if it has one, else
    the clock; exp is iat plus the span. *)
Definition sign (payload : JWTPayload.t) (secret algorithm expiresIn : string)
    (now : Z) : result string :=
  let timestamp :=
    match JWTPayload.iat payload with
    | Some t => if t =? 0 then now else t
    | None => now
    end in
  match JWTPayload.exp payload with
  | Some _ => Throw (Error "Bad options.expiresIn option the payload already has an exp property")
  | None =>
      match seconds_of_span expiresIn with
      | None => Throw (Error "expiresIn should be a number of seconds or string representing a timespan")
      | Some n =>
          let p := JWTPayload.set_times timestamp (timestamp + n) payload in
          Ok (jws_encode (mk algorithm p (jws_sign algorithm secret p)))
      end
  end.

(** [jwt.verify(token, secret, { algorithms })] at clock [now]: the token
    must parse, name an allowed algorithm, carry the signature the secret
    gives, be active (nbf) and not expired (exp). *)
Definition verify (token secret : string) (algorithms : list string) (now : Z)
    : result JWTPayload.t :=
  match jws_decode token with
  | None => Throw (Error "jwt malformed")
  | Some t =>
      if negb (existsb (String.eqb (alg t)) algorithms)
      then Throw (Error "invalid algorithm")
      else if negb (String.eqb (signature t) (jws_sign (alg t) secret (payload t)))
      then Throw (Error "invalid signature")
      else if match JWTPayload.nbf (payload t) with
              | Some b => now <? b
              | None => false
              end
      then Throw (Error "jwt not active")
      else if match JWTPayload.exp (payload t) with
              | Some e => e <=? now
              | None => false
              end
      then Throw (Error "jwt expired")
      else Ok (payload t)
  end.

End Library.
End Jwt.

(** ** auth.ts *)

Module Claims.
(** The record handed to [createAccessToken]: [{ sub, email, role }]. *)
Record t : Type := mk {
  sub : value;
  email : option string;
  role : option string
}.
End Claims.

Module CurrentUser.
Record t : Type := mk {
  user_id : number;
  email : option string;
  role : option string
}.
End CurrentUser.

Module Request.
Record t : Type := mk {
  authorization : option string;
  cookies : option (gmap string string)
}.
End Request.

Module Auth.

Definition ACCESS_TOKEN_EXPIRE_MINUTES : Z := 60 * 24.

Definition invalid_credentials : string := "Invalid authentication credentials".

(** What the middleware does with a request. *)
Inductive outcome : Type :=
| Next (currentUser : CurrentUser.t)
| Respond (status : Z) (message : string).

Definition message_of (e : exn) : string :=
  match e with
  | Error m => m
  | DatabaseError _ m => m
  end.

(** No character of [s] is white space or a quote. *)
Fixpoint plainChars (s : string) : bool :=
  match s with
  | EmptyString => true
  | String c s' => negb (isWhiteSpace c) && negb (Ascii.eqb c quote) && plainChars s'
  end.

(** A bearer token as clients send it: not empty, of plain characters, and
    not the text null or undefined in any casing. *)
Definition wellFormedBearer (token : string) : bool :=
  truthy token && plainChars token
  && negb (String.eqb (toLowerCase token) "null")
  && negb (String.eqb (toLowerCase token) "undefined").

Section Auth.

Variable JWT_SECRET : string.
Variable JWT_ALGORITHM : string.
Variable JWT_COOKIE_NAME : string.

Variable jws_sign : string -> string -> JWTPayload.t -> string.
Variable jws_encode : Jwt.jws -> string.
Variable jws_decode : string -> option Jwt.jws.

(** [bcrypt.hash(data, rounds)] with the salt it draws, and
    [bcrypt.compare(data, encrypted)] with the outcome of its promise. *)
Variable bcrypt_hash : string -> Z -> string -> string.
Variable bcrypt_compare : string -> string -> result bool.

Definition hashPassword (password salt : string) : string :=
  bcrypt_hash password 10 salt.

Definition verifyPassword (plainPassword hashedPassword : string) : result bool :=
  bcrypt_compare plainPassword hashedPassword.

Definition createAccessToken (data : Claims.t) (expiresDelta : option number)
    (now : Z) : result string :=
  let toEncode :=
    JWTPayload.mk (Claims.sub data) (Claims.email data) (Claims.role data)
      None None None in
  let toEncode :=
    match JWTPayload.sub toEncode with
    | Undefined => toEncode
    | v => JWTPayload.set_sub (Str (String_ v)) toEncode
    end in
  let expiresIn :=
    match expiresDelta with
    | Some n => if truthyNumber expiresDelta then n
                else Int (ACCESS_TOKEN_EXPIRE_MINUTES * 60)
    | None => Int (ACCESS_TOKEN_EXPIRE_MINUTES * 60)
    end in
  Jwt.sign jws_sign jws_encode toEncode JWT_SECRET JWT_ALGORITHM
    (numberToString expiresIn +:+ "s") now.

Definition decodeToken (token : string) (now : Z) : result JWTPayload.t :=
  match Jwt.verify jws_sign jws_decode token JWT_SECRET [JWT_ALGORITHM] now with
  | Ok payload => Ok payload
  | Throw _ => Throw (Error invalid_credentials)
  end.

(** The cookie branch of [extractToken]. *)
Definition cookieToken (request : Request.t) : option string :=
  match Request.cookies request with
  | Some jar => jar !! JWT_COOKIE_NAME
  | None => None
  end.

Definition extractToken (request : Request.t) : result string :=
  let fromCookie :=
    match cookieToken request with
    | Some c => if truthy c then Ok c else Throw (Error invalid_credentials)
    | None => Throw (Error invalid_credentials)
    end in
  match Request.authorization request with
  | Some authHeader =>
      if truthy authHeader && startsWith (toLowerCase authHeader) "bearer "
      then
        match splitLimit " " 2 authHeader !! 1%nat with
        | Some piece =>
            let bearerToken := trim (replaceWrappingQuotes (trim piece)) in
            if truthy bearerToken
               && negb (String.eqb (toLowerCase bearerToken) "null")
               && negb (String.eqb (toLowerCase bearerToken) "undefined")
            then Ok bearerToken
            else fromCookie
        | None => Throw (Error "Cannot read properties of undefined")
        end
      else fromCookie
  | None => fromCookie
  end.

(** The coercion both resolvers apply to the subject claim: the raw value
    when its type is number, otherwise [parseInt(String(userIdRaw), 10)]. *)
Definition userIdOf (userIdRaw : value) : number :=
  match userIdRaw with
  | Num n => n
  | v => parseInt (String_ v)
  end.

(** [getCurrentUser(request)], without the optional response and next. *)
Definition getCurrentUser (request : Request.t) (now : Z) : result CurrentUser.t :=
  match extractToken request with
  | Throw e => Throw e
  | Ok token =>
      match decodeToken token now with
      | Throw e => Throw e
      | Ok payload =>
          match JWTPayload.sub payload with
          | Undefined | Null => Throw (Error invalid_credentials)
          | userIdRaw =>
              Ok (CurrentUser.mk (userIdOf userIdRaw)
                    (JWTPayload.email payload) (JWTPayload.role payload))
          end
      end
  end.

(** The handler [authMiddleware()] returns. *)
Definition authMiddleware (req : Request.t) (now : Z) : outcome :=
  match extractToken req with
  | Throw e => Respond 401 (message_of e)
  | Ok token =>
      match decodeToken token now with
      | Throw e => Respond 401 (message_of e)
      | Ok payload =>
          match JWTPayload.sub payload with
          | Undefined | Null => Respond 401 invalid_credentials
          | userIdRaw =>
              Next (CurrentUser.mk (userIdOf userIdRaw)
                      (JWTPayload.email payload) (JWTPayload.role payload))
          end
      end
  end.

End Auth.
End Auth.

(** ** db.ts *)

Module Db.

(** The operations of the patient queue, as a client issues them. *)
Inductive op : Type :=
| AddPatient (name problem priority now : string)
| GetAllPatients
| MarkVisited (patient_id : number)
| GetStats.

Inductive reply : Type :=
| Added (r : result Patient.t)
| Listed (l : list Patient.t)
| Marked (r : result (option Patient.t * option string))
| Counted (s : Stats.t).

Definition rowToPatient (r : PatientRow.t) : Patient.t :=
  let arrival :=
    orString
      (orElse (orElse (PatientRow.arrivalTime r) (PatientRow.arrivaltime r))
         (PatientRow.arrival_time r))
      EmptyString in
  Patient.mk (PatientRow.id r) (PatientRow.name r) (PatientRow.problem r)
    (PatientRow.priority r) arrival (PatientRow.status r).

Definition rowToUser (r : UserRow.t) : User.t :=
  User.mk (UserRow.id r) (UserRow.name r) (UserRow.email r) (UserRow.role r).

(** The handler of the [catch] in [createUser]. *)
Definition createUser_catch (error : exn) : exn :=
  match error with
  | DatabaseError code _ =>
      if String.eqb code "23505" then Error "Email already exists" else error
  | Error _ => error
  end.

(** [CASE WHEN priority='Emergency' THEN 0 ELSE 1 END] *)
Definition priority_rank (r : patients.row) : Z :=
  if Pg.has_priority "Emergency" r then 0 else 1.

(** [now.replace] of a final dot, three digits and Z by Z: the ISO text of
    the clock with its milliseconds removed. *)
Fixpoint dropMillis (iso : string) : string :=
  match iso with
  | EmptyString => EmptyString
  | String c rest =>
      match c, rest with
      | "."%char, String d1 (String d2 (String d3 (String "Z" EmptyString))) =>
          if isDigit d1 && isDigit d2 && isDigit d3 then "Z"
          else String c (dropMillis rest)
      | _, _ => String c (dropMillis rest)
      end
  end.

(** Vocabulary of the properties below. *)

(** The patient a stored row stands for. *)
Definition patient_of (r : patients.row) : Patient.t :=
  Patient.mk (patients.id r) (patients.name r) (patients.problem r)
    (patients.priority r) (patients.arrivalTime r) (patients.status r).

(** The primary key of [patients]: no id is stored twice. *)
Definition pk_patients (d : Pg.database) : Prop :=
  List.NoDup (List.map patients.id (Pg.patients_rows d)).

(** A patient with id [i] is stored. *)
Definition stored (i : Z) (d : Pg.database) : Prop :=
  exists r, In r (Pg.patients_rows d) /\ patients.id r = i.

(** A patient with id [i] is stored with status [st]. *)
Definition stored_with (i : Z) (st : string) (d : Pg.database) : Prop :=
  exists r, In r (Pg.patients_rows d) /\ patients.id r = i /\ patients.status r = st.

(** Every stored user id was drawn from the sequence of [users]. *)
Definition users_from_seq (d : Pg.database) : Prop :=
  forall u, In u (Pg.users_rows d) -> users.id u < Pg.users_id_seq d.

(** The patient with id [i] is stored and every row under that id has
    status Visited. *)
Definition visited (i : Z) (d : Pg.database) : Prop :=
  stored i d
  /\ forall r, In r (Pg.patients_rows d) -> patients.id r = i ->
               patients.status r = "Visited".

(** [p] stands before [q] in [l]. *)
Definition before {A : Type} (p q : A) (l : list A) : Prop :=
  exists l1 l2 l3 : list A, l = (l1 ++ p :: l2 ++ q :: l3)%list.

Section Db.

(** The order of the database collation on text, as [<=]. *)
Variable collate_leb : string -> string -> bool.

Variable bcrypt_hash : string -> Z -> string -> string.

(** The two keys of the [ORDER BY] of [getAllPatients]. *)
Definition queue_leb (a b : patients.row) : bool :=
  (priority_rank a <? priority_rank b)
  || (priority_rank a =? priority_rank b)
     && collate_leb (patients.arrivalTime a) (patients.arrivalTime b).

Definition createUser (name email password role salt : string) (d : Pg.database)
    : result User.t * Pg.database :=
  let hashedPassword := Auth.hashPassword bcrypt_hash password salt in
  match Pg.insert_user name email hashedPassword role d with
  | (Ok row, d') => (Ok (rowToUser (Pg.user_result_row row)), d')
  | (Throw error, d') => (Throw (createUser_catch error), d')
  end.

Definition getUserByEmail (email : string) (d : Pg.database)
    : option UserWithPassword.t :=
  match List.filter (Pg.user_has_email email) (Pg.users_rows d) with
  | [] => None
  | user :: _ =>
      Some (UserWithPassword.mk (users.id user) (users.name user)
              (users.email user) (users.password user) (users.role user))
  end.

Definition getUserById (user_id : Z) (d : Pg.database) : option User.t :=
  match List.filter (Pg.user_has_id user_id) (Pg.users_rows d) with
  | [] => None
  | row :: _ => Some (rowToUser (Pg.user_result_row row))
  end.

Definition getAllPatients (d : Pg.database) : list Patient.t :=
  let rows :=
    Pg.order_by queue_leb
      (List.filter (Pg.has_status "Waiting") (Pg.patients_rows d)) in
  List.map (fun r => rowToPatient (Pg.patient_result_row r)) rows.

(** [now] is the text [new Date().toISOString()] yields. *)
Definition addPatient (name problem priority now : string) (d : Pg.database)
    : result Patient.t * Pg.database :=
  let arrival := dropMillis now in
  match Pg.insert_patient name problem priority arrival "Waiting" d with
  | (Ok row, d') => (Ok (rowToPatient (Pg.patient_result_row row)), d')
  | (Throw error, d') => (Throw error, d')
  end.

(** A [patient_id] that is not an integer is refused by the store when it
    binds the parameter of the first query. *)
Definition markVisited (patient_id : number) (d : Pg.database)
    : result (option Patient.t * option string) * Pg.database :=
  match patient_id with
  | NaN =>
      (Throw (DatabaseError Pg.invalid_text_representation
                "invalid input syntax for type integer"), d)
  | Int i =>
      match Pg.select_patient_by_id i d with
      | [] => (Ok (None, Some "not_found"), d)
      | row :: _ =>
          if String.eqb (patients.status row) "Visited"
          then (Ok (None, Some "already_visited"), d)
          else
            match Pg.update_visited i d with
            | (updated :: _, d') =>
                (Ok (Some (rowToPatient (Pg.patient_result_row updated)), None), d')
            | ([], d') =>
                (Throw (Error "Cannot read properties of undefined"), d')
            end
      end
  end.

Definition getStats (d : Pg.database) : Stats.t :=
  let waiting := parseInt (Pg.count_text (Pg.has_status "Waiting") d) in
  let emergency :=
    parseInt
      (Pg.count_text
         (fun r => Pg.has_status "Waiting" r && Pg.has_priority "Emergency" r) d) in
  let visited := parseInt (Pg.count_text (Pg.has_status "Visited") d) in
  Stats.mk waiting emergency visited.

(** One operation against the store. *)
Definition exec (o : op) (d : Pg.database) : reply * Pg.database :=
  match o with
  | AddPatient name problem priority now =>
      let '(r, d') := addPatient name problem priority now d in (Added r, d')
  | GetAllPatients => (Listed (getAllPatients d), d)
  | MarkVisited patient_id =>
      let '(r, d') := markVisited patient_id d in (Marked r, d')
  | GetStats => (Counted (getStats d), d)
  end.

(** A sequence of operations, with the replies in order. *)
Fixpoint run (ops : list op) (d : Pg.database) : list reply * Pg.database :=
  match ops with
  | [] => ([], d)
  | o :: ops' =>
      let '(r, d') := exec o d in
      let '(rs, d'') := run ops' d' in
      (r :: rs, d'')
  end.

(** The loop of [initDb] over the entries of data.json.  An entry is the
    row its six values make, or [None] when the store refuses them (a value
    missing for a NOT NULL column, an id that is not an integer).  The first
    entry refused, or whose id is already stored, throws; the enclosing
    [catch] ignores the error, so the loop ends there and the rows inserted
    before stay. *)
Fixpoint migrate (data : list (option patients.row)) (d : Pg.database)
    : Pg.database :=
  match data with
  | [] => d
  | None :: _ => d
  | Some p :: rest =>
      match Pg.insert_patient_with_id p d with
      | (Ok _, d') => migrate rest d'
      | (Throw _, d') => d'
      end
  end.

(** [initDb], on a store whose tables exist.  [salt] is the salt bcrypt
    draws for the admin password; [dataFile] is [None] when data.json is
    missing or does not hold a JSON array, else its entries. *)
Definition initDb (salt : string) (dataFile : option (list (option patients.row)))
    (d : Pg.database) : result unit * Pg.database :=
  let afterAdmin :=
    match List.filter (Pg.user_has_email "admin@clinic.com") (Pg.users_rows d) with
    | [] =>
        let hashedPassword := Auth.hashPassword bcrypt_hash "admin123" salt in
        match Pg.insert_user "Admin User" "admin@clinic.com" hashedPassword "admin" d with
        | (Ok _, d') => (Ok tt, d')
        | (Throw error, d') => (Throw error, d')
        end
    | _ :: _ => (Ok tt, d)
    end in
  match afterAdmin with
  | (Throw error, d') => (Throw error, d')
  | (Ok _, d') =>
      let patientCount := parseInt (Pg.count_text (fun _ => true) d') in
      match patientCount with
      | Int 0 =>
          match dataFile with
          | Some data => (Ok tt, migrate data d')
          | None => (Ok tt, d')
          end
      | _ => (Ok tt, d')
      end
  end.

End Db.
End Db.

(** ** classes.ts *)

Module PatientIn.
Record t : Type := mk {
  name : string;
  problem : string;
  priority : string
}.
End PatientIn.

Module SignupRequest.
Record t : Type := mk {
  name : string;
  email : string;
  password : string
}.
End SignupRequest.

Module LoginRequest.
Record t : Type := mk {
  email : string;
  password : string
}.
End LoginRequest.

Module Classes.

(** [enum Priority]: the two texts it holds. *)
Definition Priority_Normal : string := "Normal".
Definition Priority_Emergency : string := "Emergency".

Definition NAME_LEN : nat := 3.
Definition PROBLEM_LEN : nat := 3.
Definition PASSWORD_LEN : nat := 6.

(** A JSON value as the schemas look at it: a string, or anything else,
    named by the type zod reports for it. *)
Inductive json : Type :=
| JString (s : string)
| JOther (received : string).

(** The [unknown] input of a schema: a JSON object with its keys, or
    anything else. *)
Inductive unknown : Type :=
| Object (o : gmap string json)
| NotObject (received : string).

(** The result of [safeParse]: the data, or the messages of the issues in
    the order of the keys of the schema. *)
Inductive SafeParse (A : Type) : Type :=
| Success (data : A)
| Failure (messages : list string).
Arguments Success {A} data.
Arguments Failure {A} messages.

(** The message template of the length checks. *)
Definition at_least (key : string) (len : nat) : string :=
  key +:+ " must be at least " +:+ numberToString (Int (Z.of_nat len))
  +:+ " characters".

(** The outcome of one key: its value, or the message of its issue. *)
Definition messages_of {A : Type} (r : A + string) : list string :=
  match r with
  | inl _ => []
  | inr message => [message]
  end.

Section Zod.

(** zod's pattern for an email address. *)
Variable isEmail : string -> bool.
(** zod's own messages: for a key that should hold a string and is missing
    or holds something else, for a value outside an enum, and for an input
    that is not an object. *)
Variable string_issue : option json -> string.
Variable enum_issue : json -> string.
Variable object_issue : string -> string.

(** [z.string().min(min, message)] *)
Definition string_min (min : nat) (message : string) (v : option json)
    : string + string :=
  match v with
  | Some (JString s) => if (min <=? String.length s)%nat then inl s else inr message
  | _ => inr (string_issue v)
  end.

(** [z.string().email(message)] *)
Definition string_email (message : string) (v : option json) : string + string :=
  match v with
  | Some (JString s) => if isEmail s then inl s else inr message
  | _ => inr (string_issue v)
  end.

(** [z.nativeEnum(Priority).default(Priority.Normal)] *)
Definition priority_default (v : option json) : string + string :=
  match v with
  | None => inl Priority_Normal
  | Some (JString s) =>
      if String.eqb s Priority_Normal || String.eqb s Priority_Emergency
      then inl s else inr (enum_issue (JString s))
  | Some other => inr (enum_issue other)
  end.

Definition validatePatientIn (input : unknown) : SafeParse PatientIn.t :=
  match input with
  | NotObject received => Failure [object_issue received]
  | Object o =>
      let name :=
        string_min NAME_LEN (at_least "name" NAME_LEN) (o !! "name") in
      let problem :=
        string_min PROBLEM_LEN (at_least "problem" PROBLEM_LEN) (o !! "problem") in
      let priority := priority_default (o !! "priority") in
      match name, problem, priority with
      | inl n, inl p, inl pr => Success (PatientIn.mk n p pr)
      | _, _, _ =>
          Failure (messages_of name ++ messages_of problem ++ messages_of priority)
      end
  end.

Definition validateSignupRequest (input : unknown) : SafeParse SignupRequest.t :=
  match input with
  | NotObject received => Failure [object_issue received]
  | Object o =>
      let name :=
        string_min NAME_LEN (at_least "name" NAME_LEN) (o !! "name") in
      let email := string_email "email must be a valid address" (o !! "email") in
      let password :=
        string_min PASSWORD_LEN (at_least "password" PASSWORD_LEN)
          (o !! "password") in
      match name, email, password with
      | inl n, inl e, inl pw => Success (SignupRequest.mk n e pw)
      | _, _, _ =>
          Failure (messages_of name ++ messages_of email ++ messages_of password)
      end
  end.

Definition validateLoginRequest (input : unknown) : SafeParse LoginRequest.t :=
  match input with
  | NotObject received => Failure [object_issue received]
  | Object o =>
      let email := string_email "email must be a valid address" (o !! "email") in
      let password := string_min 1 "password is required" (o !! "password") in
      match email, password with
      | inl e, inl pw => Success (LoginRequest.mk e pw)
      | _, _ => Failure (messages_of email ++ messages_of password)
      end
  end.

End Zod.
End Classes.

(** ** The visit route *)

Module Main.

(** [PUT /patients/:patient_id/visit], once the middleware has called next:
    the status and message of the response. *)
Definition put_patient_visit (patient_id_param : string) (d : Pg.database)
    : (Z * string) * Pg.database :=
  let patient_id := parseInt patient_id_param in
  match Db.markVisited patient_id d with
  | (Ok (_, err), d') =>
      match err with
      | Some "not_found" => ((404, "Patient not found"), d')
      | Some "already_visited" => ((400, "Patient already visited"), d')
      | _ => ((200, "Patient marked as visited successfully"), d')
      end
  | (Throw error, d') =>
      ((500, orString (Some (Auth.message_of error)) "Internal server error"), d')
  end.

(** The cookie a response sets. *)
Record Cookie : Type := mkCookie {
  cookie_name : string;
  cookie_value : string;
  maxAge : Z;
  httpOnly : bool;
  secure : bool;
  sameSite : string;
  path : string
}.

(** The JSON a response carries. *)
Inductive body : Type :=
| MessageResponse (message : string)
| AuthResponse (token : string) (user : User.t)
| UserResponse (user : User.t)
| PatientJson (patient : Patient.t)
| PatientsJson (patients : list Patient.t)
| StatsJson (stats : Stats.t).

Record Response : Type := mkResponse {
  status : Z;
  json : body;
  cookie : option Cookie
}.

(** [error.message || "Internal server error"] with status 500. *)
Definition internal_error (error : exn) : Response :=
  mkResponse 500
    (MessageResponse (orString (Some (Auth.message_of error)) "Internal server error"))
    None.

(** [messages.join(", ")] with status 400. *)
Definition bad_request (messages : list string) : Response :=
  mkResponse 400 (MessageResponse (String.concat ", " messages)) None.

Section Routes.

Variable JWT_SECRET JWT_ALGORITHM JWT_COOKIE_NAME : string.
Variable jws_sign : string -> string -> JWTPayload.t -> string.
Variable jws_encode : Jwt.jws -> string.
Variable jws_decode : string -> option Jwt.jws.
Variable bcrypt_hash : string -> Z -> string -> string.
Variable bcrypt_compare : string -> string -> result bool.
Variable isEmail : string -> bool.
Variable string_issue : option Classes.json -> string.
Variable enum_issue : Classes.json -> string.
Variable object_issue : string -> string.
Variable collate_leb : string -> string -> bool.

(** The cookie both [/auth/signup] and [/auth/login] set. *)
Definition token_cookie (token : string) : Cookie :=
  mkCookie (orString (Some JWT_COOKIE_NAME) "access_token") token
    (Auth.ACCESS_TOKEN_EXPIRE_MINUTES * 60 * 1000) true false "lax" "/".

(** The token and response for a user who signed up or logged in. *)
Definition authenticated (status : Z) (user : User.t) (now : Z) : Response :=
  match Auth.createAccessToken JWT_SECRET JWT_ALGORITHM jws_sign jws_encode
          (Claims.mk (Num (Int (User.id user))) (Some (User.email user))
             (Some (User.role user)))
          None now with
  | Ok token => mkResponse status (AuthResponse token user) (Some (token_cookie token))
  | Throw error => internal_error error
  end.

(** [POST /auth/signup] *)
Definition post_auth_signup (reqBody : Classes.unknown) (salt : string) (now : Z)
    (d : Pg.database) : Response * Pg.database :=
  match Classes.validateSignupRequest isEmail string_issue object_issue reqBody with
  | Classes.Failure messages => (bad_request messages, d)
  | Classes.Success payload =>
      match Db.createUser bcrypt_hash (SignupRequest.name payload)
              (SignupRequest.email payload) (SignupRequest.password payload)
              "user" salt d with
      | (Throw error, d') =>
          if String.eqb (Auth.message_of error) "Email already exists"
          then (mkResponse 400 (MessageResponse (Auth.message_of error)) None, d')
          else (internal_error error, d')
      | (Ok user, d') => (authenticated 201 user now, d')
      end
  end.

(** [POST /auth/login] *)
Definition post_auth_login (reqBody : Classes.unknown) (now : Z) (d : Pg.database)
    : Response :=
  match Classes.validateLoginRequest isEmail string_issue object_issue reqBody with
  | Classes.Failure messages => bad_request messages
  | Classes.Success payload =>
      match Db.getUserByEmail (LoginRequest.email payload) d with
      | None => mkResponse 401 (MessageResponse "Invalid email or password") None
      | Some user =>
          match Auth.verifyPassword bcrypt_compare (LoginRequest.password payload)
                  (UserWithPassword.password user) with
          | Throw error => internal_error error
          | Ok false => mkResponse 401 (MessageResponse "Invalid email or password") None
          | Ok true =>
              authenticated 200
                (User.mk (UserWithPassword.id user) (UserWithPassword.name user)
                   (UserWithPassword.email user) (UserWithPassword.role user))
                now
          end
      end
  end.

(** [POST /auth/logout] *)
Definition post_auth_logout : Response :=
  mkResponse 200 (MessageResponse "Logged out successfully")
    (Some (mkCookie (orString (Some JWT_COOKIE_NAME) "access_token") EmptyString
             0 true false "lax" "/")).

(** A route registered behind [authMiddleware()]: the handler runs only
    when the middleware calls next. *)
Definition guarded {A : Type} (req : Request.t) (now : Z) (d : A)
    (handler : CurrentUser.t -> Response * A) : Response * A :=
  match Auth.authMiddleware JWT_SECRET JWT_ALGORITHM JWT_COOKIE_NAME jws_sign
          jws_decode req now with
  | Auth.Respond status message => (mkResponse status (MessageResponse message) None, d)
  | Auth.Next currentUser => handler currentUser
  end.

(** [GET /auth/me].  A user_id that is not an integer is refused by the
    store when it binds the parameter of the query. *)
Definition get_auth_me (req : Request.t) (now : Z) (d : Pg.database) : Response :=
  fst (guarded req now d (fun currentUser =>
    match CurrentUser.user_id currentUser with
    | NaN =>
        (internal_error (DatabaseError Pg.invalid_text_representation
                           "invalid input syntax for type integer"), d)
    | Int user_id =>
        match Db.getUserById user_id d with
        | None => (mkResponse 404 (MessageResponse "User not found") None, d)
        | Some user => (mkResponse 200 (UserResponse user) None, d)
        end
    end)).

(** [GET /patients] *)
Definition get_patients (req : Request.t) (now : Z) (d : Pg.database) : Response :=
  fst (guarded req now d (fun _ =>
    (mkResponse 200 (PatientsJson (Db.getAllPatients collate_leb d)) None, d))).

(** [POST /patients].  [clock] is the text [new Date().toISOString()] yields. *)
Definition post_patients (req : Request.t) (reqBody : Classes.unknown) (now : Z)
    (clock : string) (d : Pg.database) : Response * Pg.database :=
  guarded req now d (fun _ =>
    match Classes.validatePatientIn string_issue enum_issue object_issue reqBody with
    | Classes.Failure messages => (bad_request messages, d)
    | Classes.Success payload =>
        match Db.addPatient (trim (PatientIn.name payload))
                (trim (PatientIn.problem payload))
                (if String.eqb (PatientIn.priority payload) Classes.Priority_Emergency
                 then "Emergency" else "Normal")
                clock d with
        | (Ok patient, d') => (mkResponse 201 (PatientJson patient) None, d')
        | (Throw error, d') =>
            (mkResponse 500
               (MessageResponse ("Failed to create patient: " +:+ Auth.message_of error))
               None, d')
        end
    end).

(** [PUT /patients/:patient_id/visit] behind the middleware. *)
Definition put_patients_visit (req : Request.t) (patient_id_param : string) (now : Z)
    (d : Pg.database) : Response * Pg.database :=
  guarded req now d (fun _ =>
    let '((status, message), d') := put_patient_visit patient_id_param d in
    (mkResponse status (MessageResponse message) None, d')).

(** [GET /patients/stats] *)
Definition get_patients_stats (req : Request.t) (now : Z) (d : Pg.database)
    : Response :=
  fst (guarded req now d (fun _ =>
    (mkResponse 200 (StatsJson (Db.getStats d)) None, d))).

End Routes.

End Main.

(** ** Concrete inputs on which the properties are exercised *)

Module Sample.

(** The example of the specification: Al, then Bo as an emergency. *)
Definition al_then_bo : list Db.op :=
  [Db.AddPatient "Al" "Fever" "Normal" "2024-03-01T09:00:00.250Z";
   Db.AddPatient "Bo" "Chest pain" "Emergency" "2024-03-01T09:05:00.000Z"].

(** The store after Al and Bo have been added. *)
Definition two_waiting : Pg.database :=
  snd (Db.run String.leb al_then_bo Pg.empty).

(** The store after Al (id 1) has then been marked visited. *)
Definition al_visited : Pg.database :=
  snd (Db.markVisited (Int 1) two_waiting).

(** What a client does after Al has been marked visited. *)
Definition later_ops : list Db.op :=
  [Db.GetAllPatients;
   Db.AddPatient "Cy" "Cough" "Normal" "2024-03-01T09:10:00.000Z";
   Db.MarkVisited (Int 1);
   Db.GetStats;
   Db.GetAllPatients].

(** Two emergencies and three normal arrivals, then the first normal
    patient (id 2) is visited. *)
Definition busy_morning : list Db.op :=
  [Db.AddPatient "Di" "Burn" "Emergency" "2024-03-02T08:00:00.000Z";
   Db.AddPatient "Ed" "Rash" "Normal" "2024-03-02T08:01:00.000Z";
   Db.AddPatient "Flo" "Flu" "Normal" "2024-03-02T08:02:00.000Z";
   Db.AddPatient "Gus" "Fall" "Emergency" "2024-03-02T08:03:00.000Z";
   Db.AddPatient "Hal" "Cold" "Normal" "2024-03-02T08:04:00.000Z";
   Db.MarkVisited (Int 2)].

(** A stand-in for [bcrypt.hash]. *)
Definition toy_hash (data : string) (rounds : Z) (salt : string) : string :=
  salt +:+ "$" +:+ data.

(** The store after Ann has signed up. *)
Definition with_ann : Pg.database :=
  snd (Db.createUser toy_hash "Ann" "ann@clinic.com" "secret1" "user" "s1" Pg.empty).

(** A stand-in for the signing primitive. *)
Definition toy_sign (alg key : string) (p : JWTPayload.t) : string :=
  alg +:+ ":" +:+ key +:+ ":" +:+ String_ (JWTPayload.sub p).

(** A stand-in for the wire codec: a token is the decimal text of the code
    of its three parts. *)
#[global] Instance number_eq_dec : EqDecision number.
Proof. solve_decision. Defined.

#[global] Instance value_eq_dec : EqDecision value.
Proof. solve_decision. Defined.

#[global] Instance payload_eq_dec : EqDecision JWTPayload.t.
Proof. solve_decision. Defined.

#[global] Instance jws_eq_dec : EqDecision Jwt.jws.
Proof. solve_decision. Defined.

#[global] Instance number_countable : Countable number.
Proof.
  refine (inj_countable'
            (fun n => match n with NaN => None | Int z => Some z end)
            (fun o => match o with None => NaN | Some z => Int z end) _).
  now intros [].
Defined.

#[global] Instance value_countable : Countable value.
Proof.
  refine (inj_countable'
            (fun v => match v with
                      | Undefined => inl (inl tt)
                      | Null => inl (inr tt)
                      | Num n => inr (inl n)
                      | Str s => inr (inr s)
                      end)
            (fun c => match c with
                      | inl (inl _) => Undefined
                      | inl (inr _) => Null
                      | inr (inl n) => Num n
                      | inr (inr s) => Str s
                      end) _).
  now intros [].
Defined.

#[global] Instance payload_countable : Countable JWTPayload.t.
Proof.
  refine (inj_countable'
            (fun p => (JWTPayload.sub p, JWTPayload.email p, JWTPayload.role p,
                       JWTPayload.iat p, JWTPayload.nbf p, JWTPayload.exp p))
            (fun '(a, b, c, d, e, f) => JWTPayload.mk a b c d e f) _).
  now intros [].
Defined.

#[global] Instance jws_countable : Countable Jwt.jws.
Proof.
  refine (inj_countable'
            (fun t => (Jwt.alg t, Jwt.payload t, Jwt.signature t))
            (fun '(a, p, g) => Jwt.mk a p g) _).
  now intros [].
Defined.

Definition toy_encode (t : Jwt.jws) : string :=
  numberToString (Int (Z.pos (encode t))).

Definition toy_decode (token : string) : option Jwt.jws :=
  match parseInt token with
  | Int (Z.pos p) => decode p
  | _ => None
  end.

(** The claims of user 7. *)
Definition claims7 : Claims.t :=
  Claims.mk (Num (Int 7)) (Some "ann@clinic.com") (Some "user").

Definition secret : string := "s3cret".

Definition signed (p : JWTPayload.t) : Jwt.jws :=
  Jwt.mk "HS256" p (toy_sign "HS256" secret p).

(** A token of user 7 issued at 1000, and one whose signature was made up. *)
Definition token7 : Jwt.jws :=
  signed (JWTPayload.mk (Str "7") (Some "ann@clinic.com") (Some "user")
            (Some 1000) None (Some 87400)).

Definition forged : Jwt.jws :=
  Jwt.mk "HS256"
    (JWTPayload.mk (Str "1") None (Some "admin") (Some 1000) None (Some 99999))
    "made up".

(** A token signed under the secret whose subject is not a number. *)
Definition token_abc : Jwt.jws :=
  signed (JWTPayload.mk (Str "abc") None (Some "user") (Some 1000) None (Some 87400)).

Definition bearer (t : Jwt.jws) : Request.t :=
  Request.mk (Some ("Bearer " +:+ toy_encode t)) None.

(** The text tok between quotes and spaces. *)
Definition padded_tok : string :=
  String " " (String quote ("tok" +:+ String quote (String " " EmptyString))).

(** A request with no Authorization header whose cookie holds it. *)
Definition cookie_only : Request.t :=
  Request.mk None (Some {[ "access_token" := padded_tok ]}).

(** The same text sent in the Authorization header, without the spaces a
    header cannot carry at its end. *)
Definition header_quoted : Request.t :=
  Request.mk (Some ("Bearer " +:+ String quote ("tok" +:+ String quote EmptyString)))
    None.

(** Stand-ins for zod's email pattern and for its own messages. *)
Fixpoint has_at (s : string) : bool :=
  match s with
  | EmptyString => false
  | String c s' => Ascii.eqb c "@" || has_at s'
  end.

Definition toy_string_issue (v : option Classes.json) : string :=
  match v with
  | None => "Required"
  | Some (Classes.JString _) => "Expected string, received string"
  | Some (Classes.JOther received) => "Expected string, received " +:+ received
  end.

Definition toy_enum_issue (v : Classes.json) : string := "Invalid enum value".

Definition toy_object_issue (received : string) : string :=
  "Expected object, received " +:+ received.

(** A stand-in for [bcrypt.compare] that matches [toy_hash]: the text after
    the first dollar sign is the data. *)
Fixpoint after_dollar (s : string) : string :=
  match s with
  | EmptyString => EmptyString
  | String c s' => if Ascii.eqb c "$" then s' else after_dollar s'
  end.

Definition toy_compare (data encrypted : string) : result bool :=
  Ok (String.eqb (after_dollar encrypted) data).

(** Request bodies: a patient whose name is three spaces, the sign-up of
    Bea, her login, and a login with another password. *)
Definition patient_spaces : Classes.unknown :=
  Classes.Object
    {[ "name" := Classes.JString "   "; "problem" := Classes.JString " Flu " ]}.

Definition signup_bea : Classes.unknown :=
  Classes.Object
    {[ "name" := Classes.JString "Bea";
       "email" := Classes.JString "bea@clinic.com";
       "password" := Classes.JString "secret2" ]}.




(** A patient whose name is too short. *)
Definition patient_al : Classes.unknown :=
  Classes.Object
    {[ "name" := Classes.JString "Al"; "problem" := Classes.JString "Fever" ]}.

(** A sign-up whose password is too short. *)
Definition signup_short_password : Classes.unknown :=
  Classes.Object
    {[ "name" := Classes.JString "Bea";
       "email" := Classes.JString "bea@clinic.com";
       "password" := Classes.JString "abc" ]}.

(** The routes with the stand-ins for the libraries. *)
Definition post_auth_signup :=
  Main.post_auth_signup secret "HS256" "access_token" toy_sign toy_encode toy_hash
    has_at toy_string_issue toy_object_issue.

Definition post_auth_login :=
  Main.post_auth_login secret "HS256" "access_token" toy_sign toy_encode toy_compare
    has_at toy_string_issue toy_object_issue.

Definition get_auth_me :=
  Main.get_auth_me secret "HS256" "access_token" toy_sign toy_decode.

Definition post_patients :=
  Main.post_patients secret "HS256" "access_token" toy_sign toy_decode
    toy_string_issue toy_enum_issue toy_object_issue.

End Sample.

(** ** Proof automation *)

(** One digit read: the accumulator as the positive it denotes. *)
Ltac digit_step :=
  match goal with
  | |- readDigits _ (_ + digitValue ?c) = _ =>
      let v := eval vm_compute in (digitValue c) in
      change (digitValue c) with v
  end;
  match goal with
  | |- readDigits _ ?a = (Z.pos (Pos.of_uint_acc _ ?p), _) =>
      replace a with (Z.pos p) by lia
  end.

(** * Properties *)

(** ** Numbers and their decimal text *)

Lemma readDigits_acc_pos (d : Decimal.uint) (q : positive) (rest : string) :
  startsWithDigit rest = false ->
  readDigits (NilEmpty.string_of_uint d +:+ rest) (Z.pos q)
  = (Z.pos (Pos.of_uint_acc d q), rest).
Proof.
  intros Hrest. revert q.
  induction d; intros q; simpl; try (digit_step; apply IHd).
  destruct rest as [|c rest']; [reflexivity|].
  simpl in Hrest |- *. now rewrite Hrest.
Qed.

Lemma readDigits_acc_zero (d : Decimal.uint) (rest : string) :
  startsWithDigit rest = false ->
  readDigits (NilEmpty.string_of_uint d +:+ rest) 0
  = (Z.of_N (Pos.of_uint d), rest).
Proof.
  intros Hrest.
  induction d; simpl;
    try (match goal with
         | |- readDigits _ (_ + digitValue ?c) = _ =>
             let v := eval vm_compute in (digitValue c) in
             change (digitValue c) with v
         end; apply (readDigits_acc_pos d _ rest Hrest)).
  - destruct rest as [|c rest']; [reflexivity|].
    simpl in Hrest |- *. now rewrite Hrest.
  - exact IHd.
Qed.

Lemma startsWithDigit_uint (d : Decimal.uint) (rest : string) :
  d <> Decimal.Nil ->
  startsWithDigit (NilEmpty.string_of_uint d +:+ rest) = true.
Proof. destruct d; intros H; try reflexivity. now elim H. Qed.

Lemma readInteger_uint (d : Decimal.uint) (rest : string) :
  d <> Decimal.Nil ->
  startsWithDigit rest = false ->
  readInteger (NilEmpty.string_of_uint d +:+ rest)
  = Some (Z.of_N (Pos.of_uint d), rest).
Proof.
  intros Hd Hrest.
  pose proof (readDigits_acc_zero d rest Hrest) as Hread.
  destruct d; try (now elim Hd); simpl in Hread |- *; now rewrite Hread.
Qed.

Lemma trimStart_uint (d : Decimal.uint) (rest : string) :
  d <> Decimal.Nil ->
  trimStart (NilEmpty.string_of_uint d +:+ rest) = NilEmpty.string_of_uint d +:+ rest.
Proof. destruct d; intros H; try reflexivity. now elim H. Qed.

(** Reading back the decimal text of an integer, whatever follows it. *)
Lemma readInteger_numberToString (z : Z) (rest : string) :
  startsWithDigit rest = false ->
  readInteger (numberToString (Int z) +:+ rest) = Some (z, rest).
Proof.
  intros Hrest. destruct z as [|p|p]; simpl.
  - destruct rest as [|c rest']; [reflexivity|].
    simpl in Hrest |- *. now rewrite Hrest.
  - rewrite readInteger_uint by (auto using Unsigned.to_uint_nonnil).
    now rewrite Unsigned.of_to.
  - rewrite startsWithDigit_uint by (apply Unsigned.to_uint_nonnil).
    rewrite readDigits_acc_zero by assumption.
    now rewrite Unsigned.of_to.
Qed.

Lemma append_empty_r (s : string) : s +:+ EmptyString = s.
Proof. induction s; simpl; congruence. Qed.

Lemma trimStart_numberToString (z : Z) :
  trimStart (numberToString (Int z)) = numberToString (Int z).
Proof.
  destruct z as [|p|p]; try reflexivity.
  simpl. rewrite <- (append_empty_r (NilEmpty.string_of_uint _)).
  apply trimStart_uint, Unsigned.to_uint_nonnil.
Qed.

(** [parseInt(String(z), 10)] is [z]. *)
Lemma parseInt_numberToString (z : Z) : parseInt (numberToString (Int z)) = Int z.
Proof.
  unfold parseInt. rewrite trimStart_numberToString.
  rewrite <- (append_empty_r (numberToString (Int z))).
  now rewrite readInteger_numberToString.
Qed.

(** ** Ordering of a query result *)

Section OrderBy.

Context {A : Type} (leb : A -> A -> bool).

Let le (a b : A) : Prop := leb a b = true.

Lemma insert_sorted_perm (x : A) (l : list A) :
  Permutation (x :: l) (Pg.insert_sorted leb x l).
Proof.
  induction l as [|y l IH]; simpl; [reflexivity|].
  destruct (leb x y); [reflexivity|].
  rewrite perm_swap. now constructor.
Qed.

Lemma order_by_perm (l : list A) : Permutation l (Pg.order_by leb l).
Proof.
  induction l as [|x l IH]; simpl; [constructor|].
  rewrite <- insert_sorted_perm. now constructor.
Qed.

Hypothesis leb_total : forall a b, leb a b = true \/ leb b a = true.
Hypothesis leb_trans : forall a b c, leb a b = true -> leb b c = true -> leb a c = true.

Lemma insert_sorted_sorted (x : A) (l : list A) :
  StronglySorted le l -> StronglySorted le (Pg.insert_sorted leb x l).
Proof.
  induction 1 as [|y l Hs IH Hall]; simpl.
  - repeat constructor.
  - destruct (leb x y) eqn:Hxy.
    + constructor; [now constructor|].
      constructor; [exact Hxy|].
      eapply List.Forall_impl; [|exact Hall].
      intros z Hyz. exact (leb_trans _ _ _ Hxy Hyz).
    + constructor; [exact IH|].
      rewrite <- insert_sorted_perm.
      constructor; [|exact Hall].
      destruct (leb_total x y) as [H|H]; [congruence|exact H].
Qed.

Lemma order_by_sorted (l : list A) : StronglySorted le (Pg.order_by leb l).
Proof.
  induction l as [|x l IH]; simpl; [constructor|].
  now apply insert_sorted_sorted.
Qed.

End OrderBy.

Lemma StronglySorted_before {A : Type} (R : A -> A -> Prop) (p q : A) (l : list A) :
  StronglySorted R l -> Db.before p q l -> R p q.
Proof.
  intros Hs (l1 & l2 & l3 & ->).
  induction l1 as [|x l1 IH]; simpl in Hs.
  - apply StronglySorted_inv in Hs as [_ Hall].
    rewrite List.Forall_forall in Hall. apply Hall.
    apply in_or_app. right. now left.
  - apply StronglySorted_inv in Hs as [Hs _]. now apply IH.
Qed.

Lemma before_map {A B : Type} (f : A -> B) (p q : B) (l : list A) :
  Db.before p q (List.map f l) ->
  exists a b, Db.before a b l /\ p = f a /\ q = f b.
Proof.
  intros (l1 & l2 & l3 & H).
  apply map_eq_app in H as (k1 & k & -> & <- & H).
  destruct k as [|a k]; [discriminate|].
  injection H as <- H.
  apply map_eq_app in H as (k2 & k' & -> & <- & H).
  destruct k' as [|b k3]; [discriminate|].
  injection H as <- <-.
  exists a, b. split; [|split; reflexivity].
  now exists k1, k2, k3.
Qed.

(** ** The waiting queue *)

Lemma rowToPatient_result_row (r : patients.row) :
  Db.rowToPatient (Pg.patient_result_row r) = Db.patient_of r.
Proof.
  destruct r as [i n pb pr arrival st].
  unfold Db.rowToPatient, Db.patient_of, Pg.patient_result_row. simpl.
  now destruct arrival.
Qed.

Lemma getAllPatients_rows (collate_leb : string -> string -> bool) (d : Pg.database) :
  Db.getAllPatients collate_leb d
  = List.map Db.patient_of
      (Pg.order_by (Db.queue_leb collate_leb)
         (List.filter (Pg.has_status "Waiting") (Pg.patients_rows d))).
Proof.
  unfold Db.getAllPatients. apply map_ext. exact rowToPatient_result_row.
Qed.

Lemma priority_rank_cases (r : patients.row) :
  (patients.priority r = "Emergency" /\ Db.priority_rank r = 0)
  \/ (patients.priority r <> "Emergency" /\ Db.priority_rank r = 1).
Proof.
  unfold Db.priority_rank, Pg.has_priority.
  destruct (String.eqb_spec (patients.priority r) "Emergency"); auto.
Qed.

Section QueueOrder.

Variable collate_leb : string -> string -> bool.
Hypothesis collate_total :
  forall a b, collate_leb a b = true \/ collate_leb b a = true.
Hypothesis collate_trans :
  forall a b c, collate_leb a b = true -> collate_leb b c = true -> collate_leb a c = true.

Lemma queue_leb_total (a b : patients.row) :
  Db.queue_leb collate_leb a b = true \/ Db.queue_leb collate_leb b a = true.
Proof.
  unfold Db.queue_leb.
  destruct (Z.lt_total (Db.priority_rank a) (Db.priority_rank b)) as [H|[H|H]].
  - left. apply Z.ltb_lt in H. now rewrite H.
  - rewrite H, Z.eqb_refl, Z.ltb_irrefl. simpl. apply collate_total.
  - right. apply Z.ltb_lt in H. now rewrite H.
Qed.

Lemma queue_leb_trans (a b c : patients.row) :
  Db.queue_leb collate_leb a b = true ->
  Db.queue_leb collate_leb b c = true ->
  Db.queue_leb collate_leb a c = true.
Proof.
  unfold Db.queue_leb. intros Hab Hbc.
  apply orb_true_iff in Hab as [Hab|Hab], Hbc as [Hbc|Hbc];
    rewrite ?andb_true_iff, ?Z.ltb_lt, ?Z.eqb_eq in *;
    apply orb_true_iff.
  - left. apply Z.ltb_lt. lia.
  - left. apply Z.ltb_lt. lia.
  - left. apply Z.ltb_lt. lia.
  - right. destruct Hab as [E1 L1], Hbc as [E2 L2].
    apply andb_true_iff. split; [apply Z.eqb_eq; lia|].
    exact (collate_trans _ _ _ L1 L2).
Qed.

Lemma getAllPatients_before (d : Pg.database) (p q : Patient.t) :
  Db.before p q (Db.getAllPatients collate_leb d) ->
  exists a b, p = Db.patient_of a /\ q = Db.patient_of b
              /\ Db.queue_leb collate_leb a b = true.
Proof.
  rewrite getAllPatients_rows. intros H.
  apply before_map in H as (a & b & Hab & -> & ->).
  exists a, b. repeat split.
  apply (StronglySorted_before
           (fun x y => Db.queue_leb collate_leb x y = true) a b _
           (order_by_sorted _ queue_leb_total queue_leb_trans _) Hab).
Qed.

End QueueOrder.

Lemma String_leb_trans (a b c : string) :
  String.leb a b = true -> String.leb b c = true -> String.leb a c = true.
Proof.
  unfold String.leb. intros Hab Hbc.
  destruct (String.compare a b) eqn:Eab; try discriminate;
    destruct (String.compare b c) eqn:Ebc; try discriminate.
  - apply String_as_OT.cmp_eq in Eab as ->. now rewrite Ebc.
  - apply String_as_OT.cmp_eq in Eab as ->. now rewrite Ebc.
  - apply String_as_OT.cmp_eq in Ebc as <-. now rewrite Eab.
  - apply String_as_OT.cmp_lt in Eab, Ebc.
    pose proof (String_as_OT.lt_trans _ _ _ Eab Ebc) as H.
    apply String_as_OT.cmp_lt in H. unfold String_as_OT.cmp in H. now rewrite H.
Qed.

(** C1. Whatever is stored and whatever operations follow, the list
    [getAllPatients] returns holds exactly the patients stored with status
    Waiting (each once per stored row), no Normal entry stands before an
    Emergency entry (a later Emergency entry has only Emergency entries
    before it), and of two entries of equal priority the earlier one has the
    smaller or equal arrivalTime in the order of the column. *)
Theorem getAllPatients_waiting_in_queue_order
    (collate_leb : string -> string -> bool)
    (collate_total : forall a b, collate_leb a b = true \/ collate_leb b a = true)
    (collate_trans : forall a b c,
        collate_leb a b = true -> collate_leb b c = true -> collate_leb a c = true)
    (d : Pg.database) (ops : list Db.op) :
  let d' := snd (Db.run collate_leb ops d) in
  let queue := Db.getAllPatients collate_leb d' in
  Permutation queue
    (List.map Db.patient_of
       (List.filter (Pg.has_status "Waiting") (Pg.patients_rows d')))
  /\ (forall p, In p queue -> Patient.status p = "Waiting")
  /\ (forall p q, Db.before p q queue ->
        Patient.priority q = "Emergency" -> Patient.priority p = "Emergency")
  /\ (forall p q, Db.before p q queue ->
        Patient.priority p = "Normal" -> Patient.priority q <> "Emergency")
  /\ (forall p q, Db.before p q queue ->
        Patient.priority p = Patient.priority q ->
        collate_leb (Patient.arrivalTime p) (Patient.arrivalTime q) = true).
Proof.
  intros d' queue.
  assert (Hperm : Permutation queue
            (List.map Db.patient_of
               (List.filter (Pg.has_status "Waiting") (Pg.patients_rows d')))).
  { unfold queue. rewrite getAllPatients_rows.
    apply Permutation_map. symmetry. apply order_by_perm. }
  assert (Hrank : forall p q, Db.before p q queue ->
            exists a b, p = Db.patient_of a /\ q = Db.patient_of b
                        /\ Db.queue_leb collate_leb a b = true).
  { intros p q. now apply getAllPatients_before. }
  split; [exact Hperm|].
  split.
  { intros p Hp. eapply Permutation_in in Hp; [|exact Hperm].
    apply in_map_iff in Hp as (r & <- & Hr).
    apply filter_In in Hr as [_ Hst].
    now apply String.eqb_eq in Hst. }
  assert (Hem : forall p q, Db.before p q queue ->
            Patient.priority q = "Emergency" -> Patient.priority p = "Emergency").
  { intros p q Hpq Hq.
    destruct (Hrank p q Hpq) as (a & b & -> & -> & Hle).
    simpl in *. unfold Db.queue_leb in Hle.
    destruct (priority_rank_cases a) as [[Ea Ra]|[Ea Ra]]; [exact Ea|].
    destruct (priority_rank_cases b) as [[Eb Rb]|[Eb Rb]]; [|contradiction].
    rewrite Ra, Rb in Hle. discriminate. }
  split; [exact Hem|].
  split.
  { intros p q Hpq Hp Hq. rewrite (Hem p q Hpq Hq) in Hp. discriminate. }
  intros p q Hpq Heq.
  destruct (Hrank p q Hpq) as (a & b & -> & -> & Hle).
  simpl in *. unfold Db.queue_leb in Hle.
  assert (Hr : Db.priority_rank a = Db.priority_rank b).
  { unfold Db.priority_rank, Pg.has_priority. now rewrite Heq. }
  rewrite Hr, Z.ltb_irrefl, Z.eqb_refl in Hle. exact Hle.
Qed.

Lemma getAllPatients_waiting_in_queue_order_witness :
  let d' := snd (Db.run String.leb Sample.al_then_bo Pg.empty) in
  let queue := Db.getAllPatients String.leb d' in
  Permutation queue
    (List.map Db.patient_of
       (List.filter (Pg.has_status "Waiting") (Pg.patients_rows d')))
  /\ (forall p, In p queue -> Patient.status p = "Waiting")
  /\ (forall p q, Db.before p q queue ->
        Patient.priority q = "Emergency" -> Patient.priority p = "Emergency")
  /\ (forall p q, Db.before p q queue ->
        Patient.priority p = "Normal" -> Patient.priority q <> "Emergency")
  /\ (forall p q, Db.before p q queue ->
        Patient.priority p = Patient.priority q ->
        String.leb (Patient.arrivalTime p) (Patient.arrivalTime q) = true).
Proof.
  exact (getAllPatients_waiting_in_queue_order String.leb String.leb_total
           String_leb_trans Pg.empty Sample.al_then_bo).
Defined.

(** The example of the specification: Al (Normal) then Bo (Emergency) are
    listed as Bo, Al. *)
Example getAllPatients_al_bo :
  List.map Patient.name
    (Db.getAllPatients String.leb (snd (Db.run String.leb Sample.al_then_bo Pg.empty)))
  = ["Bo"; "Al"].
Proof. reflexivity. Qed.

(** ** Visiting a patient *)

Lemma in_select_patient_by_id (i : Z) (d : Pg.database) (r : patients.row) :
  In r (Pg.select_patient_by_id i d)
  <-> In r (Pg.patients_rows d) /\ patients.id r = i.
Proof.
  unfold Pg.select_patient_by_id, Pg.patient_has_id.
  rewrite filter_In, Z.eqb_eq. reflexivity.
Qed.




Lemma filter_has_id_marked (i j : Z) (rows : list patients.row) :
  List.filter (Pg.patient_has_id j)
    (List.map (fun r => if Pg.patient_has_id i r
                        then patients.set_status "Visited" r else r) rows)
  = List.map (fun r => if Pg.patient_has_id i r
                       then patients.set_status "Visited" r else r)
      (List.filter (Pg.patient_has_id j) rows).
Proof.
  induction rows as [|x rows IH]; simpl; [reflexivity|].
  rewrite IH.
  assert (E : Pg.patient_has_id j
                (if Pg.patient_has_id i x
                 then patients.set_status "Visited" x else x)
              = Pg.patient_has_id j x)
    by now destruct (Pg.patient_has_id i x).
  rewrite E. now destruct (Pg.patient_has_id j x).
Qed.

(** The three ways out of [markVisited], by what the first query finds. *)
Lemma markVisited_cases (i : Z) (d : Pg.database) :
  match Pg.select_patient_by_id i d with
  | [] => Db.markVisited (Int i) d = (Ok (None, Some "not_found"), d)
  | row :: _ =>
      if String.eqb (patients.status row) "Visited"
      then Db.markVisited (Int i) d = (Ok (None, Some "already_visited"), d)
      else Db.markVisited (Int i) d
           = (Ok (Some (Db.patient_of (patients.set_status "Visited" row)), None),
              snd (Pg.update_visited i d))
  end.
Proof.
  unfold Db.markVisited.
  destruct (Pg.select_patient_by_id i d) as [|row rest] eqn:Esel; [reflexivity|].
  destruct (String.eqb (patients.status row) "Visited"); [reflexivity|].
  unfold Pg.update_visited. rewrite filter_has_id_marked.
  fold (Pg.select_patient_by_id i d). rewrite Esel. simpl.
  assert (Hid : Pg.patient_has_id i row = true).
  { assert (H : In row (Pg.select_patient_by_id i d)) by (rewrite Esel; now left).
    apply in_select_patient_by_id in H as [_ H].
    unfold Pg.patient_has_id. now apply Z.eqb_eq. }
  rewrite Hid. now rewrite rowToPatient_result_row.
Qed.

Lemma update_visited_rows (i : Z) (d : Pg.database) (r : patients.row) :
  In r (Pg.patients_rows (snd (Pg.update_visited i d)))
  <-> exists r0, In r0 (Pg.patients_rows d)
        /\ r = (if Pg.patient_has_id i r0
                then patients.set_status "Visited" r0 else r0).
Proof.
  unfold Pg.update_visited. simpl. rewrite in_map_iff.
  split; intros (r0 & H1 & H2); exists r0; auto.
Qed.

Lemma update_visited_visited (i : Z) (d : Pg.database) :
  Db.stored i d -> Db.visited i (snd (Pg.update_visited i d)).
Proof.
  intros (r & Hin & Hid). split.
  - exists (patients.set_status "Visited" r). split; [|exact Hid].
    apply update_visited_rows. exists r. split; [exact Hin|].
    unfold Pg.patient_has_id. apply Z.eqb_eq in Hid. now rewrite Hid.
  - intros r' Hin' Hid'.
    apply update_visited_rows in Hin' as (r0 & _ & ->).
    destruct (Pg.patient_has_id i r0) eqn:E; [reflexivity|].
    unfold Pg.patient_has_id in E. apply Z.eqb_neq in E. contradiction.
Qed.

Lemma exec_snd (collate_leb : string -> string -> bool) (o : Db.op) (d : Pg.database) :
  snd (Db.exec collate_leb o d)
  = match o with
    | Db.AddPatient name problem priority now =>
        snd (Db.addPatient name problem priority now d)
    | Db.MarkVisited patient_id => snd (Db.markVisited patient_id d)
    | Db.GetAllPatients | Db.GetStats => d
    end.
Proof.
  destruct o as [name problem priority now| |patient_id|]; simpl; try reflexivity.
  - now destruct (Db.addPatient name problem priority now d).
  - now destruct (Db.markVisited patient_id d).
Qed.

(** What one operation can do to the rows of [patients]: nothing, append a
    Waiting row under an id not yet stored, or set the status of the rows
    under one id to Visited. *)
Lemma exec_rows (collate_leb : string -> string -> bool) (o : Db.op) (d : Pg.database) :
  let rows := Pg.patients_rows d in
  let rows' := Pg.patients_rows (snd (Db.exec collate_leb o d)) in
  rows' = rows
  \/ (exists r, rows' = (rows ++ [r])%list
        /\ patients.status r = "Waiting"
        /\ forall x, In x rows -> patients.id x <> patients.id r)
  \/ (exists j, rows' = List.map (fun r => if Pg.patient_has_id j r
                                           then patients.set_status "Visited" r
                                           else r) rows).
Proof.
  intros rows rows'. subst rows rows'. rewrite exec_snd.
  destruct o as [name problem priority now| |patient_id|]; auto.
  - unfold Db.addPatient, Pg.insert_patient.
    destruct (existsb _ _) eqn:E; simpl; auto.
    right. left. eexists. split; [reflexivity|]. split; [reflexivity|].
    intros x Hx Heq. simpl in Heq.
    assert (H : existsb (Pg.patient_has_id (Pg.patients_id_seq d))
                  (Pg.patients_rows d) = true).
    { apply existsb_exists. exists x. split; [exact Hx|].
      unfold Pg.patient_has_id. now apply Z.eqb_eq. }
    congruence.
  - destruct patient_id as [|i]; [now left|].
    pose proof (markVisited_cases i d) as H.
    destruct (Pg.select_patient_by_id i d) as [|row rest].
    + rewrite H. auto.
    + destruct (String.eqb (patients.status row) "Visited");
        rewrite H; simpl; auto.
      right. right. now exists i.
Qed.

Lemma exec_visited (collate_leb : string -> string -> bool) (o : Db.op)
    (d : Pg.database) (i : Z) :
  Db.visited i d -> Db.visited i (snd (Db.exec collate_leb o d)).
Proof.
  intros [(r0 & Hin0 & Hid0) Hall].
  unfold Db.visited, Db.stored.
  destruct (exec_rows collate_leb o d) as [E|[(r & E & Hst & Hfresh)|(j & E)]];
    rewrite E; clear E.
  - split; [now exists r0|exact Hall].
  - split.
    + exists r0. split; [|exact Hid0]. apply in_or_app. now left.
    + intros x Hx Hid. apply in_app_or in Hx as [Hx|[<-|[]]]; [now apply Hall|].
      exfalso. apply (Hfresh r0 Hin0). congruence.
  - split.
    + exists (if Pg.patient_has_id j r0 then patients.set_status "Visited" r0 else r0).
      split; [apply in_map_iff; now exists r0|].
      now destruct (Pg.patient_has_id j r0).
    + intros x Hx Hid. apply in_map_iff in Hx as (y & <- & Hy).
      destruct (Pg.patient_has_id j y); [reflexivity|].
      now apply Hall.
Qed.


Lemma run_cons (collate_leb : string -> string -> bool) (o : Db.op)
    (ops : list Db.op) (d : Pg.database) :
  Db.run collate_leb (o :: ops) d
  = (fst (Db.exec collate_leb o d)
       :: fst (Db.run collate_leb ops (snd (Db.exec collate_leb o d))),
     snd (Db.run collate_leb ops (snd (Db.exec collate_leb o d)))).
Proof.
  simpl. destruct (Db.exec collate_leb o d) as [r d'].
  simpl. now destruct (Db.run collate_leb ops d').
Qed.

Lemma run_visited (collate_leb : string -> string -> bool) (ops : list Db.op)
    (d : Pg.database) (i : Z) :
  Db.visited i d -> Db.visited i (snd (Db.run collate_leb ops d)).
Proof.
  revert d. induction ops as [|o ops IH]; intros d H; [exact H|].
  rewrite run_cons. simpl. apply IH. now apply exec_visited.
Qed.



Lemma getAllPatients_not_visited (collate_leb : string -> string -> bool)
    (d : Pg.database) (i : Z) :
  Db.visited i d ->
  ~ In i (List.map Patient.id (Db.getAllPatients collate_leb d)).
Proof.
  intros [_ Hall] Hin.
  rewrite getAllPatients_rows, map_map in Hin.
  apply in_map_iff in Hin as (r & Hid & Hr).
  eapply Permutation_in in Hr; [|symmetry; apply order_by_perm].
  apply filter_In in Hr as [Hr Hst].
  apply String.eqb_eq in Hst.
  rewrite (Hall r Hr Hid) in Hst. discriminate.
Qed.

Lemma run_listed_not_visited (collate_leb : string -> string -> bool)
    (ops : list Db.op) (d : Pg.database) (i : Z) (l : list Patient.t) :
  Db.visited i d ->
  In (Db.Listed l) (fst (Db.run collate_leb ops d)) ->
  ~ In i (List.map Patient.id l).
Proof.
  revert d. induction ops as [|o ops IH]; intros d Hv Hin; [contradiction|].
  rewrite run_cons in Hin. simpl in Hin. destruct Hin as [Hin|Hin].
  - destruct o as [name problem priority now| |patient_id|]; simpl in Hin.
    + destruct (Db.addPatient name problem priority now d); discriminate.
    + injection Hin as <-. now apply getAllPatients_not_visited.
    + destruct (Db.markVisited patient_id d); discriminate.
    + discriminate.
  - eapply IH; [|exact Hin]. now apply exec_visited.
Qed.

Lemma markVisited_success (i : Z) (d d' : Pg.database) (p : Patient.t) :
  Db.markVisited (Int i) d = (Ok (Some p, None), d') ->
  d' = snd (Pg.update_visited i d) /\ Db.stored i d.
Proof.
  intros H. pose proof (markVisited_cases i d) as Hc.
  destruct (Pg.select_patient_by_id i d) as [|row rest] eqn:Esel.
  - rewrite Hc in H. discriminate.
  - destruct (String.eqb (patients.status row) "Visited");
      rewrite Hc in H; [discriminate|].
    injection H as _ <-. split; [reflexivity|].
    exists row. apply in_select_patient_by_id. rewrite Esel. now left.
Qed.




(** Visiting Al twice: the patient comes back Visited, then already_visited;
    an id nobody has is not_found. *)
Example markVisited_twice :
  fst (Db.markVisited (Int 1) Sample.two_waiting)
  = Ok (Some (Patient.mk 1 "Al" "Fever" "Normal" "2024-03-01T09:00:00Z" "Visited"),
        None)
  /\ fst (Db.markVisited (Int 1) Sample.al_visited) = Ok (None, Some "already_visited")
  /\ fst (Db.markVisited (Int 7) Sample.al_visited) = Ok (None, Some "not_found").
Proof. repeat split. Qed.





(** A path segment that is not a number reaches the store as NaN, which
    refuses it: the route answers 500. *)
Example put_patient_visit_not_a_number :
  fst (Main.put_patient_visit "abc" Sample.two_waiting)
  = (500, "invalid input syntax for type integer").
Proof. reflexivity. Qed.

(** C3. Once the patient with id [i] is Visited it stays Visited and is
    never again stored as Waiting, whatever operations follow; and after
    [markVisited] has succeeded on [i], no later listing contains [i]. *)
Theorem visited_is_final (collate_leb : string -> string -> bool)
    (d : Pg.database) (i : Z) (ops : list Db.op) :
  (Db.visited i d ->
     Db.visited i (snd (Db.run collate_leb ops d))
     /\ ~ Db.stored_with i "Waiting" (snd (Db.run collate_leb ops d)))
  /\ (forall d0 p, Db.markVisited (Int i) d0 = (Ok (Some p, None), d) ->
        Db.visited i d
        /\ forall l, In (Db.Listed l) (fst (Db.run collate_leb ops d)) ->
                     ~ In i (List.map Patient.id l)).
Proof.
  split.
  - intros Hv. pose proof (run_visited collate_leb ops d i Hv) as Hv'.
    split; [exact Hv'|].
    intros (r & Hin & Hid & Hw). destruct Hv' as [_ Hall].
    rewrite (Hall r Hin Hid) in Hw. discriminate.
  - intros d0 p Hmark.
    apply markVisited_success in Hmark as [-> Hst].
    pose proof (update_visited_visited i d0 Hst) as Hv.
    split; [exact Hv|].
    intros l Hl. now apply (run_listed_not_visited collate_leb ops _ i l Hv).
Qed.

Lemma visited_is_final_witness :
  (Db.visited 1 (snd (Db.run String.leb Sample.later_ops Sample.al_visited))
   /\ ~ Db.stored_with 1 "Waiting"
         (snd (Db.run String.leb Sample.later_ops Sample.al_visited)))
  /\ (forall l, In (Db.Listed l)
                  (fst (Db.run String.leb Sample.later_ops Sample.al_visited)) ->
                ~ In 1 (List.map Patient.id l)).
Proof.
  destruct (visited_is_final String.leb Sample.al_visited 1 Sample.later_ops)
    as [Hstay Hlist].
  assert (Hmark : Db.markVisited (Int 1) Sample.two_waiting
                  = (Ok (Some (Patient.mk 1 "Al" "Fever" "Normal"
                                 "2024-03-01T09:00:00Z" "Visited"), None),
                     Sample.al_visited)) by reflexivity.
  destruct (Hlist _ _ Hmark) as [Hv Hl].
  split; [exact (Hstay Hv)|exact Hl].
Defined.

(** After Al was visited, Cy arrives and Al is visited again in vain: the
    listings hold Bo, then Bo and Cy. *)
Example later_listings :
  List.map (fun r => match r with
                     | Db.Listed l => List.map Patient.name l
                     | _ => []
                     end)
    (fst (Db.run String.leb Sample.later_ops Sample.al_visited))
  = [["Bo"]; []; []; []; ["Bo"; "Cy"]].
Proof. reflexivity. Qed.

(** ** Signing up *)

Lemma createUser_catch_unique (message : string) :
  Db.createUser_catch (DatabaseError Pg.unique_violation message)
  = Error "Email already exists".
Proof. reflexivity. Qed.



(** In a store whose user ids all come from the sequence, the duplicate
    error is thrown only for an email that is already stored, and such
    stores are the ones [createUser] produces. *)
Lemma createUser_error_only_for_duplicate
    (bcrypt_hash : string -> Z -> string -> string)
    (name email password role salt : string) (d : Pg.database) :
  Db.users_from_seq d ->
  (fst (Db.createUser bcrypt_hash name email password role salt d)
   = Throw (Error "Email already exists")
   <-> exists u, In u (Pg.users_rows d) /\ users.email u = email)
  /\ Db.users_from_seq (snd (Db.createUser bcrypt_hash name email password role salt d)).
Proof.
  intros Hseq.
  assert (Hfresh : existsb (Pg.user_has_id (Pg.users_id_seq d)) (Pg.users_rows d)
                   = false).
  { apply not_true_is_false. intros H.
    apply existsb_exists in H as (u & Hin & Hid).
    unfold Pg.user_has_id in Hid. apply Z.eqb_eq in Hid.
    specialize (Hseq u Hin). lia. }
  unfold Db.createUser, Pg.insert_user. rewrite Hfresh.
  destruct (existsb (Pg.user_has_email email) (Pg.users_rows d)) eqn:Hdup; simpl.
  - split.
    + split; [intros _|reflexivity].
      apply existsb_exists in Hdup as (u & Hin & He).
      exists u. split; [exact Hin|]. now apply String.eqb_eq.
    + intros u Hin. simpl. specialize (Hseq u Hin). lia.
  - split.
    + split; [discriminate|].
      intros (u & Hin & He). exfalso.
      assert (H : existsb (Pg.user_has_email email) (Pg.users_rows d) = true).
      { apply existsb_exists. exists u. split; [exact Hin|].
        unfold Pg.user_has_email. now apply String.eqb_eq. }
      congruence.
    + intros u Hin. simpl in Hin |- *.
      apply in_app_or in Hin as [Hin|[<-|[]]]; simpl.
      * specialize (Hseq u Hin). lia.
      * lia.
Qed.

Lemma users_from_seq_empty : Db.users_from_seq Pg.empty.
Proof. intros u []. Qed.

(** A new email is accepted and the user gets the next id. *)
Example createUser_new_email :
  fst (Db.createUser Sample.toy_hash "Bea" "bea@clinic.com" "secret2" "user" "s2"
         Sample.with_ann)
  = Ok (User.mk 2 "Bea" "bea@clinic.com" "user").
Proof. reflexivity. Qed.

(** ** Issuing and verifying tokens *)

Lemma seconds_of_span_uint (d : Decimal.uint) :
  d <> Decimal.Nil ->
  Jwt.seconds_of_span (NilEmpty.string_of_uint d +:+ "s")
  = Some (Z.of_N (Pos.of_uint d))
  /\ Jwt.seconds_of_span (String "-" (NilEmpty.string_of_uint d +:+ "s"))
     = Some (- Z.of_N (Pos.of_uint d)).
Proof.
  intros Hd.
  assert (Hs : startsWithDigit "s" = false) by reflexivity.
  pose proof (readDigits_acc_zero d "s" Hs) as Hread.
  pose proof (startsWithDigit_uint d "s" Hd) as Hdigit.
  unfold Jwt.seconds_of_span. split.
  - destruct d; try (now elim Hd); simpl in Hread |- *; now rewrite Hread.
  - rewrite Hdigit, Hread. reflexivity.
Qed.

(** The span built from a whole number of seconds is read back as it. *)
Lemma seconds_of_span_seconds (n : Z) :
  Jwt.seconds_of_span (numberToString (Int n) +:+ "s") = Some n.
Proof.
  destruct n as [|p|p]; [reflexivity| |]; simpl;
    destruct (seconds_of_span_uint (Pos.to_uint p) (Unsigned.to_uint_nonnil p))
      as [Hpos Hneg].
  - rewrite Hpos. now rewrite Unsigned.of_to.
  - rewrite Hneg. now rewrite Unsigned.of_to.
Qed.

Section TokenService.

Variable JWT_SECRET JWT_ALGORITHM : string.
Variable jws_sign : string -> string -> JWTPayload.t -> string.
Variable jws_encode : Jwt.jws -> string.
Variable jws_decode : string -> option Jwt.jws.

Local Abbreviation createAccessToken :=
  (Auth.createAccessToken JWT_SECRET JWT_ALGORITHM jws_sign jws_encode).
Local Abbreviation decodeToken :=
  (Auth.decodeToken JWT_SECRET JWT_ALGORITHM jws_sign jws_decode).

(** What [createAccessToken] signs and encodes. *)
Lemma createAccessToken_issued (data : Claims.t) (expiresDelta : option number)
    (now : Z) :
  let p :=
    JWTPayload.mk
      (match Claims.sub data with
       | Undefined => Undefined
       | v => Str (String_ v)
       end)
      (Claims.email data) (Claims.role data) (Some now) None
      (Some (now + match expiresDelta with
                   | Some (Int z) => if z =? 0 then 86400 else z
                   | _ => 86400
                   end)) in
  createAccessToken data expiresDelta now
  = Ok (jws_encode (Jwt.mk JWT_ALGORITHM p (jws_sign JWT_ALGORITHM JWT_SECRET p))).
Proof.
  unfold Auth.createAccessToken.
  assert (Hspan : forall k payload,
            JWTPayload.iat payload = None -> JWTPayload.exp payload = None ->
            Jwt.sign jws_sign jws_encode payload JWT_SECRET JWT_ALGORITHM
              (numberToString (Int k) +:+ "s") now
            = Ok (jws_encode
                    (Jwt.mk JWT_ALGORITHM
                       (JWTPayload.set_times now (now + k) payload)
                       (jws_sign JWT_ALGORITHM JWT_SECRET
                          (JWTPayload.set_times now (now + k) payload))))).
  { intros k payload Hiat Hexp. unfold Jwt.sign.
    now rewrite Hiat, Hexp, seconds_of_span_seconds. }
  destruct expiresDelta as [[|z]|]; unfold truthyNumber;
    try destruct (Z.eqb_spec z 0) as [->|Hz]; cbn [negb];
    destruct data as [[| |n|s] email role];
    cbn [JWTPayload.sub Claims.sub Claims.email Claims.role];
    rewrite Hspan by reflexivity; reflexivity.
Qed.

(** Every failure of [decodeToken] is the same error. *)
Lemma decodeToken_uniform (token : string) (now : Z) :
  (exists payload, decodeToken token now = Ok payload)
  \/ decodeToken token now = Throw (Error Auth.invalid_credentials).
Proof.
  unfold Auth.decodeToken.
  destruct (Jwt.verify _ _ _ _ _ _); [left; eauto|now right].
Qed.

Lemma decodeToken_decoded (token : string) (now : Z) (t : Jwt.jws) :
  jws_decode token = Some t ->
  decodeToken token now
  = if String.eqb (Jwt.alg t) JWT_ALGORITHM
       && String.eqb (Jwt.signature t)
            (jws_sign (Jwt.alg t) JWT_SECRET (Jwt.payload t))
       && match JWTPayload.nbf (Jwt.payload t) with
          | Some b => b <=? now
          | None => true
          end
       && match JWTPayload.exp (Jwt.payload t) with
          | Some e => now <? e
          | None => true
          end
    then Ok (Jwt.payload t)
    else Throw (Error Auth.invalid_credentials).
Proof.
  intros Hdec. unfold Auth.decodeToken, Jwt.verify. rewrite Hdec. simpl.
  rewrite orb_false_r.
  destruct (String.eqb (Jwt.alg t) JWT_ALGORITHM); [|reflexivity].
  destruct (String.eqb (Jwt.signature t) _); [|reflexivity].
  simpl.
  destruct (JWTPayload.nbf (Jwt.payload t)) as [b|];
    destruct (JWTPayload.exp (Jwt.payload t)) as [e|]; simpl;
    repeat match goal with
           | |- context [Z.leb ?x ?y] => destruct (Z.leb_spec x y)
           | |- context [Z.ltb ?x ?y] => destruct (Z.ltb_spec x y)
           end; first [reflexivity | lia].
Qed.

End TokenService.

(** C8. Without an expiry override the token [createAccessToken] returns
    encodes a payload issued at the clock's time that expires exactly
    86400 seconds (24 hours) later, whose subject is the text [String(sub)]
    of the subject given (a missing subject stays missing), and the
    signature is computed over that payload. *)
Theorem createAccessToken_expires_in_24h
    (JWT_SECRET JWT_ALGORITHM : string)
    (jws_sign : string -> string -> JWTPayload.t -> string)
    (jws_encode : Jwt.jws -> string)
    (data : Claims.t) (now : Z) :
  exists payload,
    Auth.createAccessToken JWT_SECRET JWT_ALGORITHM jws_sign jws_encode data None now
    = Ok (jws_encode
            (Jwt.mk JWT_ALGORITHM payload
               (jws_sign JWT_ALGORITHM JWT_SECRET payload)))
    /\ JWTPayload.iat payload = Some now
    /\ JWTPayload.exp payload = Some (now + 24 * 60 * 60)
    /\ JWTPayload.sub payload
       = match Claims.sub data with
         | Undefined => Undefined
         | v => Str (String_ v)
         end
    /\ JWTPayload.email payload = Claims.email data
    /\ JWTPayload.role payload = Claims.role data.
Proof.
  pose proof (createAccessToken_issued JWT_SECRET JWT_ALGORITHM jws_sign
                jws_encode data None now) as Hissued.
  cbv zeta in Hissued.
  eexists. split; [exact Hissued|].
  repeat split.
Qed.

(** A number is signed as its decimal text, a text as it is; an override of
    n seconds moves the expiry to n seconds after issuance. *)
Example createAccessToken_claims7 :
  Auth.createAccessToken Sample.secret "HS256" Sample.toy_sign Sample.toy_encode
    Sample.claims7 None 1000
  = Ok (Sample.toy_encode Sample.token7)
  /\ Auth.createAccessToken Sample.secret "HS256" Sample.toy_sign Sample.toy_encode
       Sample.claims7 (Some (Int 60)) 1000
     = Ok (Sample.toy_encode
             (Sample.signed
                (JWTPayload.mk (Str "7") (Some "ann@clinic.com") (Some "user")
                   (Some 1000) None (Some 1060)))).
Proof.
  split.
  - exact (createAccessToken_issued Sample.secret "HS256" Sample.toy_sign
             Sample.toy_encode Sample.claims7 None 1000).
  - exact (createAccessToken_issued Sample.secret "HS256" Sample.toy_sign
             Sample.toy_encode Sample.claims7 (Some (Int 60)) 1000).
Qed.

Lemma toy_codec (t : Jwt.jws) : Sample.toy_decode (Sample.toy_encode t) = Some t.
Proof.
  unfold Sample.toy_decode, Sample.toy_encode.
  rewrite parseInt_numberToString. apply decode_encode.
Qed.

(** C4. When the parser reads back what the encoder writes, a token issued
    for any claims and verified before its expiry yields a payload with the
    subject given (as its text; a text subject is unchanged), the email and
    the role; a token whose signature is not the one the secret gives fails
    verification, and so does a token whose expiry has been reached. *)
Theorem token_round_trip
    (JWT_SECRET JWT_ALGORITHM : string)
    (jws_sign : string -> string -> JWTPayload.t -> string)
    (jws_encode : Jwt.jws -> string)
    (jws_decode : string -> option Jwt.jws) :
  (forall (data : Claims.t) (now now' : Z),
      (forall t, jws_decode (jws_encode t) = Some t) ->
      now' < now + 86400 ->
      exists token payload,
        Auth.createAccessToken JWT_SECRET JWT_ALGORITHM jws_sign jws_encode
          data None now = Ok token
        /\ Auth.decodeToken JWT_SECRET JWT_ALGORITHM jws_sign jws_decode token now'
           = Ok payload
        /\ String_ (JWTPayload.sub payload) = String_ (Claims.sub data)
        /\ (Claims.sub data <> Undefined ->
            JWTPayload.sub payload = Str (String_ (Claims.sub data)))
        /\ JWTPayload.email payload = Claims.email data
        /\ JWTPayload.role payload = Claims.role data)
  /\ (forall (token : string) (t : Jwt.jws) (now' : Z),
        jws_decode token = Some t ->
        Jwt.signature t <> jws_sign (Jwt.alg t) JWT_SECRET (Jwt.payload t) ->
        Auth.decodeToken JWT_SECRET JWT_ALGORITHM jws_sign jws_decode token now'
        = Throw (Error Auth.invalid_credentials))
  /\ (forall (token : string) (t : Jwt.jws) (e now' : Z),
        jws_decode token = Some t ->
        JWTPayload.exp (Jwt.payload t) = Some e -> e <= now' ->
        Auth.decodeToken JWT_SECRET JWT_ALGORITHM jws_sign jws_decode token now'
        = Throw (Error Auth.invalid_credentials)).
Proof.
  split; [|split].
  - intros data now now' Hcodec Hfresh.
    pose proof (createAccessToken_issued JWT_SECRET JWT_ALGORITHM jws_sign
                  jws_encode data None now) as Hissued.
    cbv zeta in Hissued.
    eexists. eexists. split; [exact Hissued|].
    split.
    + rewrite (decodeToken_decoded JWT_SECRET JWT_ALGORITHM jws_sign jws_decode
                 _ now' _ (Hcodec _)).
      cbn [Jwt.alg Jwt.signature Jwt.payload JWTPayload.nbf JWTPayload.exp].
      rewrite !String.eqb_refl.
      destruct (Z.ltb_spec now' (now + 86400)) as [_|Hge]; [reflexivity|lia].
    + cbn [JWTPayload.sub JWTPayload.email JWTPayload.role].
      destruct (Claims.sub data) as [| |n|s]; repeat split; intros H;
        try reflexivity; now elim H.
  - intros token t now' Hdec Hsig.
    rewrite (decodeToken_decoded JWT_SECRET JWT_ALGORITHM jws_sign jws_decode
               token now' t Hdec).
    destruct (String.eqb_spec (Jwt.signature t)
                (jws_sign (Jwt.alg t) JWT_SECRET (Jwt.payload t))) as [E|_];
      [contradiction|].
    now rewrite andb_false_r.
  - intros token t e now' Hdec Hexp Hpast.
    rewrite (decodeToken_decoded JWT_SECRET JWT_ALGORITHM jws_sign jws_decode
               token now' t Hdec), Hexp.
    destruct (Z.ltb_spec now' e) as [Hlt|_]; [lia|].
    now rewrite andb_false_r.
Qed.

Lemma token_round_trip_witness :
  (exists token payload,
      Auth.createAccessToken Sample.secret "HS256" Sample.toy_sign Sample.toy_encode
        Sample.claims7 None 1000 = Ok token
      /\ Auth.decodeToken Sample.secret "HS256" Sample.toy_sign Sample.toy_decode
           token 2000 = Ok payload
      /\ String_ (JWTPayload.sub payload) = String_ (Claims.sub Sample.claims7)
      /\ (Claims.sub Sample.claims7 <> Undefined ->
          JWTPayload.sub payload = Str (String_ (Claims.sub Sample.claims7)))
      /\ JWTPayload.email payload = Claims.email Sample.claims7
      /\ JWTPayload.role payload = Claims.role Sample.claims7)
  /\ Auth.decodeToken Sample.secret "HS256" Sample.toy_sign Sample.toy_decode
       (Sample.toy_encode Sample.forged) 2000
     = Throw (Error Auth.invalid_credentials)
  /\ Auth.decodeToken Sample.secret "HS256" Sample.toy_sign Sample.toy_decode
       (Sample.toy_encode Sample.token7) 87400
     = Throw (Error Auth.invalid_credentials).
Proof.
  destruct (token_round_trip Sample.secret "HS256" Sample.toy_sign
              Sample.toy_encode Sample.toy_decode) as (Hround & Hforged & Hstale).
  split; [|split].
  - apply Hround; [exact toy_codec|lia].
  - apply (Hforged _ Sample.forged); [apply toy_codec|].
    vm_compute. discriminate.
  - apply (Hstale _ Sample.token7 87400); [apply toy_codec|reflexivity|lia].
Defined.

(** ** Extracting the token of a request *)

Lemma trimStart_idempotent (s : string) : trimStart (trimStart s) = trimStart s.
Proof.
  induction s as [|c s IH]; simpl; [reflexivity|].
  destruct (isWhiteSpace c) eqn:E; [exact IH|]. simpl. now rewrite E.
Qed.

Lemma trimEnd_idempotent (s : string) : trimEnd (trimEnd s) = trimEnd s.
Proof.
  induction s as [|c s IH]; simpl; [reflexivity|].
  destruct (trimEnd s) as [|c' t] eqn:E.
  - destruct (isWhiteSpace c) eqn:Ec; simpl; [reflexivity|now rewrite Ec].
  - change (trimEnd (String c (String c' t))) with
      (match trimEnd (String c' t) with
       | EmptyString => if isWhiteSpace c then EmptyString else String c EmptyString
       | u => String c u
       end).
    now rewrite IH.
Qed.

(** Trimming the end of a text that does not start with white space leaves
    a text that does not start with white space. *)
Lemma trimStart_trimEnd (s : string) :
  trimStart s = s -> trimStart (trimEnd s) = trimEnd s.
Proof.
  destruct s as [|c s]; [reflexivity|].
  intros H. simpl in H.
  destruct (isWhiteSpace c) eqn:Ec.
  - exfalso. assert (Hlen : String.length (trimStart s) = S (String.length s))
      by now rewrite H.
    clear H. assert (Hle : (String.length (trimStart s) <= String.length s)%nat).
    { clear. induction s as [|a s IH]; simpl; [lia|].
      destruct (isWhiteSpace a); simpl; lia. }
    lia.
  - simpl. destruct (trimEnd s); rewrite ?Ec; simpl; now rewrite ?Ec.
Qed.

(** A trimmed text has no white space left at either end. *)
Lemma trim_idempotent (s : string) : trim (trim s) = trim s.
Proof.
  unfold trim.
  rewrite (trimStart_trimEnd (trimStart s)) by apply trimStart_idempotent.
  apply trimEnd_idempotent.
Qed.

Lemma plainChars_cons (c : ascii) (s : string) :
  Auth.plainChars (String c s) = true ->
  isWhiteSpace c = false /\ Ascii.eqb c quote = false /\ Auth.plainChars s = true.
Proof.
  simpl. rewrite !andb_true_iff, !negb_true_iff. tauto.
Qed.

Lemma plainChars_split (s : string) :
  Auth.plainChars s = true -> split " " s = [s].
Proof.
  induction s as [|c s IH]; intros H; [reflexivity|].
  apply plainChars_cons in H as (Hws & _ & Hs).
  simpl. destruct (Ascii.eqb_spec c " ") as [->|_]; [discriminate|].
  now rewrite (IH Hs).
Qed.

Lemma plainChars_trimEnd (s : string) :
  Auth.plainChars s = true -> trimEnd s = s.
Proof.
  induction s as [|c s IH]; intros H; [reflexivity|].
  apply plainChars_cons in H as (Hws & _ & Hs).
  simpl. rewrite (IH Hs), Hws. now destruct s.
Qed.

Lemma plainChars_trim (s : string) : Auth.plainChars s = true -> trim s = s.
Proof.
  intros H. unfold trim.
  assert (E : trimStart s = s).
  { destruct s as [|c s]; [reflexivity|].
    apply plainChars_cons in H as (Hws & _). simpl. now rewrite Hws. }
  rewrite E. now apply plainChars_trimEnd.
Qed.

Lemma plainChars_dropTrailingQuote (s : string) :
  Auth.plainChars s = true -> dropTrailingQuote s = s.
Proof.
  induction s as [|c s IH]; intros H; [reflexivity|].
  apply plainChars_cons in H as (_ & Hq & Hs).
  simpl. rewrite (IH Hs), Hq. now destruct s.
Qed.

Lemma plainChars_replaceWrappingQuotes (s : string) :
  Auth.plainChars s = true -> replaceWrappingQuotes s = s.
Proof.
  intros H. pose proof (plainChars_dropTrailingQuote s H) as Hdrop.
  destruct s as [|c s]; [reflexivity|].
  apply plainChars_cons in H as (_ & Hq & _).
  unfold replaceWrappingQuotes. now rewrite Hq.
Qed.

(** A well-formed token sent as [Bearer token] is the token extracted. *)
Lemma extractToken_bearer (JWT_COOKIE_NAME token : string)
    (jar : option (gmap string string)) :
  Auth.wellFormedBearer token = true ->
  Auth.extractToken JWT_COOKIE_NAME (Request.mk (Some ("Bearer " +:+ token)) jar)
  = Ok token.
Proof.
  unfold Auth.wellFormedBearer. rewrite !andb_true_iff.
  intros [[[Htruthy Hplain] Hnull] Hundef].
  unfold Auth.extractToken. cbn [Request.authorization].
  assert (Hsplit : splitLimit " " 2 ("Bearer " +:+ token) = ["Bearer"; token]).
  { unfold splitLimit. simpl. now rewrite (plainChars_split token Hplain). }
  rewrite Hsplit. cbn [lookup list_lookup].
  rewrite (plainChars_trim token Hplain),
    (plainChars_replaceWrappingQuotes token Hplain),
    (plainChars_trim token Hplain).
  rewrite Htruthy, Hnull, Hundef.
  assert (Hscheme : truthy ("Bearer " +:+ token)
                    && startsWith (toLowerCase ("Bearer " +:+ token)) "bearer "
                    = true) by (vm_compute; reflexivity).
  now rewrite Hscheme.
Qed.

(** What the header branch returns is trimmed: with no cookie to fall back
    on, every token extracted has no white space at its ends. *)
Lemma extractToken_header_trimmed (JWT_COOKIE_NAME token : string)
    (request : Request.t) :
  Auth.cookieToken JWT_COOKIE_NAME request = None ->
  Auth.extractToken JWT_COOKIE_NAME request = Ok token ->
  trim token = token.
Proof.
  unfold Auth.extractToken. intros ->.
  destruct (Request.authorization request) as [authHeader|]; [|discriminate].
  destruct (truthy authHeader && startsWith (toLowerCase authHeader) "bearer ");
    [|discriminate].
  destruct (splitLimit " " 2 authHeader !! 1%nat) as [piece|]; [|discriminate].
  destruct (truthy _ && _ && _); [|discriminate].
  intros H. injection H as <-. apply trim_idempotent.
Qed.

(** C6, the cookie branch: with no Authorization header, a cookie that is
    not empty is returned exactly as it is stored, white space and quotes
    included. *)
Theorem extractToken_cookie_as_is (JWT_COOKIE_NAME c : string) (request : Request.t) :
  Request.authorization request = None ->
  Auth.cookieToken JWT_COOKIE_NAME request = Some c ->
  truthy c = true ->
  Auth.extractToken JWT_COOKIE_NAME request = Ok c.
Proof.
  intros Hauth Hcookie Htruthy.
  unfold Auth.extractToken. now rewrite Hauth, Hcookie, Htruthy.
Qed.

Lemma extractToken_cookie_as_is_witness :
  Auth.extractToken "access_token" Sample.cookie_only = Ok Sample.padded_tok
  /\ trim (replaceWrappingQuotes (trim Sample.padded_tok)) = "tok".
Proof.
  split; [|reflexivity].
  apply extractToken_cookie_as_is; reflexivity.
Defined.

(** The same quoted text in the Authorization header is extracted as tok. *)
Example extractToken_header_quoted :
  Auth.extractToken "access_token" Sample.header_quoted = Ok "tok".
Proof. reflexivity. Qed.

(** ** Resolving the caller of a request *)

Section IdentityResolver.

Variable JWT_SECRET JWT_ALGORITHM JWT_COOKIE_NAME : string.
Variable jws_sign : string -> string -> JWTPayload.t -> string.
Variable jws_decode : string -> option Jwt.jws.

Local Abbreviation decodeToken :=
  (Auth.decodeToken JWT_SECRET JWT_ALGORITHM jws_sign jws_decode).
Local Abbreviation getCurrentUser :=
  (Auth.getCurrentUser JWT_SECRET JWT_ALGORITHM JWT_COOKIE_NAME jws_sign jws_decode).
Local Abbreviation authMiddleware :=
  (Auth.authMiddleware JWT_SECRET JWT_ALGORITHM JWT_COOKIE_NAME jws_sign jws_decode).

(** Both resolvers fail alike when no token can be extracted. *)
Lemma resolve_no_token (request : Request.t) (now : Z) :
  Request.authorization request = None ->
  Auth.cookieToken JWT_COOKIE_NAME request = None ->
  getCurrentUser request now = Throw (Error Auth.invalid_credentials)
  /\ authMiddleware request now = Auth.Respond 401 Auth.invalid_credentials.
Proof.
  intros Hauth Hcookie.
  unfold Auth.getCurrentUser, Auth.authMiddleware, Auth.extractToken.
  rewrite Hauth, Hcookie. split; reflexivity.
Qed.

(** Both resolvers on a token that verifies, by the subject of its payload. *)
Lemma resolve_verified (request : Request.t) (now : Z) (token : string)
    (payload : JWTPayload.t) :
  Auth.extractToken JWT_COOKIE_NAME request = Ok token ->
  decodeToken token now = Ok payload ->
  let user :=
    CurrentUser.mk (Auth.userIdOf (JWTPayload.sub payload))
      (JWTPayload.email payload) (JWTPayload.role payload) in
  match JWTPayload.sub payload with
  | Undefined | Null =>
      getCurrentUser request now = Throw (Error Auth.invalid_credentials)
      /\ authMiddleware request now = Auth.Respond 401 Auth.invalid_credentials
  | _ =>
      getCurrentUser request now = Ok user
      /\ authMiddleware request now = Auth.Next user
  end.
Proof.
  intros Htoken Hpayload user. subst user.
  unfold Auth.getCurrentUser, Auth.authMiddleware.
  rewrite Htoken, Hpayload.
  destruct (JWTPayload.sub payload); split; reflexivity.
Qed.

End IdentityResolver.

(** C5. A request with no Authorization header and no cookie under the
    configured name is refused by both resolvers with the invalid
    credentials error (status 401).  A well-formed token sent as a bearer
    header is the token extracted.  And when the token extracted verifies
    and its subject is the integer [n], held as a number or as the decimal
    text of a safe integer, both resolvers produce the identity whose
    user_id is [n] with the email and role of the payload. *)
Theorem resolve_identity
    (JWT_SECRET JWT_ALGORITHM JWT_COOKIE_NAME : string)
    (jws_sign : string -> string -> JWTPayload.t -> string)
    (jws_decode : string -> option Jwt.jws) :
  (forall (request : Request.t) (now : Z),
      Request.authorization request = None ->
      Auth.cookieToken JWT_COOKIE_NAME request = None ->
      Auth.getCurrentUser JWT_SECRET JWT_ALGORITHM JWT_COOKIE_NAME jws_sign
        jws_decode request now = Throw (Error Auth.invalid_credentials)
      /\ Auth.authMiddleware JWT_SECRET JWT_ALGORITHM JWT_COOKIE_NAME jws_sign
           jws_decode request now = Auth.Respond 401 Auth.invalid_credentials)
  /\ (forall (token : string) (jar : option (gmap string string)),
        Auth.wellFormedBearer token = true ->
        Auth.extractToken JWT_COOKIE_NAME
          (Request.mk (Some ("Bearer " +:+ token)) jar) = Ok token)
  /\ (forall (request : Request.t) (now : Z) (token : string)
             (payload : JWTPayload.t) (n : Z),
        Auth.extractToken JWT_COOKIE_NAME request = Ok token ->
        Auth.decodeToken JWT_SECRET JWT_ALGORITHM jws_sign jws_decode token now
        = Ok payload ->
        JWTPayload.sub payload = Num (Int n)
        \/ (JWTPayload.sub payload = Str (numberToString (Int n))
            /\ isSafeInteger n = true) ->
        Auth.getCurrentUser JWT_SECRET JWT_ALGORITHM JWT_COOKIE_NAME jws_sign
          jws_decode request now
        = Ok (CurrentUser.mk (Int n) (JWTPayload.email payload)
                (JWTPayload.role payload))
        /\ Auth.authMiddleware JWT_SECRET JWT_ALGORITHM JWT_COOKIE_NAME jws_sign
             jws_decode request now
           = Auth.Next (CurrentUser.mk (Int n) (JWTPayload.email payload)
                     (JWTPayload.role payload))).
Proof.
  split; [|split].
  - intros request now. apply resolve_no_token.
  - intros token jar. apply extractToken_bearer.
  - intros request now token payload n Htoken Hpayload Hsub.
    pose proof (resolve_verified JWT_SECRET JWT_ALGORITHM JWT_COOKIE_NAME
                  jws_sign jws_decode request now token payload Htoken Hpayload)
      as Hres.
    cbv zeta in Hres.
    destruct Hsub as [Hsub|[Hsub _]]; rewrite Hsub in Hres; cbn [Auth.userIdOf] in Hres.
    + exact Hres.
    + cbn [String_] in Hres. now rewrite parseInt_numberToString in Hres.
Qed.

Lemma resolve_identity_witness :
  (Auth.getCurrentUser Sample.secret "HS256" "access_token" Sample.toy_sign
     Sample.toy_decode (Request.mk None None) 2000
   = Throw (Error Auth.invalid_credentials)
   /\ Auth.authMiddleware Sample.secret "HS256" "access_token" Sample.toy_sign
        Sample.toy_decode (Request.mk None None) 2000
      = Auth.Respond 401 Auth.invalid_credentials)
  /\ Auth.extractToken "access_token" (Sample.bearer Sample.token7)
     = Ok (Sample.toy_encode Sample.token7)
  /\ (Auth.getCurrentUser Sample.secret "HS256" "access_token" Sample.toy_sign
        Sample.toy_decode (Sample.bearer Sample.token7) 2000
      = Ok (CurrentUser.mk (Int 7) (Some "ann@clinic.com") (Some "user"))
      /\ Auth.authMiddleware Sample.secret "HS256" "access_token" Sample.toy_sign
           Sample.toy_decode (Sample.bearer Sample.token7) 2000
         = Auth.Next (CurrentUser.mk (Int 7) (Some "ann@clinic.com") (Some "user"))).
Proof.
  destruct (resolve_identity Sample.secret "HS256" "access_token" Sample.toy_sign
              Sample.toy_decode) as (Hnone & Hbearer & Hsome).
  split; [|split].
  - apply Hnone; reflexivity.
  - apply Hbearer. vm_compute. reflexivity.
  - apply (Hsome (Sample.bearer Sample.token7) 2000
             (Sample.toy_encode Sample.token7) (Jwt.payload Sample.token7) 7).
    + apply Hbearer. vm_compute. reflexivity.
    + vm_compute. reflexivity.
    + right. split; reflexivity.
Defined.

(** C10. When the token extracted verifies and its subject is a text from
    which [parseInt] reads no integer, neither resolver fails: both produce
    an identity whose user_id is NaN. *)
Theorem resolve_non_numeric_subject
    (JWT_SECRET JWT_ALGORITHM JWT_COOKIE_NAME : string)
    (jws_sign : string -> string -> JWTPayload.t -> string)
    (jws_decode : string -> option Jwt.jws)
    (request : Request.t) (now : Z) (token : string) (payload : JWTPayload.t)
    (s : string) :
  Auth.extractToken JWT_COOKIE_NAME request = Ok token ->
  Auth.decodeToken JWT_SECRET JWT_ALGORITHM jws_sign jws_decode token now
  = Ok payload ->
  JWTPayload.sub payload = Str s ->
  parseInt s = NaN ->
  Auth.getCurrentUser JWT_SECRET JWT_ALGORITHM JWT_COOKIE_NAME jws_sign
    jws_decode request now
  = Ok (CurrentUser.mk NaN (JWTPayload.email payload) (JWTPayload.role payload))
  /\ Auth.authMiddleware JWT_SECRET JWT_ALGORITHM JWT_COOKIE_NAME jws_sign
       jws_decode request now
     = Auth.Next (CurrentUser.mk NaN (JWTPayload.email payload) (JWTPayload.role payload)).
Proof.
  intros Htoken Hpayload Hsub Hnan.
  pose proof (resolve_verified JWT_SECRET JWT_ALGORITHM JWT_COOKIE_NAME
                jws_sign jws_decode request now token payload Htoken Hpayload)
    as Hres.
  cbv zeta in Hres. rewrite Hsub in Hres.
  cbn [Auth.userIdOf String_] in Hres. now rewrite Hnan in Hres.
Qed.

Lemma resolve_non_numeric_subject_witness :
  Auth.getCurrentUser Sample.secret "HS256" "access_token" Sample.toy_sign
    Sample.toy_decode (Sample.bearer Sample.token_abc) 2000
  = Ok (CurrentUser.mk NaN None (Some "user"))
  /\ Auth.authMiddleware Sample.secret "HS256" "access_token" Sample.toy_sign
       Sample.toy_decode (Sample.bearer Sample.token_abc) 2000
     = Auth.Next (CurrentUser.mk NaN None (Some "user")).
Proof.
  apply (resolve_non_numeric_subject Sample.secret "HS256" "access_token"
           Sample.toy_sign Sample.toy_decode (Sample.bearer Sample.token_abc) 2000
           (Sample.toy_encode Sample.token_abc) (Jwt.payload Sample.token_abc) "abc").
  - vm_compute. reflexivity.
  - vm_compute. reflexivity.
  - reflexivity.
  - reflexivity.
Defined.

(** Texts from which [parseInt] reads no integer, and texts it reads in part. *)
Example parseInt_examples :
  parseInt "abc" = NaN /\ parseInt EmptyString = NaN /\ parseInt "-" = NaN
  /\ parseInt "12abc" = Int 12 /\ parseInt " 42" = Int 42.
Proof. repeat split. Qed.

(** ** Counting *)

(** The three counts are the numbers of rows with the status (and priority)
    asked for. *)
Lemma getStats_counts (d : Pg.database) :
  let count p := Int (Z.of_nat (length (List.filter p (Pg.patients_rows d)))) in
  Db.getStats d
  = Stats.mk (count (Pg.has_status "Waiting"))
      (count (fun r => Pg.has_status "Waiting" r && Pg.has_priority "Emergency" r))
      (count (Pg.has_status "Visited")).
Proof.
  unfold Db.getStats, Pg.count_text. cbv zeta.
  now rewrite !parseInt_numberToString.
Qed.

(** The example of the specification: two emergencies and three normal
    arrivals, one normal patient visited. *)
Example getStats_busy_morning :
  Db.getStats (snd (Db.run String.leb Sample.busy_morning Pg.empty))
  = Stats.mk (Int 4) (Int 2) (Int 1).
Proof. reflexivity. Qed.

(** ** Passwords *)

(** [verifyPassword] adds nothing to [bcrypt.compare]: it returns what the
    library returns and fails when the library fails. *)
Lemma verifyPassword_is_compare
    (bcrypt_compare : string -> string -> result bool)
    (plainPassword hashedPassword : string) :
  Auth.verifyPassword bcrypt_compare plainPassword hashedPassword
  = bcrypt_compare plainPassword hashedPassword.
Proof. reflexivity. Qed.

(** * Further properties of db.ts *)

(** ** Counting and listing *)

Lemma filter_length_Permutation {A : Type} (p : A -> bool) (l l' : list A) :
  Permutation l l' -> length (List.filter p l) = length (List.filter p l').
Proof.
  induction 1 as [|x l l' _ IH|x y l|l l' l'' _ IH1 _ IH2]; simpl.
  - reflexivity.
  - destruct (p x); simpl; congruence.
  - destruct (p x), (p y); reflexivity.
  - congruence.
Qed.

Lemma filter_length_map {A B : Type} (f : A -> B) (p : B -> bool) (l : list A) :
  length (List.filter p (List.map f l))
  = length (List.filter (fun x => p (f x)) l).
Proof.
  induction l as [|x l IH]; simpl; [reflexivity|].
  destruct (p (f x)); simpl; congruence.
Qed.

Lemma filter_length_disjoint {A : Type} (p q : A -> bool) (l : list A) :
  (forall x, p x = true -> q x = false) ->
  (length (List.filter p l) + length (List.filter q l) <= length l)%nat.
Proof.
  intros Hpq. induction l as [|x l IH]; simpl; [lia|].
  destruct (p x) eqn:Ep; [rewrite (Hpq x Ep)|destruct (q x)]; simpl; lia.
Qed.

Lemma filter_length_and {A : Type} (p q : A -> bool) (l : list A) :
  (length (List.filter (fun x => p x && q x) l) <= length (List.filter p l))%nat.
Proof.
  induction l as [|x l IH]; simpl; [lia|].
  destruct (p x), (q x); simpl; lia.
Qed.

Lemma filter_length_filter {A : Type} (p q : A -> bool) (l : list A) :
  length (List.filter q (List.filter p l))
  = length (List.filter (fun x => p x && q x) l).
Proof.
  induction l as [|x l IH]; simpl; [reflexivity|].
  destruct (p x); simpl; [|exact IH].
  destruct (q x); simpl; congruence.
Qed.

(** X1. The counts of [getStats] are those of the list [getAllPatients]
    returns: totalWaiting is its length and totalEmergency the number of
    its Emergency entries; totalEmergency never exceeds totalWaiting, and
    totalWaiting plus totalVisited never exceeds the number of rows. *)
Theorem getStats_agrees_with_listing (collate_leb : string -> string -> bool)
    (d : Pg.database) :
  Stats.totalWaiting (Db.getStats d)
  = Int (Z.of_nat (length (Db.getAllPatients collate_leb d)))
  /\ Stats.totalEmergency (Db.getStats d)
     = Int (Z.of_nat
              (length (List.filter
                         (fun p => String.eqb (Patient.priority p) "Emergency")
                         (Db.getAllPatients collate_leb d))))
  /\ exists w e v,
       Db.getStats d = Stats.mk (Int w) (Int e) (Int v)
       /\ 0 <= e <= w /\ 0 <= v
       /\ w + v <= Z.of_nat (length (Pg.patients_rows d)).
Proof.
  pose proof (getStats_counts d) as Hstats. cbv zeta in Hstats.
  rewrite Hstats, getAllPatients_rows. cbn [Stats.totalWaiting Stats.totalEmergency].
  pose proof (order_by_perm (Db.queue_leb collate_leb)
                (List.filter (Pg.has_status "Waiting") (Pg.patients_rows d)))
    as Hperm.
  split; [|split].
  - now rewrite length_map, <- (Permutation_length Hperm).
  - rewrite filter_length_map.
    rewrite <- (filter_length_Permutation _ _ _ Hperm).
    change (fun x => String.eqb (Patient.priority (Db.patient_of x)) "Emergency")
      with (Pg.has_priority "Emergency").
    now rewrite filter_length_filter.
  - eexists _, _, _. split; [reflexivity|].
    pose proof (filter_length_and (Pg.has_status "Waiting")
                  (Pg.has_priority "Emergency") (Pg.patients_rows d)) as Hand.
    pose proof (filter_length_disjoint (Pg.has_status "Waiting")
                  (Pg.has_status "Visited") (Pg.patients_rows d)) as Hdis.
    assert (Hne : forall x, Pg.has_status "Waiting" x = true ->
                            Pg.has_status "Visited" x = false).
    { intros x Hx. unfold Pg.has_status in *.
      apply String.eqb_eq in Hx. now rewrite Hx. }
    specialize (Hdis Hne). lia.
Qed.

(** ** Adding a patient *)

Lemma in_getAllPatients (collate_leb : string -> string -> bool) (d : Pg.database)
    (p : Patient.t) :
  In p (Db.getAllPatients collate_leb d)
  <-> exists r, In r (Pg.patients_rows d)
        /\ patients.status r = "Waiting" /\ p = Db.patient_of r.
Proof.
  rewrite getAllPatients_rows, in_map_iff. split.
  - intros (r & <- & Hr).
    eapply Permutation_in in Hr; [|symmetry; apply order_by_perm].
    apply filter_In in Hr as [Hr Hst]. exists r.
    unfold Pg.has_status in Hst. apply String.eqb_eq in Hst. auto.
  - intros (r & Hr & Hst & ->). exists r. split; [reflexivity|].
    eapply Permutation_in; [apply order_by_perm|].
    apply filter_In. split; [exact Hr|].
    unfold Pg.has_status. now apply String.eqb_eq.
Qed.

Lemma getAllPatients_length (collate_leb : string -> string -> bool) (d : Pg.database) :
  length (Db.getAllPatients collate_leb d)
  = length (List.filter (Pg.has_status "Waiting") (Pg.patients_rows d)).
Proof.
  rewrite getAllPatients_rows, length_map.
  symmetry. apply Permutation_length, order_by_perm.
Qed.

(** X2. When [addPatient] returns, the patient has the id drawn from the
    sequence, which no stored patient had, the values given, the clock's
    text without its milliseconds as arrivalTime and status Waiting; the
    next [getAllPatients] holds it and is one entry longer, and the
    sequence has advanced by one. *)
Theorem addPatient_success (collate_leb : string -> string -> bool)
    (name problem priority now : string) (d d' : Pg.database) (p : Patient.t) :
  Db.addPatient name problem priority now d = (Ok p, d') ->
  p = Patient.mk (Pg.patients_id_seq d) name problem priority (Db.dropMillis now)
        "Waiting"
  /\ ~ Db.stored (Patient.id p) d
  /\ In p (Db.getAllPatients collate_leb d')
  /\ length (Db.getAllPatients collate_leb d')
     = S (length (Db.getAllPatients collate_leb d))
  /\ Pg.patients_id_seq d' = Pg.patients_id_seq d + 1
  /\ Pg.users_rows d' = Pg.users_rows d.
Proof.
  unfold Db.addPatient, Pg.insert_patient.
  destruct (existsb (Pg.patient_has_id (Pg.patients_id_seq d)) (Pg.patients_rows d))
    eqn:Hfree; [discriminate|].
  rewrite rowToPatient_result_row. intros H. injection H as <- <-.
  split; [reflexivity|]. split; [|split; [|split; [|split; reflexivity]]].
  - intros (r & Hin & Hid). simpl in Hid.
    assert (Hex : existsb (Pg.patient_has_id (Pg.patients_id_seq d))
                    (Pg.patients_rows d) = true).
    { apply existsb_exists. exists r. split; [exact Hin|].
      unfold Pg.patient_has_id. now apply Z.eqb_eq. }
    congruence.
  - apply in_getAllPatients.
    exists (patients.mk (Pg.patients_id_seq d) name problem priority
              (Db.dropMillis now) "Waiting").
    split; [|split; reflexivity].
    simpl. apply in_or_app. right. now left.
  - rewrite !getAllPatients_length. simpl.
    rewrite filter_app, length_app. simpl. lia.
Qed.

Lemma addPatient_success_witness :
  Patient.mk 3 "Cy" "Cough" "Normal" "2024-03-01T09:10:00Z" "Waiting"
  = Patient.mk (Pg.patients_id_seq Sample.two_waiting) "Cy" "Cough" "Normal"
      (Db.dropMillis "2024-03-01T09:10:00.000Z") "Waiting"
  /\ ~ Db.stored 3 Sample.two_waiting
  /\ In (Patient.mk 3 "Cy" "Cough" "Normal" "2024-03-01T09:10:00Z" "Waiting")
       (Db.getAllPatients String.leb
          (snd (Db.addPatient "Cy" "Cough" "Normal" "2024-03-01T09:10:00.000Z"
                  Sample.two_waiting)))
  /\ length (Db.getAllPatients String.leb
               (snd (Db.addPatient "Cy" "Cough" "Normal" "2024-03-01T09:10:00.000Z"
                       Sample.two_waiting)))
     = S (length (Db.getAllPatients String.leb Sample.two_waiting))
  /\ Pg.patients_id_seq
       (snd (Db.addPatient "Cy" "Cough" "Normal" "2024-03-01T09:10:00.000Z"
               Sample.two_waiting))
     = Pg.patients_id_seq Sample.two_waiting + 1
  /\ Pg.users_rows
       (snd (Db.addPatient "Cy" "Cough" "Normal" "2024-03-01T09:10:00.000Z"
               Sample.two_waiting))
     = Pg.users_rows Sample.two_waiting.
Proof.
  apply (addPatient_success String.leb "Cy" "Cough" "Normal"
           "2024-03-01T09:10:00.000Z" Sample.two_waiting).
  reflexivity.
Defined.


(** ** The arrival time *)

Lemma dropMillis_unfold (c : ascii) (rest : string) :
  Db.dropMillis (String c rest)
  = match c, rest with
    | "."%char, String d1 (String d2 (String d3 (String "Z" EmptyString))) =>
        if isDigit d1 && isDigit d2 && isDigit d3 then "Z"
        else String c (Db.dropMillis rest)
    | _, _ => String c (Db.dropMillis rest)
    end.
Proof. reflexivity. Qed.

Lemma dropMillis_long (c : ascii) (rest : string) :
  (4 < String.length rest)%nat ->
  Db.dropMillis (String c rest) = String c (Db.dropMillis rest).
Proof.
  intros Hlen. rewrite dropMillis_unfold.
  destruct rest as [|a [|b [|e [|f [|g rest]]]]]; simpl in Hlen; try lia.
  destruct (Ascii.eqb_spec c "."%char) as [->|Hc].
  - destruct (Ascii.eqb_spec f "Z"%char) as [->|Hf]; [reflexivity|].
    destruct f as [[] [] [] [] [] [] [] []]; try reflexivity; now elim Hf.
  - destruct c as [[] [] [] [] [] [] [] []]; try reflexivity; now elim Hc.
Qed.

(** X4. [addPatient] stores the clock's ISO text with its milliseconds
    removed: a text ending in a dot, three digits and Z loses the dot and
    the digits, whatever precedes them, and any other text is stored as it
    is. *)
Theorem dropMillis_spec :
  (forall (p : string) (d1 d2 d3 : ascii),
      isDigit d1 = true -> isDigit d2 = true -> isDigit d3 = true ->
      Db.dropMillis
        (p +:+ String "." (String d1 (String d2 (String d3 "Z"))))
      = p +:+ "Z")
  /\ (forall s : string,
        Db.dropMillis s = s
        \/ exists (p : string) (d1 d2 d3 : ascii),
             isDigit d1 = true /\ isDigit d2 = true /\ isDigit d3 = true
             /\ s = p +:+ String "." (String d1 (String d2 (String d3 "Z")))
             /\ Db.dropMillis s = p +:+ "Z").
Proof.
  assert (Hend : forall (p : string) (d1 d2 d3 : ascii),
             isDigit d1 = true -> isDigit d2 = true -> isDigit d3 = true ->
             Db.dropMillis
               (p +:+ String "." (String d1 (String d2 (String d3 "Z"))))
             = p +:+ "Z").
  { intros p d1 d2 d3 H1 H2 H3.
    induction p as [|c p IH].
    - simpl. now rewrite H1, H2, H3.
    - change (String c p +:+ String "." (String d1 (String d2 (String d3 "Z"))))
        with (String c (p +:+ String "." (String d1 (String d2 (String d3 "Z"))))).
      rewrite dropMillis_long.
      + rewrite IH. reflexivity.
      + clear. induction p as [|a p IHp]; simpl; lia. }
  split; [exact Hend|].
  induction s as [|c s IH]; [now left|].
  rewrite dropMillis_unfold.
  destruct IH as [IH|(p & d1 & d2 & d3 & H1 & H2 & H3 & -> & IH)].
  - assert (Hkeep : String c (Db.dropMillis s) = String c s) by now rewrite IH.
    destruct (Ascii.eqb_spec c "."%char) as [->|Hc].
    + destruct s as [|d1 [|d2 [|d3 [|z [|x s]]]]]; try (left; exact Hkeep);
        (destruct (Ascii.eqb_spec z "Z"%char) as [->|Hz];
         [|left; destruct z as [[] [] [] [] [] [] [] []]; try exact Hkeep;
           now elim Hz]); try (left; exact Hkeep).
      destruct (isDigit d1 && isDigit d2 && isDigit d3) eqn:Hd;
        [|left; exact Hkeep].
      apply andb_true_iff in Hd as [Hd H3]. apply andb_true_iff in Hd as [H1 H2].
      right. exists EmptyString, d1, d2, d3. repeat split; assumption.
    + left. destruct c as [[] [] [] [] [] [] [] []]; try exact Hkeep. now elim Hc.
  - right. exists (String c p), d1, d2, d3. repeat split; try assumption.
    rewrite <- dropMillis_unfold.
    change (String c (p +:+ String "." (String d1 (String d2 (String d3 "Z")))))
      with (String c p +:+ String "." (String d1 (String d2 (String d3 "Z")))).
    now apply Hend.
Qed.

(** ** What the operations leave alone *)

Lemma exec_keeps_patients (collate_leb : string -> string -> bool) (o : Db.op)
    (d : Pg.database) (r : patients.row) :
  In r (Pg.patients_rows d) ->
  exists r', In r' (Pg.patients_rows (snd (Db.exec collate_leb o d)))
    /\ patients.id r' = patients.id r /\ patients.name r' = patients.name r
    /\ patients.problem r' = patients.problem r
    /\ patients.priority r' = patients.priority r
    /\ patients.arrivalTime r' = patients.arrivalTime r
    /\ (patients.status r' = patients.status r \/ patients.status r' = "Visited").
Proof.
  intros Hin.
  destruct (exec_rows collate_leb o d) as [E|[(x & E & _)|(j & E)]]; rewrite E.
  - exists r. repeat split; auto.
  - exists r. repeat split; auto. apply in_or_app. now left.
  - exists (if Pg.patient_has_id j r then patients.set_status "Visited" r else r).
    split; [apply in_map_iff; now exists r|].
    destruct (Pg.patient_has_id j r); repeat split; auto.
Qed.

Lemma exec_users (collate_leb : string -> string -> bool) (o : Db.op) (d : Pg.database) :
  Pg.users_rows (snd (Db.exec collate_leb o d)) = Pg.users_rows d
  /\ Pg.users_id_seq (snd (Db.exec collate_leb o d)) = Pg.users_id_seq d.
Proof.
  rewrite exec_snd.
  destruct o as [name problem priority now| |patient_id|]; auto.
  - unfold Db.addPatient, Pg.insert_patient.
    now destruct (existsb _ _).
  - destruct patient_id as [|i]; auto.
    pose proof (markVisited_cases i d) as H.
    destruct (Pg.select_patient_by_id i d) as [|row rest]; [now rewrite H|].
    destruct (String.eqb (patients.status row) "Visited"); now rewrite H.
Qed.

(** X5. No sequence of queue operations deletes a patient or changes
    anything of it but its status, and the status only to Visited: every
    row stored before is stored after with the same id, name, problem,
    priority and arrivalTime.  The users are not touched. *)
Theorem run_keeps_patients (collate_leb : string -> string -> bool)
    (ops : list Db.op) (d : Pg.database) :
  (forall r, In r (Pg.patients_rows d) ->
     exists r', In r' (Pg.patients_rows (snd (Db.run collate_leb ops d)))
       /\ patients.id r' = patients.id r /\ patients.name r' = patients.name r
       /\ patients.problem r' = patients.problem r
       /\ patients.priority r' = patients.priority r
       /\ patients.arrivalTime r' = patients.arrivalTime r
       /\ (patients.status r' = patients.status r
           \/ patients.status r' = "Visited"))
  /\ Pg.users_rows (snd (Db.run collate_leb ops d)) = Pg.users_rows d.
Proof.
  revert d. induction ops as [|o ops IH]; intros d.
  - split; [|reflexivity]. intros r Hr. exists r. repeat split; auto.
  - rewrite run_cons. cbn [snd].
    destruct (IH (snd (Db.exec collate_leb o d))) as [IHrows IHusers].
    split.
    + intros r Hr.
      destruct (exec_keeps_patients collate_leb o d r Hr)
        as (r1 & Hr1 & Hid & Hname & Hproblem & Hprio & Harr & Hst).
      destruct (IHrows r1 Hr1)
        as (r2 & Hr2 & Hid2 & Hname2 & Hproblem2 & Hprio2 & Harr2 & Hst2).
      exists r2. repeat split; try congruence.
      destruct Hst2 as [Hst2|Hst2]; [|now right].
      rewrite Hst2. exact Hst.
    + rewrite IHusers. apply exec_users.
Qed.

(** X6. After [markVisited] has succeeded on id [i], the waiting list is
    the one before without the patient [i]; the patient returned has id [i]
    and status Visited, and no sequence or user row has changed. *)
Theorem markVisited_success_effect (collate_leb : string -> string -> bool)
    (i : Z) (d d' : Pg.database) (p : Patient.t) :
  Db.markVisited (Int i) d = (Ok (Some p, None), d') ->
  Patient.id p = i /\ Patient.status p = "Visited"
  /\ (forall q, In q (Db.getAllPatients collate_leb d')
                <-> In q (Db.getAllPatients collate_leb d) /\ Patient.id q <> i)
  /\ Pg.patients_id_seq d' = Pg.patients_id_seq d
  /\ Pg.users_rows d' = Pg.users_rows d.
Proof.
  intros Hmark. pose proof (markVisited_cases i d) as Hc.
  destruct (Pg.select_patient_by_id i d) as [|row rest] eqn:Esel;
    [rewrite Hc in Hmark; discriminate|].
  assert (Hrow : In row (Pg.patients_rows d) /\ patients.id row = i).
  { apply in_select_patient_by_id. rewrite Esel. now left. }
  destruct (String.eqb (patients.status row) "Visited");
    rewrite Hc in Hmark; [discriminate|].
  injection Hmark as <- <-.
  split; [exact (proj2 Hrow)|]. split; [reflexivity|].
  split; [|split; reflexivity].
  intros q. rewrite !in_getAllPatients. split.
  - intros (r & Hr & Hst & ->).
    apply update_visited_rows in Hr as (r0 & Hr0 & ->).
    destruct (Pg.patient_has_id i r0) eqn:Hid; [discriminate|].
    split; [now exists r0|].
    unfold Pg.patient_has_id in Hid. now apply Z.eqb_neq in Hid.
  - intros [(r & Hr & Hst & ->) Hne]. exists r.
    split; [|split; [exact Hst|reflexivity]].
    apply update_visited_rows. exists r. split; [exact Hr|].
    unfold Pg.patient_has_id. simpl in Hne.
    apply Z.eqb_neq in Hne. now rewrite Hne.
Qed.

Lemma markVisited_success_effect_witness :
  Patient.id (Patient.mk 1 "Al" "Fever" "Normal" "2024-03-01T09:00:00Z" "Visited") = 1
  /\ Patient.status
       (Patient.mk 1 "Al" "Fever" "Normal" "2024-03-01T09:00:00Z" "Visited")
     = "Visited"
  /\ (forall q, In q (Db.getAllPatients String.leb Sample.al_visited)
                <-> In q (Db.getAllPatients String.leb Sample.two_waiting)
                    /\ Patient.id q <> 1)
  /\ Pg.patients_id_seq Sample.al_visited = Pg.patients_id_seq Sample.two_waiting
  /\ Pg.users_rows Sample.al_visited = Pg.users_rows Sample.two_waiting.
Proof.
  apply (markVisited_success_effect String.leb 1 Sample.two_waiting).
  reflexivity.
Defined.

(** ** The user directory *)






(** X8. [createUser] keeps the users table well formed whatever its
    outcome: if no two stored users share an id or an email and every id
    was drawn from the sequence, the same holds afterwards, and every user
    stored before is stored unchanged. *)
Theorem createUser_keeps_unique (bcrypt_hash : string -> Z -> string -> string)
    (name email password role salt : string) (d : Pg.database) :
  List.NoDup (List.map users.id (Pg.users_rows d)) ->
  List.NoDup (List.map users.email (Pg.users_rows d)) ->
  Db.users_from_seq d ->
  List.NoDup (List.map users.id
                (Pg.users_rows
                   (snd (Db.createUser bcrypt_hash name email password role salt d))))
  /\ List.NoDup
       (List.map users.email
          (Pg.users_rows
             (snd (Db.createUser bcrypt_hash name email password role salt d))))
  /\ Db.users_from_seq
       (snd (Db.createUser bcrypt_hash name email password role salt d))
  /\ (forall u, In u (Pg.users_rows d) ->
        In u (Pg.users_rows
                (snd (Db.createUser bcrypt_hash name email password role salt d)))).
Proof.
  intros Hids Hemails Hseq.
  unfold Db.createUser, Pg.insert_user.
  destruct (existsb (Pg.user_has_id (Pg.users_id_seq d)) (Pg.users_rows d)) eqn:Hid.
  - cbn [snd Pg.users_rows]. repeat split; auto.
    intros u Hu. cbn [Pg.users_rows Pg.users_id_seq]. specialize (Hseq u Hu). lia.
  - destruct (existsb (Pg.user_has_email email) (Pg.users_rows d)) eqn:Hemail.
    + cbn [snd Pg.users_rows]. repeat split; auto.
      intros u Hu. cbn [Pg.users_rows Pg.users_id_seq]. specialize (Hseq u Hu). lia.
    + cbn [snd Pg.users_rows]. rewrite !map_app. cbn [List.map users.id users.email].
      split; [|split; [|split]].
      * eapply Permutation_NoDup; [apply Permutation_cons_append|].
        constructor; [|exact Hids].
        intros Hin. apply in_map_iff in Hin as (x & Hx & Hxin).
        specialize (Hseq x Hxin). lia.
      * eapply Permutation_NoDup; [apply Permutation_cons_append|].
        constructor; [|exact Hemails].
        intros Hin. apply in_map_iff in Hin as (x & Hx & Hxin).
        assert (H : existsb (Pg.user_has_email email) (Pg.users_rows d) = true).
        { apply existsb_exists. exists x. split; [exact Hxin|].
          unfold Pg.user_has_email. now apply String.eqb_eq. }
        congruence.
      * intros u Hu. cbn [Pg.users_rows Pg.users_id_seq] in *.
        apply in_app_or in Hu as [Hu|[<-|[]]]; [specialize (Hseq u Hu); lia|].
        cbn [users.id]. lia.
      * intros u Hu. apply in_or_app. now left.
Qed.

Lemma createUser_keeps_unique_witness :
  List.NoDup (List.map users.id
                (Pg.users_rows
                   (snd (Db.createUser Sample.toy_hash "Bea" "bea@clinic.com"
                           "secret2" "user" "s2" Sample.with_ann))))
  /\ List.NoDup
       (List.map users.email
          (Pg.users_rows
             (snd (Db.createUser Sample.toy_hash "Bea" "bea@clinic.com" "secret2"
                     "user" "s2" Sample.with_ann))))
  /\ Db.users_from_seq
       (snd (Db.createUser Sample.toy_hash "Bea" "bea@clinic.com" "secret2" "user"
               "s2" Sample.with_ann))
  /\ (forall u, In u (Pg.users_rows Sample.with_ann) ->
        In u (Pg.users_rows
                (snd (Db.createUser Sample.toy_hash "Bea" "bea@clinic.com"
                        "secret2" "user" "s2" Sample.with_ann)))).
Proof.
  apply (createUser_keeps_unique Sample.toy_hash).
  - repeat constructor. intros [].
  - repeat constructor. intros [].
  - intros u [<-|[]]. reflexivity.
Defined.



(** ** Start-up *)

Lemma migrate_rest (data : list (option patients.row)) (d : Pg.database) :
  Pg.users_rows (Db.migrate data d) = Pg.users_rows d
  /\ Pg.users_id_seq (Db.migrate data d) = Pg.users_id_seq d
  /\ Pg.patients_id_seq (Db.migrate data d) = Pg.patients_id_seq d.
Proof.
  revert d. induction data as [|[p|] data IH]; intros d; simpl; auto.
  unfold Pg.insert_patient_with_id.
  destruct (existsb _ _); auto.
  destruct (IH (Pg.mk (Pg.patients_rows d ++ [p]) (Pg.patients_id_seq d)
                  (Pg.users_rows d) (Pg.users_id_seq d))) as (H1 & H2 & H3).
  auto.
Qed.

Lemma migrate_pk (data : list (option patients.row)) (d : Pg.database) :
  Db.pk_patients d -> Db.pk_patients (Db.migrate data d).
Proof.
  revert d. induction data as [|[p|] data IH]; intros d Hpk; simpl; auto.
  unfold Pg.insert_patient_with_id.
  destruct (existsb (Pg.patient_has_id (patients.id p)) (Pg.patients_rows d)) eqn:E;
    [exact Hpk|].
  apply IH. unfold Db.pk_patients. cbn [Pg.patients_rows].
  rewrite map_app. simpl.
  eapply Permutation_NoDup; [apply Permutation_cons_append|].
  constructor; [|exact Hpk].
  intros Hin. apply in_map_iff in Hin as (x & Hx & Hxin).
  assert (H : existsb (Pg.patient_has_id (patients.id p)) (Pg.patients_rows d) = true).
  { apply existsb_exists. exists x. split; [exact Hxin|].
    unfold Pg.patient_has_id. now apply Z.eqb_eq. }
  congruence.
Qed.

(** Entries the store accepts, with ids that differ from each other and
    from the ids stored, are all inserted, in order. *)
Lemma migrate_all (rows : list patients.row) (d : Pg.database) :
  List.NoDup (List.map patients.id rows) ->
  (forall r, In r rows -> ~ Db.stored (patients.id r) d) ->
  Pg.patients_rows (Db.migrate (List.map Some rows) d)
  = (Pg.patients_rows d ++ rows)%list.
Proof.
  revert d. induction rows as [|p rows IH]; intros d Hnd Hnew; simpl.
  - now rewrite app_nil_r.
  - apply List.NoDup_cons_iff in Hnd as [Hp Hnd].
    unfold Pg.insert_patient_with_id.
    destruct (existsb (Pg.patient_has_id (patients.id p)) (Pg.patients_rows d)) eqn:E.
    + exfalso. apply existsb_exists in E as (x & Hx & Hid).
      apply (Hnew p (or_introl eq_refl)). exists x. split; [exact Hx|].
      unfold Pg.patient_has_id in Hid. now apply Z.eqb_eq in Hid.
    + rewrite IH; [cbn [Pg.patients_rows]; now rewrite <- app_assoc|exact Hnd|].
      intros r Hr (x & Hx & Hid). cbn [Pg.patients_rows] in Hx.
      apply in_app_or in Hx as [Hx|[<-|[]]].
      * apply (Hnew r (or_intror Hr)). now exists x.
      * apply Hp. rewrite Hid. now apply in_map.
Qed.

Lemma count_all (d : Pg.database) :
  parseInt (Pg.count_text (fun _ => true) d)
  = Int (Z.of_nat (length (Pg.patients_rows d))).
Proof.
  unfold Pg.count_text. rewrite parseInt_numberToString.
  do 3 f_equal. induction (Pg.patients_rows d) as [|r l IH]; simpl; congruence.
Qed.

(** [initDb] in a store whose user ids were all drawn from the sequence. *)
Lemma initDb_steps (bcrypt_hash : string -> Z -> string -> string) (salt : string)
    (dataFile : option (list (option patients.row))) (d : Pg.database) :
  Db.users_from_seq d ->
  let d1 :=
    match Db.getUserByEmail "admin@clinic.com" d with
    | Some _ => d
    | None =>
        Pg.mk (Pg.patients_rows d) (Pg.patients_id_seq d)
          (Pg.users_rows d
           ++ [users.mk (Pg.users_id_seq d) "Admin User" "admin@clinic.com"
                 (bcrypt_hash "admin123" 10 salt) "admin"])
          (Pg.users_id_seq d + 1)
    end in
  Db.initDb bcrypt_hash salt dataFile d
  = (Ok tt,
     match Pg.patients_rows d, dataFile with
     | [], Some data => Db.migrate data d1
     | _, _ => d1
     end).
Proof.
  intros Hseq d1. subst d1. unfold Db.initDb, Db.getUserByEmail.
  assert (Hfresh : existsb (Pg.user_has_id (Pg.users_id_seq d)) (Pg.users_rows d)
                   = false).
  { apply not_true_is_false. intros H.
    apply existsb_exists in H as (u & Hin & Hid).
    unfold Pg.user_has_id in Hid. apply Z.eqb_eq in Hid.
    specialize (Hseq u Hin). lia. }
  destruct (List.filter (Pg.user_has_email "admin@clinic.com") (Pg.users_rows d))
    as [|u l] eqn:Eadmin.
  - unfold Pg.insert_user, Auth.hashPassword. rewrite Hfresh.
    assert (Hnone : existsb (Pg.user_has_email "admin@clinic.com") (Pg.users_rows d)
                    = false).
    { apply not_true_is_false. intros H.
      apply existsb_exists in H as (u & Hin & He).
      assert (Hf : In u (List.filter (Pg.user_has_email "admin@clinic.com")
                           (Pg.users_rows d)))
        by (apply filter_In; auto).
      rewrite Eadmin in Hf. exact Hf. }
    rewrite Hnone. rewrite count_all. cbn [Pg.patients_rows].
    destruct (Pg.patients_rows d) as [|r rows]; [|reflexivity].
    now destruct dataFile.
  - rewrite count_all.
    destruct (Pg.patients_rows d) as [|r rows]; [|reflexivity].
    now destruct dataFile.
Qed.

(** X10. In a store whose user ids were all drawn from the sequence,
    [initDb] returns without error and afterwards the account
    admin@clinic.com exists: when it did not, it is created with role admin
    and the bcrypt hash of the fixed password; when it did, no user row
    changes.  Running [initDb] again changes no user row. *)
Theorem initDb_admin (bcrypt_hash : string -> Z -> string -> string)
    (salt salt' : string) (dataFile dataFile' : option (list (option patients.row)))
    (d : Pg.database) :
  Db.users_from_seq d ->
  fst (Db.initDb bcrypt_hash salt dataFile d) = Ok tt
  /\ (Db.getUserByEmail "admin@clinic.com" d = None ->
      Db.getUserByEmail "admin@clinic.com"
        (snd (Db.initDb bcrypt_hash salt dataFile d))
      = Some (UserWithPassword.mk (Pg.users_id_seq d) "Admin User"
                "admin@clinic.com" (bcrypt_hash "admin123" 10 salt) "admin"))
  /\ (Db.getUserByEmail "admin@clinic.com" d <> None ->
      Pg.users_rows (snd (Db.initDb bcrypt_hash salt dataFile d)) = Pg.users_rows d)
  /\ Db.getUserByEmail "admin@clinic.com"
       (snd (Db.initDb bcrypt_hash salt dataFile d)) <> None
  /\ Pg.users_rows
       (snd (Db.initDb bcrypt_hash salt' dataFile'
               (snd (Db.initDb bcrypt_hash salt dataFile d))))
     = Pg.users_rows (snd (Db.initDb bcrypt_hash salt dataFile d)).
Proof.
  intros Hseq.
  pose proof (initDb_steps bcrypt_hash salt dataFile d Hseq) as Hinit.
  cbv zeta in Hinit.
  set (d1 := match Db.getUserByEmail "admin@clinic.com" d with
             | Some _ => d
             | None => _
             end) in Hinit.
  assert (Husers : Pg.users_rows (snd (Db.initDb bcrypt_hash salt dataFile d))
                   = Pg.users_rows d1
                   /\ Pg.users_id_seq (snd (Db.initDb bcrypt_hash salt dataFile d))
                      = Pg.users_id_seq d1).
  { rewrite Hinit. cbn [snd].
    destruct (Pg.patients_rows d) as [|r rows]; [|auto].
    destruct dataFile as [data|]; [|auto].
    destruct (migrate_rest data d1) as (H1 & H2 & _). auto. }
  destruct Husers as [Hrows Hidseq].
  assert (Hemail : forall e,
            Db.getUserByEmail e (snd (Db.initDb bcrypt_hash salt dataFile d))
            = Db.getUserByEmail e d1).
  { intros e. unfold Db.getUserByEmail. now rewrite Hrows. }
  assert (Hafter : Db.getUserByEmail "admin@clinic.com" d1 <> None
                   /\ (Db.getUserByEmail "admin@clinic.com" d = None ->
                       Db.getUserByEmail "admin@clinic.com" d1
                       = Some (UserWithPassword.mk (Pg.users_id_seq d) "Admin User"
                                 "admin@clinic.com" (bcrypt_hash "admin123" 10 salt)
                                 "admin"))
                   /\ Db.users_from_seq d1).
  { subst d1. destruct (Db.getUserByEmail "admin@clinic.com" d) as [u|] eqn:E.
    - repeat split; [congruence|discriminate|exact Hseq].
    - assert (Hfound : Db.getUserByEmail "admin@clinic.com"
                         (Pg.mk (Pg.patients_rows d) (Pg.patients_id_seq d)
                            (Pg.users_rows d
                             ++ [users.mk (Pg.users_id_seq d) "Admin User"
                                   "admin@clinic.com"
                                   (bcrypt_hash "admin123" 10 salt) "admin"])
                            (Pg.users_id_seq d + 1))
                       = Some (UserWithPassword.mk (Pg.users_id_seq d) "Admin User"
                                 "admin@clinic.com" (bcrypt_hash "admin123" 10 salt)
                                 "admin")).
      { unfold Db.getUserByEmail in E |- *. cbn [Pg.users_rows].
        rewrite filter_app.
        destruct (List.filter (Pg.user_has_email "admin@clinic.com")
                    (Pg.users_rows d)); [reflexivity|discriminate]. }
      repeat split; [congruence|auto|].
      intros u Hu. cbn [Pg.users_rows Pg.users_id_seq] in *.
      apply in_app_or in Hu as [Hu|[<-|[]]]; [specialize (Hseq u Hu); lia|].
      cbn [users.id]. lia. }
  destruct Hafter as (Hexists & Hcreated & Hseq1).
  split; [now rewrite Hinit|].
  split; [intros Hnone; rewrite Hemail; now apply Hcreated|].
  split.
  { intros Hsome. rewrite Hrows. subst d1.
    now destruct (Db.getUserByEmail "admin@clinic.com" d). }
  split; [now rewrite Hemail|].
  assert (Hseq2 : Db.users_from_seq (snd (Db.initDb bcrypt_hash salt dataFile d))).
  { intros u Hu. rewrite Hrows in Hu. rewrite Hidseq. now apply Hseq1. }
  pose proof (initDb_steps bcrypt_hash salt' dataFile' _ Hseq2) as Hagain.
  cbv zeta in Hagain. rewrite Hagain. cbn [snd].
  rewrite <- Hemail in Hexists.
  destruct (Db.getUserByEmail "admin@clinic.com"
              (snd (Db.initDb bcrypt_hash salt dataFile d))) as [u|];
    [|now elim Hexists].
  destruct (Pg.patients_rows (snd (Db.initDb bcrypt_hash salt dataFile d)));
    [|reflexivity].
  destruct dataFile' as [data|]; [|reflexivity].
  apply migrate_rest.
Qed.

Lemma initDb_admin_witness :
  fst (Db.initDb Sample.toy_hash "s0" None Pg.empty) = Ok tt
  /\ (Db.getUserByEmail "admin@clinic.com" Pg.empty = None ->
      Db.getUserByEmail "admin@clinic.com"
        (snd (Db.initDb Sample.toy_hash "s0" None Pg.empty))
      = Some (UserWithPassword.mk (Pg.users_id_seq Pg.empty) "Admin User"
                "admin@clinic.com" (Sample.toy_hash "admin123" 10 "s0") "admin"))
  /\ (Db.getUserByEmail "admin@clinic.com" Pg.empty <> None ->
      Pg.users_rows (snd (Db.initDb Sample.toy_hash "s0" None Pg.empty))
      = Pg.users_rows Pg.empty)
  /\ Db.getUserByEmail "admin@clinic.com"
       (snd (Db.initDb Sample.toy_hash "s0" None Pg.empty)) <> None
  /\ Pg.users_rows
       (snd (Db.initDb Sample.toy_hash "s9" None
               (snd (Db.initDb Sample.toy_hash "s0" None Pg.empty))))
     = Pg.users_rows (snd (Db.initDb Sample.toy_hash "s0" None Pg.empty)).
Proof.
  apply (initDb_admin Sample.toy_hash "s0" "s9" None None Pg.empty).
  exact users_from_seq_empty.
Defined.

(** The patients table after [initDb]. *)
Lemma initDb_patients (bcrypt_hash : string -> Z -> string -> string) (salt : string)
    (dataFile : option (list (option patients.row))) (d : Pg.database) :
  Db.users_from_seq d ->
  exists d1,
    Pg.patients_rows d1 = Pg.patients_rows d
    /\ Pg.patients_id_seq d1 = Pg.patients_id_seq d
    /\ snd (Db.initDb bcrypt_hash salt dataFile d)
       = match Pg.patients_rows d, dataFile with
         | [], Some data => Db.migrate data d1
         | _, _ => d1
         end.
Proof.
  intros Hseq.
  pose proof (initDb_steps bcrypt_hash salt dataFile d Hseq) as Hinit.
  cbv zeta in Hinit. rewrite Hinit. cbn [snd].
  eexists. split; [|split; [|reflexivity]].
  - now destruct (Db.getUserByEmail "admin@clinic.com" d).
  - now destruct (Db.getUserByEmail "admin@clinic.com" d).
Qed.

(** X11. [initDb] imports data.json only into an empty patients table: a
    table that holds a row is left as it is; into an empty one, entries the
    store accepts and whose ids differ from each other are all inserted, in
    the order of the file.  The import never advances the id sequence of
    patients, and it keeps the primary key. *)
Theorem initDb_import (bcrypt_hash : string -> Z -> string -> string) (salt : string)
    (dataFile : option (list (option patients.row))) (d : Pg.database) :
  Db.users_from_seq d ->
  (Pg.patients_rows d <> [] ->
   Pg.patients_rows (snd (Db.initDb bcrypt_hash salt dataFile d)) = Pg.patients_rows d)
  /\ (forall rows,
        Pg.patients_rows d = [] ->
        dataFile = Some (List.map Some rows) ->
        List.NoDup (List.map patients.id rows) ->
        Pg.patients_rows (snd (Db.initDb bcrypt_hash salt dataFile d)) = rows)
  /\ (dataFile = None ->
      Pg.patients_rows (snd (Db.initDb bcrypt_hash salt dataFile d)) = Pg.patients_rows d)
  /\ Pg.patients_id_seq (snd (Db.initDb bcrypt_hash salt dataFile d))
     = Pg.patients_id_seq d
  /\ (Db.pk_patients d -> Db.pk_patients (snd (Db.initDb bcrypt_hash salt dataFile d))).
Proof.
  intros Hseq.
  destruct (initDb_patients bcrypt_hash salt dataFile d Hseq) as (d1 & Hrows & Hidseq & Hd).
  rewrite Hd. repeat split.
  - intros Hne. destruct (Pg.patients_rows d); [now elim Hne|exact Hrows].
  - intros rows Hempty -> Hnd. rewrite Hempty.
    rewrite migrate_all; [now rewrite Hrows, Hempty| exact Hnd |].
    intros r _ (x & Hx & _). rewrite Hrows, Hempty in Hx. exact Hx.
  - intros ->. now destruct (Pg.patients_rows d).
  - destruct (Pg.patients_rows d); [|exact Hidseq].
    destruct dataFile as [data|]; [|exact Hidseq].
    destruct (migrate_rest data d1) as (_ & _ & H). congruence.
  - intros Hpk.
    assert (Hpk1 : Db.pk_patients d1) by (unfold Db.pk_patients in *; congruence).
    destruct (Pg.patients_rows d); [|exact Hpk1].
    destruct dataFile as [data|]; [|exact Hpk1].
    now apply migrate_pk.
Qed.

Lemma initDb_import_witness :
  (Pg.patients_rows Pg.empty <> [] ->
   Pg.patients_rows
     (snd (Db.initDb Sample.toy_hash "s0"
             (Some (List.map Some (Pg.patients_rows Sample.two_waiting))) Pg.empty))
   = Pg.patients_rows Pg.empty)
  /\ (forall rows,
        Pg.patients_rows Pg.empty = [] ->
        Some (List.map Some (Pg.patients_rows Sample.two_waiting))
        = Some (List.map Some rows) ->
        List.NoDup (List.map patients.id rows) ->
        Pg.patients_rows
          (snd (Db.initDb Sample.toy_hash "s0"
                  (Some (List.map Some (Pg.patients_rows Sample.two_waiting))) Pg.empty))
        = rows)
  /\ (Some (List.map Some (Pg.patients_rows Sample.two_waiting)) = None ->
      Pg.patients_rows
        (snd (Db.initDb Sample.toy_hash "s0"
                (Some (List.map Some (Pg.patients_rows Sample.two_waiting))) Pg.empty))
      = Pg.patients_rows Pg.empty)
  /\ Pg.patients_id_seq
       (snd (Db.initDb Sample.toy_hash "s0"
               (Some (List.map Some (Pg.patients_rows Sample.two_waiting))) Pg.empty))
     = Pg.patients_id_seq Pg.empty
  /\ (Db.pk_patients Pg.empty ->
      Db.pk_patients
        (snd (Db.initDb Sample.toy_hash "s0"
                (Some (List.map Some (Pg.patients_rows Sample.two_waiting))) Pg.empty))).
Proof.
  apply (initDb_import Sample.toy_hash "s0"
           (Some (List.map Some (Pg.patients_rows Sample.two_waiting))) Pg.empty).
  exact users_from_seq_empty.
Defined.



(** * Further properties of auth.ts *)

(** ** The token of a request *)

Lemma lowerChar_space (c : ascii) : lowerChar c = " "%char -> c = " "%char.
Proof.
  destruct c as [[] [] [] [] [] [] [] []]; vm_compute; intros H;
    first [reflexivity | discriminate H].
Qed.

Lemma split_not_nil (sep : ascii) (s : string) : split sep s <> [].
Proof.
  destruct s as [|c s]; simpl; [discriminate|].
  destruct (Ascii.eqb c sep); [discriminate|].
  destruct (split sep s); discriminate.
Qed.

Lemma split_length_cons (sep c : ascii) (s : string) :
  (length (split sep s) <= length (split sep (String c s)))%nat.
Proof.
  simpl. destruct (Ascii.eqb c sep); simpl; [lia|].
  destruct (split sep s) as [|piece rest] eqn:E; simpl; [|lia].
  now elim (split_not_nil sep s).
Qed.

Lemma split_length_sep (sep : ascii) (s : string) :
  (2 <= length (split sep (String sep s)))%nat.
Proof.
  simpl. rewrite Ascii.eqb_refl. simpl.
  pose proof (split_not_nil sep s). destruct (split sep s); [congruence|simpl; lia].
Qed.

(** A header that starts with the scheme, in any casing, and a space has a
    second piece: the index 1 of the split is never undefined. *)
Lemma bearer_second_piece (authHeader : string) :
  startsWith (toLowerCase authHeader) "bearer " = true ->
  exists piece, splitLimit " " 2 authHeader !! 1%nat = Some piece.
Proof.
  intros H.
  assert (Hlen : (2 <= length (split " " authHeader))%nat).
  { destruct authHeader as [|c1 [|c2 [|c3 [|c4 [|c5 [|c6 [|c7 t]]]]]]];
      simpl in H; rewrite ?andb_false_r in H; try discriminate H.
    repeat (apply andb_true_iff in H as [? H]).
    match goal with
    | Hs : Ascii.eqb (lowerChar c7) " " = true |- _ =>
        apply Ascii.eqb_eq, lowerChar_space in Hs; subst c7
    end.
    do 6 (etransitivity; [|apply split_length_cons]).
    apply split_length_sep. }
  unfold splitLimit.
  destruct (split " " authHeader) as [|head [|piece rest]]; simpl in Hlen; try lia.
  now exists piece.
Qed.

(** The only error [extractToken] throws. *)
Lemma extractToken_throws (JWT_COOKIE_NAME : string) (request : Request.t) (e : exn) :
  Auth.extractToken JWT_COOKIE_NAME request = Throw e ->
  e = Error Auth.invalid_credentials.
Proof.
  unfold Auth.extractToken.
  assert (Hcookie : match Auth.cookieToken JWT_COOKIE_NAME request with
                    | Some c => if truthy c then Ok c
                                else Throw (Error Auth.invalid_credentials)
                    | None => Throw (Error Auth.invalid_credentials)
                    end = Throw e -> e = Error Auth.invalid_credentials).
  { destruct (Auth.cookieToken JWT_COOKIE_NAME request) as [c|];
      [destruct (truthy c)|]; congruence. }
  destruct (Request.authorization request) as [authHeader|]; [|exact Hcookie].
  destruct (truthy authHeader) eqn:Et; [|exact Hcookie].
  destruct (startsWith (toLowerCase authHeader) "bearer ") eqn:Es; [|exact Hcookie].
  destruct (bearer_second_piece authHeader Es) as [piece ->]. cbn [andb].
  destruct (truthy _ && _ && _); [discriminate|exact Hcookie].
Qed.

(** X13. Whatever the header and the cookies (texts) of a request,
    [extractToken] returns a token that is not empty or throws the invalid
    credentials error: it throws nothing else (the second piece of a bearer
    header always exists).  The token it returns is the cookie as stored,
    or a text of the header with no white space at its ends that is neither
    null nor undefined in any casing. *)
Theorem extractToken_outcomes (JWT_COOKIE_NAME : string) (request : Request.t) :
  (exists token,
     Auth.extractToken JWT_COOKIE_NAME request = Ok token
     /\ truthy token = true
     /\ (Auth.cookieToken JWT_COOKIE_NAME request = Some token
         \/ (trim token = token
             /\ toLowerCase token <> "null"
             /\ toLowerCase token <> "undefined")))
  \/ Auth.extractToken JWT_COOKIE_NAME request = Throw (Error Auth.invalid_credentials).
Proof.
  destruct (Auth.extractToken JWT_COOKIE_NAME request) as [token|e] eqn:E;
    [left|right; f_equal; now apply (extractToken_throws JWT_COOKIE_NAME request)].
  exists token. split; [reflexivity|].
  unfold Auth.extractToken in E.
  assert (Hcookie : match Auth.cookieToken JWT_COOKIE_NAME request with
                    | Some c => if truthy c then Ok c
                                else Throw (Error Auth.invalid_credentials)
                    | None => Throw (Error Auth.invalid_credentials)
                    end = Ok token ->
                    truthy token = true
                    /\ (Auth.cookieToken JWT_COOKIE_NAME request = Some token
                        \/ (trim token = token
                            /\ toLowerCase token <> "null"
                            /\ toLowerCase token <> "undefined"))).
  { destruct (Auth.cookieToken JWT_COOKIE_NAME request) as [c|]; [|discriminate].
    destruct (truthy c) eqn:Ec; [|discriminate].
    intros H. injection H as <-. auto. }
  destruct (Request.authorization request) as [authHeader|]; [|now apply Hcookie].
  destruct (truthy authHeader && startsWith (toLowerCase authHeader) "bearer ");
    [|now apply Hcookie].
  destruct (splitLimit " " 2 authHeader !! 1%nat) as [piece|]; [|discriminate].
  destruct (truthy (trim (replaceWrappingQuotes (trim piece)))
            && negb (String.eqb (toLowerCase (trim (replaceWrappingQuotes (trim piece))))
                       "null")
            && negb (String.eqb (toLowerCase (trim (replaceWrappingQuotes (trim piece))))
                       "undefined")) eqn:Eb; [|now apply Hcookie].
  injection E as <-.
  apply andb_true_iff in Eb as [Eb Hundef]. apply andb_true_iff in Eb as [Htruthy Hnull].
  apply negb_true_iff in Hundef, Hnull.
  split; [exact Htruthy|right].
  split; [apply trim_idempotent|].
  split; intros Heq; rewrite Heq in *; discriminate.
Qed.

(** ** The two resolvers *)

(** X14. [authMiddleware] and [getCurrentUser] decide alike on every
    request: the middleware calls next with an identity exactly when
    [getCurrentUser] returns that identity; otherwise the middleware answers
    401 with the invalid credentials message and [getCurrentUser] throws the
    error of that message.  Neither tells a missing token from a forged or
    expired one. *)
Theorem authMiddleware_agrees_with_getCurrentUser
    (JWT_SECRET JWT_ALGORITHM JWT_COOKIE_NAME : string)
    (jws_sign : string -> string -> JWTPayload.t -> string)
    (jws_decode : string -> option Jwt.jws)
    (request : Request.t) (now : Z) :
  (exists currentUser,
     Auth.authMiddleware JWT_SECRET JWT_ALGORITHM JWT_COOKIE_NAME jws_sign jws_decode
       request now = Auth.Next currentUser
     /\ Auth.getCurrentUser JWT_SECRET JWT_ALGORITHM JWT_COOKIE_NAME jws_sign
          jws_decode request now = Ok currentUser)
  \/ (Auth.authMiddleware JWT_SECRET JWT_ALGORITHM JWT_COOKIE_NAME jws_sign jws_decode
        request now = Auth.Respond 401 Auth.invalid_credentials
      /\ Auth.getCurrentUser JWT_SECRET JWT_ALGORITHM JWT_COOKIE_NAME jws_sign
           jws_decode request now = Throw (Error Auth.invalid_credentials)).
Proof.
  destruct (Auth.extractToken JWT_COOKIE_NAME request) as [token|e] eqn:Etoken.
  - destruct (decodeToken_uniform JWT_SECRET JWT_ALGORITHM jws_sign jws_decode
                token now) as [[payload Hpayload]|Hrefused].
    + pose proof (resolve_verified JWT_SECRET JWT_ALGORITHM JWT_COOKIE_NAME
                    jws_sign jws_decode request now token payload Etoken Hpayload)
        as Hres.
      cbv zeta in Hres.
      destruct (JWTPayload.sub payload); [now right|now right| |];
        left; destruct Hres as [Hget Hmid]; eexists; split; eassumption.
    + right. unfold Auth.authMiddleware, Auth.getCurrentUser.
      rewrite Etoken, Hrefused. split; reflexivity.
  - apply extractToken_throws in Etoken as Hinvalid. subst e.
    right. unfold Auth.authMiddleware, Auth.getCurrentUser.
    rewrite Etoken. split; reflexivity.
Qed.

(** ** The lifetime of a token *)

(** X15. A token issued at [now] with an expiry override of [n] seconds (a
    safe integer) is accepted by [decodeToken] at [now'] exactly when
    [now' < now + n]; an override of 0, like none, gives 86400 seconds.  So
    a negative override issues a token that is refused from the start. *)
Theorem token_lifetime
    (JWT_SECRET JWT_ALGORITHM : string)
    (jws_sign : string -> string -> JWTPayload.t -> string)
    (jws_encode : Jwt.jws -> string)
    (jws_decode : string -> option Jwt.jws)
    (data : Claims.t) (n now now' : Z) :
  (forall t, jws_decode (jws_encode t) = Some t) ->
  isSafeInteger n = true ->
  exists token,
    Auth.createAccessToken JWT_SECRET JWT_ALGORITHM jws_sign jws_encode data
      (Some (Int n)) now = Ok token
    /\ ((exists payload,
           Auth.decodeToken JWT_SECRET JWT_ALGORITHM jws_sign jws_decode token now'
           = Ok payload)
        <-> now' < now + (if n =? 0 then 86400 else n))
    /\ (n < 0 -> now <= now' ->
        Auth.decodeToken JWT_SECRET JWT_ALGORITHM jws_sign jws_decode token now'
        = Throw (Error Auth.invalid_credentials)).
Proof.
  intros Hcodec _.
  pose proof (createAccessToken_issued JWT_SECRET JWT_ALGORITHM jws_sign
                jws_encode data (Some (Int n)) now) as Hissued.
  cbv zeta in Hissued.
  eexists. split; [exact Hissued|].
  rewrite (decodeToken_decoded JWT_SECRET JWT_ALGORITHM jws_sign jws_decode
             _ now' _ (Hcodec _)).
  cbn [Jwt.alg Jwt.signature Jwt.payload JWTPayload.nbf JWTPayload.exp].
  rewrite !String.eqb_refl. cbn [andb].
  split; [split|].
  - intros [payload Hp].
    destruct (Z.ltb_spec now' (now + (if n =? 0 then 86400 else n)));
      [assumption|discriminate].
  - intros Hlt.
    destruct (Z.ltb_spec now' (now + (if n =? 0 then 86400 else n))); [eauto|lia].
  - intros Hneg Hle.
    destruct (Z.eqb_spec n 0) as [->|_]; [lia|].
    destruct (Z.ltb_spec now' (now + n)); [lia|reflexivity].
Qed.

Lemma token_lifetime_witness :
  exists token,
    Auth.createAccessToken Sample.secret "HS256" Sample.toy_sign Sample.toy_encode
      Sample.claims7 (Some (Int 60)) 1000 = Ok token
    /\ ((exists payload,
           Auth.decodeToken Sample.secret "HS256" Sample.toy_sign Sample.toy_decode
             token 1059 = Ok payload)
        <-> 1059 < 1000 + (if 60 =? 0 then 86400 else 60))
    /\ (60 < 0 -> 1000 <= 1059 ->
        Auth.decodeToken Sample.secret "HS256" Sample.toy_sign Sample.toy_decode
          token 1059 = Throw (Error Auth.invalid_credentials)).
Proof.
  apply (token_lifetime Sample.secret "HS256" Sample.toy_sign Sample.toy_encode
           Sample.toy_decode Sample.claims7 60 1000 1059).
  - exact toy_codec.
  - reflexivity.
Defined.

(** * Properties of classes.ts *)

Lemma string_min_inl (string_issue : option Classes.json -> string) (min : nat)
    (message : string) (v : option Classes.json) (s : string) :
  Classes.string_min string_issue min message v = inl s
  <-> v = Some (Classes.JString s) /\ (min <= String.length s)%nat.
Proof.
  unfold Classes.string_min. split.
  - destruct v as [[x|x]|]; try discriminate.
    destruct (Nat.leb_spec min (String.length x)) as [Hle|Hlt]; [|discriminate].
    intros Heq. injection Heq as <-. auto.
  - intros [-> Hlen]. destruct (Nat.leb_spec min (String.length s)); [reflexivity|lia].
Qed.

Lemma string_email_inl (isEmail : string -> bool)
    (string_issue : option Classes.json -> string)
    (message : string) (v : option Classes.json) (s : string) :
  Classes.string_email isEmail string_issue message v = inl s
  <-> v = Some (Classes.JString s) /\ isEmail s = true.
Proof.
  unfold Classes.string_email. split.
  - destruct v as [[x|x]|]; try discriminate.
    destruct (isEmail x) eqn:E; [|discriminate].
    intros H. injection H as <-. auto.
  - intros [-> ->]. reflexivity.
Qed.

Lemma priority_default_inl (enum_issue : Classes.json -> string)
    (v : option Classes.json) (s : string) :
  Classes.priority_default enum_issue v = inl s
  <-> (v = None /\ s = "Normal")
      \/ (v = Some (Classes.JString s) /\ (s = "Normal" \/ s = "Emergency")).
Proof.
  unfold Classes.priority_default, Classes.Priority_Normal, Classes.Priority_Emergency.
  split.
  - destruct v as [[x|x]|]; try discriminate.
    + destruct (String.eqb_spec x "Normal") as [->|_];
        [intros H; injection H as <-; auto|].
      destruct (String.eqb_spec x "Emergency") as [->|_];
        [intros H; injection H as <-; auto|discriminate].
    + intros H. injection H as <-. auto.
  - intros [[-> ->]|[-> [->| ->]]]; reflexivity.
Qed.

(** X16. [validatePatientIn] accepts exactly the objects whose name and
    problem are strings of at least 3 characters, counted before any
    trimming, and whose priority is missing (then Normal) or one of the two
    texts of the enum; the data are those values.  An input that is not an
    object is refused, and a name that is too short is reported first, by
    the message written in the schema. *)
Theorem validatePatientIn_accepts
    (string_issue : option Classes.json -> string)
    (enum_issue : Classes.json -> string) (object_issue : string -> string) :
  (forall (o : gmap string Classes.json) (p : PatientIn.t),
      Classes.validatePatientIn string_issue enum_issue object_issue (Classes.Object o)
      = Classes.Success p
      <-> o !! "name" = Some (Classes.JString (PatientIn.name p))
          /\ (3 <= String.length (PatientIn.name p))%nat
          /\ o !! "problem" = Some (Classes.JString (PatientIn.problem p))
          /\ (3 <= String.length (PatientIn.problem p))%nat
          /\ ((o !! "priority" = None /\ PatientIn.priority p = "Normal")
              \/ (o !! "priority" = Some (Classes.JString (PatientIn.priority p))
                  /\ (PatientIn.priority p = "Normal"
                      \/ PatientIn.priority p = "Emergency"))))
  /\ (forall received,
        Classes.validatePatientIn string_issue enum_issue object_issue
          (Classes.NotObject received)
        = Classes.Failure [object_issue received])
  /\ (forall (o : gmap string Classes.json) (n : string),
        o !! "name" = Some (Classes.JString n) ->
        (String.length n < 3)%nat ->
        exists rest,
          Classes.validatePatientIn string_issue enum_issue object_issue
            (Classes.Object o)
          = Classes.Failure ("name must be at least 3 characters" :: rest)).
Proof.
  split; [|split].
  - intros o [n pb pr]. cbn [PatientIn.name PatientIn.problem PatientIn.priority].
    pose proof (string_min_inl string_issue 3 (Classes.at_least "name" 3)
                  (o !! "name")) as Hn.
    pose proof (string_min_inl string_issue 3 (Classes.at_least "problem" 3)
                  (o !! "problem")) as Hp.
    pose proof (priority_default_inl enum_issue (o !! "priority")) as Hpr.
    unfold Classes.validatePatientIn, Classes.NAME_LEN, Classes.PROBLEM_LEN.
    destruct (Classes.string_min string_issue 3 (Classes.at_least "name" 3)
                (o !! "name")) as [n'|m1];
      destruct (Classes.string_min string_issue 3 (Classes.at_least "problem" 3)
                  (o !! "problem")) as [pb'|m2];
      destruct (Classes.priority_default enum_issue (o !! "priority")) as [pr'|m3];
      (split;
       [ intros Heq; try discriminate Heq; injection Heq as -> -> ->;
         destruct (proj1 (Hn n) eq_refl); destruct (proj1 (Hp pb) eq_refl);
         pose proof (proj1 (Hpr pr) eq_refl); auto
       | intros (H1 & H2 & H3 & H4 & H5);
         pose proof (proj2 (Hn n) (conj H1 H2));
         pose proof (proj2 (Hp pb) (conj H3 H4));
         pose proof (proj2 (Hpr pr) H5); congruence ]).
  - reflexivity.
  - intros o n Hname Hshort.
    assert (E : Classes.string_min string_issue 3 (Classes.at_least "name" 3)
                  (Some (Classes.JString n))
                = inr "name must be at least 3 characters").
    { unfold Classes.string_min.
      destruct (Nat.leb_spec 3 (String.length n)); [lia|reflexivity]. }
    unfold Classes.validatePatientIn, Classes.NAME_LEN.
    rewrite Hname, E. cbn [Classes.messages_of app]. eexists. reflexivity.
Qed.

(** X17. [validateSignupRequest] accepts exactly the objects whose name is a
    string of at least 3 characters, whose email is a string the email
    pattern matches and whose password is a string of at least 6
    characters; the data are those three values.  A password that is too
    short, under a valid name and email, is the one issue reported. *)
Theorem validateSignupRequest_accepts (isEmail : string -> bool)
    (string_issue : option Classes.json -> string) (object_issue : string -> string) :
  (forall (o : gmap string Classes.json) (p : SignupRequest.t),
      Classes.validateSignupRequest isEmail string_issue object_issue (Classes.Object o)
      = Classes.Success p
      <-> o !! "name" = Some (Classes.JString (SignupRequest.name p))
          /\ (3 <= String.length (SignupRequest.name p))%nat
          /\ o !! "email" = Some (Classes.JString (SignupRequest.email p))
          /\ isEmail (SignupRequest.email p) = true
          /\ o !! "password" = Some (Classes.JString (SignupRequest.password p))
          /\ (6 <= String.length (SignupRequest.password p))%nat)
  /\ (forall (o : gmap string Classes.json) (n e pw : string),
        o !! "name" = Some (Classes.JString n) -> (3 <= String.length n)%nat ->
        o !! "email" = Some (Classes.JString e) -> isEmail e = true ->
        o !! "password" = Some (Classes.JString pw) -> (String.length pw < 6)%nat ->
        Classes.validateSignupRequest isEmail string_issue object_issue
          (Classes.Object o)
        = Classes.Failure ["password must be at least 6 characters"]).
Proof.
  split.
  - intros o [n e pw].
    cbn [SignupRequest.name SignupRequest.email SignupRequest.password].
    pose proof (string_min_inl string_issue 3 (Classes.at_least "name" 3)
                  (o !! "name")) as Hn.
    pose proof (string_email_inl isEmail string_issue "email must be a valid address"
                  (o !! "email")) as He.
    pose proof (string_min_inl string_issue 6 (Classes.at_least "password" 6)
                  (o !! "password")) as Hpw.
    unfold Classes.validateSignupRequest, Classes.NAME_LEN, Classes.PASSWORD_LEN.
    destruct (Classes.string_min string_issue 3 (Classes.at_least "name" 3)
                (o !! "name")) as [n'|m1];
      destruct (Classes.string_email isEmail string_issue
                  "email must be a valid address" (o !! "email")) as [e'|m2];
      destruct (Classes.string_min string_issue 6 (Classes.at_least "password" 6)
                  (o !! "password")) as [pw'|m3];
      (split;
       [ intros Heq; try discriminate Heq; injection Heq as -> -> ->;
         destruct (proj1 (Hn n) eq_refl); destruct (proj1 (He e) eq_refl);
         destruct (proj1 (Hpw pw) eq_refl); auto 10
       | intros (H1 & H2 & H3 & H4 & H5 & H6);
         pose proof (proj2 (Hn n) (conj H1 H2));
         pose proof (proj2 (He e) (conj H3 H4));
         pose proof (proj2 (Hpw pw) (conj H5 H6)); congruence ]).
  - intros o n e pw Hn Hnlen He Hemail Hpw Hshort.
    unfold Classes.validateSignupRequest, Classes.string_min, Classes.string_email,
      Classes.NAME_LEN, Classes.PASSWORD_LEN.
    rewrite Hn, He, Hpw, Hemail.
    destruct (Nat.leb_spec 3 (String.length n)); [|lia].
    destruct (Nat.leb_spec 6 (String.length pw)); [lia|].
    reflexivity.
Qed.

(** X18. [validateLoginRequest] accepts exactly the objects whose email is a
    string the email pattern matches and whose password is a string that is
    not empty: the length rule of sign-up is not applied at login. *)
Theorem validateLoginRequest_accepts (isEmail : string -> bool)
    (string_issue : option Classes.json -> string) (object_issue : string -> string)
    (o : gmap string Classes.json) (p : LoginRequest.t) :
  Classes.validateLoginRequest isEmail string_issue object_issue (Classes.Object o)
  = Classes.Success p
  <-> o !! "email" = Some (Classes.JString (LoginRequest.email p))
      /\ isEmail (LoginRequest.email p) = true
      /\ o !! "password" = Some (Classes.JString (LoginRequest.password p))
      /\ LoginRequest.password p <> EmptyString.
Proof.
  destruct p as [e pw]. cbn [LoginRequest.email LoginRequest.password].
  assert (Hpw : o !! "password" = Some (Classes.JString pw) /\ pw <> EmptyString
                <-> Classes.string_min string_issue 1 "password is required"
                      (o !! "password") = inl pw).
  { rewrite string_min_inl. destruct pw; simpl; split; intros [H1 H2];
      split; try assumption; try lia; try discriminate. now elim H2. }
  assert (Hemail : o !! "email" = Some (Classes.JString e) /\ isEmail e = true
                   <-> Classes.string_email isEmail string_issue
                         "email must be a valid address" (o !! "email") = inl e)
    by (symmetry; apply string_email_inl).
  unfold Classes.validateLoginRequest.
  destruct (Classes.string_email isEmail string_issue
              "email must be a valid address" (o !! "email")) as [e'|m1];
    destruct (Classes.string_min string_issue 1 "password is required"
                (o !! "password")) as [pw'|m2];
    split; try discriminate;
    try (intros (H1 & H2 & H3 & H4);
         apply (conj H1), Hemail in H2; apply (conj H3), Hpw in H4; discriminate).
  - intros H. injection H as -> ->.
    destruct Hemail as [_ Hemail]. destruct (Hemail eq_refl).
    destruct Hpw as [_ Hpw]. destruct (Hpw eq_refl). auto.
  - intros (H1 & H2 & H3 & H4).
    apply (conj H1), Hemail in H2. apply (conj H3), Hpw in H4. congruence.
Qed.

(** * Properties of the routes *)







Section RouteProperties.

Variable JWT_SECRET JWT_ALGORITHM JWT_COOKIE_NAME : string.
Variable jws_sign : string -> string -> JWTPayload.t -> string.
Variable jws_encode : Jwt.jws -> string.
Variable jws_decode : string -> option Jwt.jws.
Variable bcrypt_hash : string -> Z -> string -> string.
Variable bcrypt_compare : string -> string -> result bool.
Variable isEmail : string -> bool.
Variable string_issue : option Classes.json -> string.
Variable enum_issue : Classes.json -> string.
Variable object_issue : string -> string.
Variable collate_leb : string -> string -> bool.

Local Abbreviation getCurrentUser :=
  (Auth.getCurrentUser JWT_SECRET JWT_ALGORITHM JWT_COOKIE_NAME jws_sign jws_decode).
Local Abbreviation authMiddleware :=
  (Auth.authMiddleware JWT_SECRET JWT_ALGORITHM JWT_COOKIE_NAME jws_sign jws_decode).
Local Abbreviation createAccessToken :=
  (Auth.createAccessToken JWT_SECRET JWT_ALGORITHM jws_sign jws_encode).
Local Abbreviation get_auth_me :=
  (Main.get_auth_me JWT_SECRET JWT_ALGORITHM JWT_COOKIE_NAME jws_sign jws_decode).
Local Abbreviation get_patients :=
  (Main.get_patients JWT_SECRET JWT_ALGORITHM JWT_COOKIE_NAME jws_sign jws_decode
     collate_leb).
Local Abbreviation post_patients :=
  (Main.post_patients JWT_SECRET JWT_ALGORITHM JWT_COOKIE_NAME jws_sign jws_decode
     string_issue enum_issue object_issue).
Local Abbreviation put_patients_visit :=
  (Main.put_patients_visit JWT_SECRET JWT_ALGORITHM JWT_COOKIE_NAME jws_sign
     jws_decode).
Local Abbreviation get_patients_stats :=
  (Main.get_patients_stats JWT_SECRET JWT_ALGORITHM JWT_COOKIE_NAME jws_sign
     jws_decode).
Local Abbreviation post_auth_signup :=
  (Main.post_auth_signup JWT_SECRET JWT_ALGORITHM JWT_COOKIE_NAME jws_sign jws_encode
     bcrypt_hash isEmail string_issue object_issue).
Local Abbreviation post_auth_login :=
  (Main.post_auth_login JWT_SECRET JWT_ALGORITHM JWT_COOKIE_NAME jws_sign jws_encode
     bcrypt_compare isEmail string_issue object_issue).
Local Abbreviation token_cookie := (Main.token_cookie JWT_COOKIE_NAME).

(** The middleware in terms of [getCurrentUser]. *)
Lemma authMiddleware_cases (request : Request.t) (now : Z) :
  authMiddleware request now
  = match getCurrentUser request now with
    | Ok currentUser => Auth.Next currentUser
    | Throw _ => Auth.Respond 401 Auth.invalid_credentials
    end.
Proof.
  unfold Auth.authMiddleware, Auth.getCurrentUser.
  destruct (Auth.extractToken JWT_COOKIE_NAME request) as [token|e] eqn:Etoken.
  - destruct (decodeToken_uniform JWT_SECRET JWT_ALGORITHM jws_sign jws_decode
                token now) as [[payload ->]| ->]; [|reflexivity].
    now destruct (JWTPayload.sub payload).
  - apply extractToken_throws in Etoken. now subst e.
Qed.

(** The user a token is issued for, and the token. *)
Lemma authenticated_issued (status : Z) (user : User.t) (now : Z) :
  exists token,
    createAccessToken
      (Claims.mk (Num (Int (User.id user))) (Some (User.email user))
         (Some (User.role user))) None now = Ok token
    /\ token
       = jws_encode
           (Jwt.mk JWT_ALGORITHM
              (JWTPayload.mk (Str (numberToString (Int (User.id user))))
                 (Some (User.email user)) (Some (User.role user)) (Some now) None
                 (Some (now + 86400)))
              (jws_sign JWT_ALGORITHM JWT_SECRET
                 (JWTPayload.mk (Str (numberToString (Int (User.id user))))
                    (Some (User.email user)) (Some (User.role user)) (Some now) None
                    (Some (now + 86400)))))
    /\ Main.authenticated JWT_SECRET JWT_ALGORITHM JWT_COOKIE_NAME jws_sign jws_encode
         status user now
       = Main.mkResponse status (Main.AuthResponse token user)
           (Some (token_cookie token)).
Proof.
  pose proof (createAccessToken_issued JWT_SECRET JWT_ALGORITHM jws_sign jws_encode
                (Claims.mk (Num (Int (User.id user))) (Some (User.email user))
                   (Some (User.role user))) None now) as Hissued.
  cbv zeta in Hissued. cbn [Claims.sub Claims.email Claims.role String_] in Hissued.
  eexists. split; [exact Hissued|]. split; [reflexivity|].
  unfold Main.authenticated. now rewrite Hissued.
Qed.


(** X19. A request from which [getCurrentUser] resolves no identity (no
    token, a forged or an expired one, a token with no subject) gets the
    same answer from every route behind the middleware: status 401 with the
    invalid credentials message and no cookie; the handlers do not run, so
    the store is as before. *)
Theorem guarded_routes_refuse (request : Request.t) (reqBody : Classes.unknown)
    (patient_id_param clock : string) (now : Z) (d : Pg.database) (e : exn) :
  getCurrentUser request now = Throw e ->
  let refused :=
    Main.mkResponse 401 (Main.MessageResponse Auth.invalid_credentials) None in
  get_auth_me request now d = refused
  /\ get_patients request now d = refused
  /\ post_patients request reqBody now clock d = (refused, d)
  /\ put_patients_visit request patient_id_param now d = (refused, d)
  /\ get_patients_stats request now d = refused.
Proof.
  intros Hthrow refused. subst refused.
  unfold Main.get_auth_me, Main.get_patients, Main.post_patients,
    Main.put_patients_visit, Main.get_patients_stats, Main.guarded.
  rewrite authMiddleware_cases, Hthrow. repeat split.
Qed.





(** X24. [POST /auth/login] answers 200 exactly when the body passes the
    schema, a user is stored under the email and bcrypt finds that the
    password matches the stored hash.  An email nobody has and a password
    that does not match get the same answer, 401 with Invalid email or
    password; and no answer other than 200 sets a cookie. *)
Theorem post_auth_login_outcomes (reqBody : Classes.unknown) (now : Z)
    (d : Pg.database) :
  (Main.status (post_auth_login reqBody now d) = 200
   <-> exists login user,
         Classes.validateLoginRequest isEmail string_issue object_issue reqBody
         = Classes.Success login
         /\ Db.getUserByEmail (LoginRequest.email login) d = Some user
         /\ bcrypt_compare (LoginRequest.password login)
              (UserWithPassword.password user) = Ok true)
  /\ (forall login,
        Classes.validateLoginRequest isEmail string_issue object_issue reqBody
        = Classes.Success login ->
        Db.getUserByEmail (LoginRequest.email login) d = None
        \/ (exists user,
              Db.getUserByEmail (LoginRequest.email login) d = Some user
              /\ bcrypt_compare (LoginRequest.password login)
                   (UserWithPassword.password user) = Ok false) ->
        post_auth_login reqBody now d
        = Main.mkResponse 401 (Main.MessageResponse "Invalid email or password") None)
  /\ (Main.status (post_auth_login reqBody now d) <> 200 ->
      Main.cookie (post_auth_login reqBody now d) = None).
Proof.
  unfold Main.post_auth_login, Auth.verifyPassword.
  destruct (Classes.validateLoginRequest isEmail string_issue object_issue reqBody)
    as [login|messages].
  - destruct (Db.getUserByEmail (LoginRequest.email login) d) as [user|] eqn:Euser.
    + destruct (bcrypt_compare (LoginRequest.password login)
                  (UserWithPassword.password user)) as [[|]|e] eqn:Ecmp.
      * destruct (authenticated_issued 200
                    (User.mk (UserWithPassword.id user) (UserWithPassword.name user)
                       (UserWithPassword.email user) (UserWithPassword.role user)) now)
          as (token & _ & _ & ->).
        cbn [Main.status Main.cookie].
        split; [split; [intros _; exists login, user; auto|reflexivity]|].
        split; [|intros H; now elim H].
        intros login' Heq [Hnone|(user' & Hsome & Hcmp)]; injection Heq as <-;
          congruence.
      * cbn [Main.status Main.cookie].
        split; [split; [discriminate|]|split; [reflexivity|reflexivity]].
        intros (login' & user' & Heq & Hsome & Hcmp). injection Heq as <-. congruence.
      * unfold Main.internal_error. cbn [Main.status Main.cookie].
        split; [split; [discriminate|]|split; [|reflexivity]].
        -- intros (login' & user' & Heq & Hsome & Hcmp). injection Heq as <-.
           congruence.
        -- intros login' Heq [Hnone|(user' & Hsome & Hcmp)]; injection Heq as <-;
             congruence.
    + cbn [Main.status Main.cookie].
      split; [split; [discriminate|]|split; [reflexivity|reflexivity]].
      intros (login' & user' & Heq & Hsome & Hcmp). injection Heq as <-. congruence.
  - unfold Main.bad_request. cbn [Main.status Main.cookie].
    split; [split; [discriminate|]|split; [discriminate|reflexivity]].
    intros (login' & user' & Heq & _). discriminate.
Qed.


(** X26. The patient routes make no difference between callers: whatever
    the user id, email and role of two requests the middleware lets through,
    each route gives both the same answer and the same store.  The role of
    the token is never consulted. *)
Theorem patient_routes_ignore_caller (request request' : Request.t)
    (reqBody : Classes.unknown) (patient_id_param clock : string) (now now' : Z)
    (d : Pg.database) (currentUser currentUser' : CurrentUser.t) :
  getCurrentUser request now = Ok currentUser ->
  getCurrentUser request' now' = Ok currentUser' ->
  get_patients request now d = get_patients request' now' d
  /\ post_patients request reqBody now clock d
     = post_patients request' reqBody now' clock d
  /\ put_patients_visit request patient_id_param now d
     = put_patients_visit request' patient_id_param now' d
  /\ get_patients_stats request now d = get_patients_stats request' now' d.
Proof.
  intros Hcaller Hcaller'.
  unfold Main.get_patients, Main.post_patients, Main.put_patients_visit,
    Main.get_patients_stats, Main.guarded.
  rewrite !authMiddleware_cases, Hcaller, Hcaller'. repeat split.
Qed.

End RouteProperties.

(** ** The routes on concrete requests *)



Lemma validatePatientIn_accepts_witness :
  Classes.validatePatientIn Sample.toy_string_issue Sample.toy_enum_issue
    Sample.toy_object_issue Sample.patient_spaces
  = Classes.Success (PatientIn.mk "   " " Flu " "Normal")
  /\ exists rest,
       Classes.validatePatientIn Sample.toy_string_issue Sample.toy_enum_issue
         Sample.toy_object_issue Sample.patient_al
       = Classes.Failure ("name must be at least 3 characters" :: rest).
Proof.
  destruct (validatePatientIn_accepts Sample.toy_string_issue Sample.toy_enum_issue
              Sample.toy_object_issue) as (Haccepts & _ & Hshort).
  split.
  - apply Haccepts. cbn [PatientIn.name PatientIn.problem PatientIn.priority].
    split; [reflexivity|]. split; [simpl; lia|].
    split; [reflexivity|]. split; [simpl; lia|].
    left. split; reflexivity.
  - apply (Hshort _ "Al"); [reflexivity|simpl; lia].
Defined.

Lemma validateSignupRequest_accepts_witness :
  Classes.validateSignupRequest Sample.has_at Sample.toy_string_issue
    Sample.toy_object_issue Sample.signup_bea
  = Classes.Success (SignupRequest.mk "Bea" "bea@clinic.com" "secret2")
  /\ Classes.validateSignupRequest Sample.has_at Sample.toy_string_issue
       Sample.toy_object_issue Sample.signup_short_password
     = Classes.Failure ["password must be at least 6 characters"].
Proof.
  destruct (validateSignupRequest_accepts Sample.has_at Sample.toy_string_issue
              Sample.toy_object_issue) as (Haccepts & Hshort).
  split.
  - apply Haccepts.
    cbn [SignupRequest.name SignupRequest.email SignupRequest.password].
    split; [reflexivity|]. split; [simpl; lia|].
    split; [reflexivity|]. split; [reflexivity|].
    split; [reflexivity|simpl; lia].
  - apply (Hshort _ "Bea" "bea@clinic.com" "abc");
      first [reflexivity | simpl; lia].
Defined.

Lemma guarded_routes_refuse_witness :
  Sample.get_auth_me (Request.mk None None) 2000 Sample.two_waiting
  = Main.mkResponse 401 (Main.MessageResponse Auth.invalid_credentials) None
  /\ Main.get_patients Sample.secret "HS256" "access_token" Sample.toy_sign
       Sample.toy_decode String.leb (Request.mk None None) 2000 Sample.two_waiting
     = Main.mkResponse 401 (Main.MessageResponse Auth.invalid_credentials) None
  /\ Sample.post_patients (Request.mk None None) Sample.patient_spaces 2000
       "2024-03-01T09:10:00.000Z" Sample.two_waiting
     = (Main.mkResponse 401 (Main.MessageResponse Auth.invalid_credentials) None,
        Sample.two_waiting)
  /\ Main.put_patients_visit Sample.secret "HS256" "access_token" Sample.toy_sign
       Sample.toy_decode (Request.mk None None) "1" 2000 Sample.two_waiting
     = (Main.mkResponse 401 (Main.MessageResponse Auth.invalid_credentials) None,
        Sample.two_waiting)
  /\ Main.get_patients_stats Sample.secret "HS256" "access_token" Sample.toy_sign
       Sample.toy_decode (Request.mk None None) 2000 Sample.two_waiting
     = Main.mkResponse 401 (Main.MessageResponse Auth.invalid_credentials) None.
Proof.
  exact (guarded_routes_refuse Sample.secret "HS256" "access_token" Sample.toy_sign
           Sample.toy_decode Sample.toy_string_issue Sample.toy_enum_issue
           Sample.toy_object_issue String.leb (Request.mk None None)
           Sample.patient_spaces "1" "2024-03-01T09:10:00.000Z" 2000
           Sample.two_waiting (Error Auth.invalid_credentials) eq_refl).
Defined.






Lemma patient_routes_ignore_caller_witness :
  Main.get_patients Sample.secret "HS256" "access_token" Sample.toy_sign
    Sample.toy_decode String.leb (Sample.bearer Sample.token7) 2000 Sample.two_waiting
  = Main.get_patients Sample.secret "HS256" "access_token" Sample.toy_sign
      Sample.toy_decode String.leb (Sample.bearer Sample.token_abc) 3000
      Sample.two_waiting
  /\ Sample.post_patients (Sample.bearer Sample.token7) Sample.patient_spaces 2000
       "2024-03-01T09:10:00.000Z" Sample.two_waiting
     = Sample.post_patients (Sample.bearer Sample.token_abc) Sample.patient_spaces 3000
         "2024-03-01T09:10:00.000Z" Sample.two_waiting
  /\ Main.put_patients_visit Sample.secret "HS256" "access_token" Sample.toy_sign
       Sample.toy_decode (Sample.bearer Sample.token7) "1" 2000 Sample.two_waiting
     = Main.put_patients_visit Sample.secret "HS256" "access_token" Sample.toy_sign
         Sample.toy_decode (Sample.bearer Sample.token_abc) "1" 3000
         Sample.two_waiting
  /\ Main.get_patients_stats Sample.secret "HS256" "access_token" Sample.toy_sign
       Sample.toy_decode (Sample.bearer Sample.token7) 2000 Sample.two_waiting
     = Main.get_patients_stats Sample.secret "HS256" "access_token" Sample.toy_sign
         Sample.toy_decode (Sample.bearer Sample.token_abc) 3000 Sample.two_waiting.
Proof.
  apply (patient_routes_ignore_caller Sample.secret "HS256" "access_token"
           Sample.toy_sign Sample.toy_decode Sample.toy_string_issue
           Sample.toy_enum_issue Sample.toy_object_issue String.leb
           (Sample.bearer Sample.token7) (Sample.bearer Sample.token_abc)
           Sample.patient_spaces "1" "2024-03-01T09:10:00.000Z" 2000 3000
           Sample.two_waiting
           (CurrentUser.mk (Int 7) (Some "ann@clinic.com") (Some "user"))
           (CurrentUser.mk NaN None (Some "user"))).
  - vm_compute. reflexivity.
  - vm_compute. reflexivity.
Defined.

(** ** From the claims signed to the identity resolved *)

(** X27. A token issued for some claims and extracted from a request
    before it expires resolves as follows.  With no subject among the
    claims, both resolvers refuse it with the invalid credentials error.
    With any other subject the caller is let through with the user id
    [parseInt] reads from the text of the subject and the email and role
    of the claims: the integer of a number or of its decimal text, and NaN
    for a subject that is null or a text holding no integer. *)
Theorem issued_token_identity
    (JWT_SECRET JWT_ALGORITHM JWT_COOKIE_NAME : string)
    (jws_sign : string -> string -> JWTPayload.t -> string)
    (jws_encode : Jwt.jws -> string)
    (jws_decode : string -> option Jwt.jws)
    (data : Claims.t) (request : Request.t) (token : string) (now now' : Z) :
  (forall t, jws_decode (jws_encode t) = Some t) ->
  (forall n, Claims.sub data = Num (Int n) -> isSafeInteger n = true) ->
  Auth.createAccessToken JWT_SECRET JWT_ALGORITHM jws_sign jws_encode data None now
  = Ok token ->
  Auth.extractToken JWT_COOKIE_NAME request = Ok token ->
  now' < now + 86400 ->
  (Claims.sub data = Undefined ->
   Auth.getCurrentUser JWT_SECRET JWT_ALGORITHM JWT_COOKIE_NAME jws_sign jws_decode
     request now' = Throw (Error Auth.invalid_credentials)
   /\ Auth.authMiddleware JWT_SECRET JWT_ALGORITHM JWT_COOKIE_NAME jws_sign jws_decode
        request now' = Auth.Respond 401 Auth.invalid_credentials)
  /\ (Claims.sub data <> Undefined ->
      Auth.getCurrentUser JWT_SECRET JWT_ALGORITHM JWT_COOKIE_NAME jws_sign jws_decode
        request now'
      = Ok (CurrentUser.mk (parseInt (String_ (Claims.sub data)))
              (Claims.email data) (Claims.role data))
      /\ Auth.authMiddleware JWT_SECRET JWT_ALGORITHM JWT_COOKIE_NAME jws_sign
           jws_decode request now'
         = Auth.Next (CurrentUser.mk (parseInt (String_ (Claims.sub data)))
                        (Claims.email data) (Claims.role data)))
  /\ (forall n, Claims.sub data = Num (Int n) ->
        parseInt (String_ (Claims.sub data)) = Int n)
  /\ (Claims.sub data = Null -> parseInt (String_ (Claims.sub data)) = NaN).
Proof.
  intros Hcodec _ Hissued Hextract Hfresh.
  pose proof (createAccessToken_issued JWT_SECRET JWT_ALGORITHM jws_sign
                jws_encode data None now) as Htoken.
  cbv zeta in Htoken. rewrite Hissued in Htoken. injection Htoken as ->.
  assert (Hdecoded :
            Auth.decodeToken JWT_SECRET JWT_ALGORITHM jws_sign jws_decode
              (jws_encode
                 (Jwt.mk JWT_ALGORITHM
                    (JWTPayload.mk
                       (match Claims.sub data with
                        | Undefined => Undefined
                        | v => Str (String_ v)
                        end)
                       (Claims.email data) (Claims.role data) (Some now) None
                       (Some (now + 86400)))
                    (jws_sign JWT_ALGORITHM JWT_SECRET
                       (JWTPayload.mk
                          (match Claims.sub data with
                           | Undefined => Undefined
                           | v => Str (String_ v)
                           end)
                          (Claims.email data) (Claims.role data) (Some now) None
                          (Some (now + 86400)))))) now'
            = Ok (JWTPayload.mk
                    (match Claims.sub data with
                     | Undefined => Undefined
                     | v => Str (String_ v)
                     end)
                    (Claims.email data) (Claims.role data) (Some now) None
                    (Some (now + 86400)))).
  { rewrite (decodeToken_decoded JWT_SECRET JWT_ALGORITHM jws_sign jws_decode
               _ now' _ (Hcodec _)).
    cbn [Jwt.alg Jwt.signature Jwt.payload JWTPayload.nbf JWTPayload.exp].
    rewrite !String.eqb_refl.
    destruct (Z.ltb_spec now' (now + 86400)) as [_|Hge]; [reflexivity|lia]. }
  pose proof (resolve_verified JWT_SECRET JWT_ALGORITHM JWT_COOKIE_NAME jws_sign
                jws_decode request now' _ _ Hextract Hdecoded) as Hres.
  cbv zeta in Hres.
  cbn [JWTPayload.sub JWTPayload.email JWTPayload.role] in Hres.
  split; [|split; [|split]].
  - intros Hsub. rewrite Hsub in Hres. exact Hres.
  - intros Hsub.
    destruct (Claims.sub data) as [| |n|s]; [now elim Hsub|exact Hres..].
  - intros n ->. cbn [String_]. apply parseInt_numberToString.
  - intros ->. reflexivity.
Qed.

Lemma issued_token_identity_witness :
  (Claims.sub Sample.claims7 = Undefined ->
   Auth.getCurrentUser Sample.secret "HS256" "access_token" Sample.toy_sign
     Sample.toy_decode (Sample.bearer Sample.token7) 2000
   = Throw (Error Auth.invalid_credentials)
   /\ Auth.authMiddleware Sample.secret "HS256" "access_token" Sample.toy_sign
        Sample.toy_decode (Sample.bearer Sample.token7) 2000
      = Auth.Respond 401 Auth.invalid_credentials)
  /\ (Claims.sub Sample.claims7 <> Undefined ->
      Auth.getCurrentUser Sample.secret "HS256" "access_token" Sample.toy_sign
        Sample.toy_decode (Sample.bearer Sample.token7) 2000
      = Ok (CurrentUser.mk (parseInt (String_ (Claims.sub Sample.claims7)))
              (Claims.email Sample.claims7) (Claims.role Sample.claims7))
      /\ Auth.authMiddleware Sample.secret "HS256" "access_token" Sample.toy_sign
           Sample.toy_decode (Sample.bearer Sample.token7) 2000
         = Auth.Next (CurrentUser.mk (parseInt (String_ (Claims.sub Sample.claims7)))
                        (Claims.email Sample.claims7) (Claims.role Sample.claims7)))
  /\ (forall n, Claims.sub Sample.claims7 = Num (Int n) ->
        parseInt (String_ (Claims.sub Sample.claims7)) = Int n)
  /\ (Claims.sub Sample.claims7 = Null ->
      parseInt (String_ (Claims.sub Sample.claims7)) = NaN).
Proof.
  apply (issued_token_identity Sample.secret "HS256" "access_token" Sample.toy_sign
           Sample.toy_encode Sample.toy_decode Sample.claims7
           (Sample.bearer Sample.token7) (Sample.toy_encode Sample.token7) 1000 2000).
  - exact toy_codec.
  - intros n H. injection H as <-. reflexivity.
  - vm_compute. reflexivity.
  - vm_compute. reflexivity.
  - lia.
Defined.
